(** * ztfquery/io.py: the download-and-integrity pipeline

    A shallow embedding of the cache decision ([get_file]), the fetcher
    ([download_single_url], [download_url]), the integrity checks
    ([_test_file_], [_is_fitsfile_bad_], [test_files]), the remediator
    ([_fileissue_]) and the hash tools of [ztfquery/io.py].

    Python code that touches the disk, the network, the clock or the random
    generator becomes a computation in the monad [M]: a function from a
    [world] to an outcome (a value or a raised exception) and the next
    [world].  What lives outside [io.py] (hashlib's md5, astropy's parser, the
    remote server, [buildurl], the credential store) is gathered in the
    record [env]. *)

From Stdlib Require Import QArith Ascii.
From stdpp Require Import base gmap strings list pretty.

Local Open Scope string_scope.

(** ** Byte strings

    File contents, response bodies and paths are Python [bytes]/[str]: a
    Rocq [string] is a sequence of 8-bit characters. *)

(** [needle in hay] on Python strings. *)
Definition py_in (needle hay : string) : bool :=
  match String.index 0 needle hay with
  | Some _ => true
  | None => false
  end.

(** [f.read(n)] on an open file whose unread part is [s]: the bytes read and
    the bytes left. *)
Fixpoint read (n : nat) (s : string) : string * string :=
  match n, s with
  | S n', String c r => let '(h, t) := read n' r in (String c h, t)
  | _, _ => ("", s)
  end.

(** [iter(lambda: f.read(n), b"")], and likewise
    [response.iter_content(n)]: chunks of [n] bytes until the first empty
    read.  [fuel] bounds the number of reads. *)
Fixpoint read_chunks (fuel n : nat) (s : string) : list string :=
  match fuel with
  | O => []
  | S fuel' =>
      let '(h, t) := read n s in
      if decide (h = "") then [] else h :: read_chunks fuel' n t
  end.

(** The chunks of a whole file: one read per byte is always enough fuel,
    plus the final empty read. *)
Definition chunks_of (n : nat) (s : string) : list string :=
  read_chunks (S (String.length s)) n s.

(** [posixpath.dirname]: the part before the last slash, with the trailing
    slashes of that part removed unless it consists of slashes only. *)
Fixpoint head_upto_slash (p : string) : option string :=
  match p with
  | "" => None
  | String c r =>
      match head_upto_slash r with
      | Some h => Some (String c h)
      | None => if Ascii.eqb c "/"%char then Some (String c "") else None
      end
  end.

Fixpoint all_slashes (s : string) : bool :=
  match s with
  | "" => true
  | String c r => Ascii.eqb c "/"%char && all_slashes r
  end.

Fixpoint rstrip_slashes (s : string) : string :=
  match s with
  | "" => ""
  | String c r =>
      if all_slashes s then "" else String c (rstrip_slashes r)
  end.

Definition dirname (p : string) : string :=
  match head_upto_slash p with
  | None => ""
  | Some h => if all_slashes h then h else rstrip_slashes h
  end.

(** The chain of parent directories of [d], nearest first. *)
Fixpoint parents (fuel : nat) (d : string) : list string :=
  match fuel with
  | O => []
  | S fuel' =>
      let up := dirname d in
      if decide (up = "") then []
      else if decide (up = d) then []
      else up :: parents fuel' up
  end.

(** [filename.split(".")[-1]]. *)
Fixpoint after_last_dot (s : string) : string :=
  match s with
  | "" => ""
  | String c r =>
      if Ascii.eqb c "."%char then
        (if py_in "." r then after_last_dot r else r)
      else (if py_in "." r then after_last_dot r else s)
  end.

(** ** Python values that end up formatted into a URL *)

Inductive pyval :=
| PyNone
| PyInt (z : Z)
| PyStr (s : string).

(** [f"{v}"]. *)
Definition py_str (v : pyval) : string :=
  match v with
  | PyNone => "None"
  | PyInt z => pretty z
  | PyStr s => s
  end.

(** ** Exceptions and outcomes *)

Inductive exn :=
| NameError (name : string)
| ValueError (msg : string)
| TypeError (msg : string)
| IndexError
| FileNotFoundError (path : string)
| FileExistsError (path : string)
| IsADirectoryError (path : string)
| NotADirectoryError (path : string)
| UnicodeDecodeError
| OSError (msg : string)
| AttributeError (msg : string)
| EOFError.

Inductive result (A : Type) :=
| Ok (a : A)
| Raise (e : exn).
Arguments Ok {A} a.
Arguments Raise {A} e.

(** ** The world *)

(** A sample of [np.random.uniform(0, 1)]: the rational
    [us_num / (us_num + us_gap)], which lies in the half-open unit
    interval by construction. *)
Record unit_sample := UnitSample { us_num : N; us_gap : positive }.

Definition sample_value (u : unit_sample) : Q :=
  Qmake (Z.of_N (us_num u))
        (match us_num u with
         | N0 => us_gap u
         | Npos p => (p + us_gap u)%positive
         end).

(** One HTTP response, as far as [io.py] looks at it. *)
Record response := Response {
  status_code : Z;
  content : string;
  content_length : option Z;   (* the content-length header, if sent *)
  set_cookies : list string;
}.

(** What a call does that an observer can see, besides the files. *)
Inductive event :=
| EvSleep (seconds : Q)
| EvLog (level msg : string)
| EvFitsGetdata (path : string)
| EvTextRead (path : string)
| EvMd5 (path digest : string)
| EvLogin (session : option nat) (url : string)
| EvFetch (session : option nat) (method url : string)
          (cookies : list string) (data : option string).

Record world := World {
  files : gmap string string;    (* regular files: path to content *)
  dirs : gset string;            (* existing directories *)
  jars : gmap nat (list string); (* cookies held by live requests.Session objects *)
  umask : N;
  draws : nat;                   (* samples taken so far from np.random *)
  trace : list event;            (* latest event first *)
}.

Definition set_files (f : gmap string string → gmap string string) (w : world) : world :=
  World (f (files w)) (dirs w) (jars w) (umask w) (draws w) (trace w).
Definition set_dirs (f : gset string → gset string) (w : world) : world :=
  World (files w) (f (dirs w)) (jars w) (umask w) (draws w) (trace w).
Definition set_jars (f : gmap nat (list string) → gmap nat (list string)) (w : world) : world :=
  World (files w) (dirs w) (f (jars w)) (umask w) (draws w) (trace w).
Definition set_umask (m : N) (w : world) : world :=
  World (files w) (dirs w) (jars w) m (draws w) (trace w).
Definition set_draws (n : nat) (w : world) : world :=
  World (files w) (dirs w) (jars w) (umask w) n (trace w).
Definition emit (e : event) (w : world) : world :=
  World (files w) (dirs w) (jars w) (umask w) (draws w) (e :: trace w).

(** ** The monad of effectful Python code *)

Definition M (A : Type) : Type := world → result A * world.

Definition ret {A} (a : A) : M A := λ w, (Ok a, w).
Definition raise {A} (e : exn) : M A := λ w, (Raise e, w).
Definition bind {A B} (m : M A) (k : A → M B) : M B :=
  λ w, match m w with
       | (Ok a, w') => k a w'
       | (Raise e, w') => (Raise e, w')
       end.

#[global] Instance M_ret : MRet M := @ret.
#[global] Instance M_bind : MBind M := λ A B k m, bind m k.

Definition gets {A} (f : world → A) : M A := λ w, (Ok (f w), w).
Definition modify (f : world → world) : M unit := λ w, (Ok tt, f w).
Definition tell (e : event) : M unit := modify (emit e).

(** [try: body except <class>: handler], where [catches e] says whether the
    [except] clause matches the exception. *)
Definition try_except {A} (body : M A) (catches : exn → bool)
    (handler : exn → M A) : M A :=
  λ w, match body w with
       | (Ok a, w') => (Ok a, w')
       | (Raise e, w') => if catches e then handler e w' else (Raise e, w')
       end.

Definition is_FileNotFoundError (e : exn) : bool :=
  match e with FileNotFoundError _ => true | _ => false end.

(** ** Collaborators outside io.py *)

Record env := Env {
  (* hashlib: the hex digest of the bytes fed to an md5 object *)
  md5_hexdigest : string → string;
  (* astropy: does fits.getdata succeed on a file with this content? *)
  fits_parses : string → bool;
  (* does a text-mode read decode this content? *)
  text_decodes : string → bool;
  (* the remote: method, url, cookies presented, POST data *)
  http : string → string → list string → option string → response;
  (* np.random: the n-th sample of the unit interval *)
  uniform01 : nat → unit_sample;
  (* buildurl._localsource_to_source_: (url, location) of a local path *)
  _localsource_to_source_ : string → option string * option string;
  (* the credential store behind _load_id_: the login saved under a name,
     or, for a name without entry, the exception that ends the prompt of
     set_account when nobody answers it *)
  credentials : string → result (string * string);
  (* glob.glob(pattern, recursive=True) on the current files *)
  glob : gmap string string → string → list string;
  (* os.getenv("ZTFDATA") when io.py was imported *)
  getenv_ZTFDATA : option string;
}.

(** ** os, os.path, open, time, logging *)

Definition os_path_isfile (w : world) (p : string) : bool :=
  bool_decide (is_Some (files w !! p)).

Definition os_path_exists (w : world) (p : string) : bool :=
  os_path_isfile w p || bool_decide (p ∈ dirs w).

(** Resolving a path that is neither a file nor a directory fails with
    ENOTDIR instead of ENOENT when the walk from the root runs into a
    regular file: going up from the path, the first ancestor that exists
    is a file and not a directory. *)
Fixpoint nearest_is_file (w : world) (ups : list string) : bool :=
  match ups with
  | [] => false
  | up :: rest =>
      if bool_decide (up ∈ dirs w) then false
      else if os_path_isfile w up then true
      else nearest_is_file w rest
  end.

Definition below_file (w : world) (p : string) : bool :=
  nearest_is_file w (parents (String.length p) p).

(** The OSError of a system call on a path [p] that is not there. *)
Definition no_such_file (w : world) (p : string) : exn :=
  if below_file w p then NotADirectoryError p else FileNotFoundError p.

Definition os_remove (p : string) : M unit :=
  λ w, if os_path_isfile w p then (Ok tt, set_files (delete p) w)
       else if bool_decide (p ∈ dirs w) then (Raise (IsADirectoryError p), w)
       else (Raise (no_such_file w p), w).

(** [open(p, "rb").read()], all at once. *)
Definition read_file (p : string) : M string :=
  λ w, match files w !! p with
       | Some c => (Ok c, w)
       | None => if bool_decide (p ∈ dirs w) then (Raise (IsADirectoryError p), w)
                 else (Raise (no_such_file w p), w)
       end.

(** [open(p, "w"/"wb")]: creates or truncates the file.  The directory
    part of [p] must exist, the empty one being the working directory. *)
Definition open_for_write (p : string) : M unit :=
  λ w, if bool_decide (p ∈ dirs w) then (Raise (IsADirectoryError p), w)
       else if below_file w p then (Raise (NotADirectoryError p), w)
       else if bool_decide (dirname p = "") || bool_decide (dirname p ∈ dirs w)
       then (Ok tt, set_files (<[p := ""]>) w)
       else (Raise (FileNotFoundError p), w).

(** [f.write(data)] on a file opened by [open_for_write]: appends. *)
Definition file_write (p data : string) : M unit :=
  modify (set_files (λ fs, <[p := default "" (fs !! p) ++ data]> fs)).

(** [os.makedirs(d, exist_ok=True)]: it goes up from [d] to the first
    ancestor that exists, then makes the directories below it, starting
    with the topmost.  When that ancestor is a regular file, the first
    [mkdir], on the child [below] it, raises NotADirectoryError. *)
Fixpoint mkdir_blocked (w : world) (below : string) (ups : list string)
    : option string :=
  match ups with
  | [] => None
  | up :: rest =>
      if bool_decide (up ∈ dirs w) then None
      else if os_path_isfile w up then Some below
      else mkdir_blocked w up rest
  end.

Definition os_makedirs (d : string) : M unit :=
  λ w, if bool_decide (d = "") then (Raise (FileNotFoundError d), w)
       else if os_path_isfile w d then (Raise (FileExistsError d), w)
       else match mkdir_blocked w d (parents (String.length d) d) with
            | Some below => (Raise (NotADirectoryError below), w)
            | None =>
                (Ok tt, set_dirs (λ ds, list_to_set (d :: parents (String.length d) d) ∪ ds) w)
            end.

(** [os.umask(m)]: sets the mask, returns the old one. *)
Definition os_umask (m : N) : M N :=
  λ w, (Ok (umask w), set_umask m w).

(** [time.sleep(t)]: a negative duration is a ValueError. *)
Definition time_sleep (t : Q) : M unit :=
  if Qle_bool 0 t then tell (EvSleep t)
  else raise (ValueError "sleep length must be non-negative").

(** [np.random.uniform(0, high)]. *)
Definition np_random_uniform (E : env) (high : Q) : M Q :=
  λ w, (Ok (Qmult high (sample_value (uniform01 E (draws w)))),
        set_draws (S (draws w)) w).

Definition logger_debug (msg : string) : M unit := tell (EvLog "debug" msg).
Definition logger_info (msg : string) : M unit := tell (EvLog "info" msg).
Definition logger_warning (msg : string) : M unit := tell (EvLog "warning" msg).

(** [for x in xs: body(x)]. *)
Fixpoint for_each {A} (xs : list A) (body : A → M unit) : M unit :=
  match xs with
  | [] => ret tt
  | x :: xs' => body x ;; for_each xs' body
  end.

(** ** Module-level names

    A name read inside a function body that is neither a parameter nor
    assigned in that body is looked up among the names bound at module
    level (imports, constants, functions); when it is not there either,
    the read raises NameError (no builtin carries these names). *)

Inductive global_value :=
| GStr (s : string)   (* a string literal bound at module level *)
| GObject.            (* a module, a function, or a value computed at import *)

Definition LOGIN_URL : string :=
  "https://irsa.ipac.caltech.edu/account/signon/login.do".
Definition CCIN2P3_SOURCE : string := "/sps/ztf/data/".

Definition module_globals : list (string * global_value) :=
  [ ("os", GObject); ("hashlib", GObject); ("logging", GObject);
    ("multiprocessing", GObject); ("sys", GObject); ("time", GObject);
    ("pandas", GObject); ("requests", GObject); ("warnings", GObject);
    ("np", GObject); ("LOGIN_URL", GStr LOGIN_URL); ("base64", GObject);
    ("ConfigParser", GObject); ("fits", GObject);
    ("is_running_from_notebook", GObject); ("_SOURCEDIR", GObject);
    ("_ENCRYPT_FILE", GObject); ("_ENCRYPTING_FILE", GObject);
    ("LOCALSOURCE", GObject); ("CCIN2P3_SOURCE", GStr CCIN2P3_SOURCE);
    ("logger", GObject); ("get_file", GObject);
    ("filefracday_to_local_rawdata", GObject);
    ("filefracday_and_ccdid_to_rawfilename", GObject);
    ("bulk_get_file", GObject); ("get_filedataframe", GObject);
    ("filename_to_kind", GObject); ("parse_filename", GObject);
    ("get_mask_of_filename", GObject); ("download_from_filename", GObject);
    ("_parse_filename_", GObject); ("open_irsa_session", GObject);
    ("_load_id_", GObject); ("set_account", GObject);
    ("test_irsa_account", GObject); ("get_localfiles", GObject);
    ("run_full_filecheck", GObject); ("test_files", GObject);
    ("_test_file_multiprocess_", GObject); ("_are_fitsfiles_bad_", GObject);
    ("_is_fitsfile_bad_", GObject); ("_is_textfile_bad_", GObject);
    ("_test_file_", GObject); ("_fileissue_", GObject);
    ("get_cookie", GObject); ("_download_", GObject);
    ("download_url", GObject); ("download_fitsdata", GObject);
    ("download_single_url", GObject); ("test_url_exists", GObject);
    ("calculate_hash", GObject); ("calculate_and_write_hash", GObject);
    ("read_hash", GObject); ("compare_hash", GObject);
    ("hash_for_file_exists", GObject) ].

Definition load_global (name : string) : M global_value :=
  match List.find (λ kv, String.eqb (fst kv) name) module_globals with
  | Some kv => ret (snd kv)
  | None => raise (NameError name)
  end.

(** A global used where a path is expected. *)
Definition as_path (g : global_value) : M string :=
  match g with
  | GStr s => ret s
  | GObject => raise (TypeError "expected str, bytes or os.PathLike object")
  end.

(** The argument of a [cookies=] keyword: [None], the string
    ["no_cookies"], or a cookie jar. *)
Inductive cookies_arg :=
| CookiesNone
| NoCookies
| CookieJar (jar : list string).

Definition cookies_of_option (o : option (list string)) : cookies_arg :=
  match o with
  | Some jar => CookieJar jar
  | None => CookiesNone
  end.

(** What [download_single_url] returns: [None], or the response when no
    [fileout] is given. *)
Inductive dl_result :=
| ReturnsNone
| ReturnsResponse (r : response).

(** The parameters of [download_single_url]; [dl_data] is the [data] entry
    of [**kwargs], the one keyword the body looks at. *)
Record dl_args := DlArgs {
  dl_url : string;
  dl_session : option nat;
  dl_cutouts : bool;
  dl_radec : option (list pyval);
  dl_cutout_size : pyval;
  dl_fileout : option string;
  dl_overwrite : bool;
  dl_cookies : cookies_arg;
  dl_show_progress : bool;
  dl_chunk : positive;
  dl_wait : option Q;
  dl_randomize_wait : bool;
  dl_filecheck : bool;
  dl_erasebad : bool;
  dl_write_hash : bool;
  dl_data : option string;
}.

(** [download_single_url(url)] with every keyword at its default. *)
Definition default_args (url : string) : dl_args :=
  {| dl_url := url; dl_session := None; dl_cutouts := false;
     dl_radec := None; dl_cutout_size := PyInt 30; dl_fileout := None;
     dl_overwrite := false; dl_cookies := CookiesNone;
     dl_show_progress := true; dl_chunk := 1024%positive; dl_wait := None;
     dl_randomize_wait := true; dl_filecheck := true; dl_erasebad := true;
     dl_write_hash := false; dl_data := None |}.

Section Code.
Context (E : env).

(** ** HASH tools *)

Definition calculate_hash (fname : string) : M string :=
  data ← read_file fname;
  (* hash_md5.update(chunk) for each chunk: an md5 object digests the
     concatenation of what it was fed *)
  let fed := foldl String.append "" (chunks_of 4096 data) in
  let hexdigest := md5_hexdigest E fed in
  tell (EvMd5 fname hexdigest) ;;
  ret hexdigest.

Definition calculate_and_write_hash (fname : string) : M unit :=
  hexdigest ← calculate_hash fname;
  open_for_write (fname ++ ".md5") ;;
  file_write (fname ++ ".md5") hexdigest.

(** [open(p).read()] in text mode. *)
Definition read_text (p : string) : M string :=
  data ← read_file p;
  if text_decodes E data then ret data else raise UnicodeDecodeError.

Definition read_hash (fname : string) : M string :=
  read_text (fname ++ ".md5").

Definition compare_hash (fname : string) : M bool :=
  hash_fname ← load_global "hash_fname" ≫= as_path;
  hash_md5_read ← read_text hash_fname;
  hash_md5_calculated ← calculate_hash fname;
  if decide (hash_md5_read = hash_md5_calculated) then ret true else ret false.

Definition hash_for_file_exists (fname : string) : M bool :=
  gets (λ w, os_path_exists w (fname ++ ".md5")).

(** ** Logging tools *)

(** [_load_id_(which)], called as everywhere in [io.py] with [askit]
    left at True.  When the store holds the entry, [credentials] is the
    login it decodes to.  When it does not, the code warns and calls
    [set_account], which asks for the login on the console, tries it on
    the remote and saves it: that dialogue is not rendered here.  The
    model follows the run in which nobody answers, where the prompt ends
    the call with an exception (EOFError without a terminal), the [Raise]
    of [credentials]; nothing was tried or saved by then.  A [which] of
    None names no entry, so it always takes that road. *)
Definition _load_id_ (which : option string) : M (string * string) :=
  match which with
  | Some name =>
      match credentials E name with
      | Ok c => ret c
      | Raise e =>
          logger_warning ("No " ++ name ++ " account setup, please provide it") ;;
          raise e
      end
  | None =>
      logger_warning "No None account setup, please provide it" ;;
      raise EOFError
  end.

Definition session_cookies (session : option nat) (w : world) : list string :=
  match session with
  | Some s => default [] (jars w !! s)
  | None => []
  end.

(** [session.get(url)] / [requests.get(url)] on the login page. *)
Definition login_request (session : option nat) (url : string) : M response :=
  jar ← gets (session_cookies session);
  tell (EvLogin session url) ;;
  let r := http E "get" url jar None in
  match session with
  | Some s => modify (set_jars (<[s := (jar ++ set_cookies r)%list]>))
  | None => ret tt
  end ;;
  ret r.

Definition get_cookie (username password : option string)
    (session : option nat) (update : bool) : M (option (list string)) :=
  jar ← gets (session_cookies session);
  if bool_decide (session ≠ None) && bool_decide (0 < length jar)%nat && negb update
  then ret None
  else
    '(username, password) ←
      match username, password with
      | Some u, Some p => ret (u, p)
      | _, _ => _load_id_ (Some "irsa")
      end;
    let url := LOGIN_URL ++ "?josso_cmd=login&josso_username=" ++ username
                 ++ "&josso_password=" ++ password in
    match session with
    | Some s => _ ← login_request (Some s) url; ret tt
    | None => ret tt
    end ;;
    r ← login_request None url;
    ret (Some (set_cookies r)).

(** [getattr(requests_or_session, request_fnc)(url, **download_prop)]. *)
Definition send_request (session : option nat) (method url : string)
    (cookies : option (list string)) (data : option string) : M response :=
  jar ← gets (session_cookies session);
  tell (EvFetch session method url (default [] cookies) data) ;;
  let r := http E method url (default [] cookies ++ jar)%list data in
  match session with
  | Some s => modify (set_jars (<[s := (jar ++ set_cookies r)%list]>))
  | None => ret tt
  end ;;
  ret r.

(** ** File tests and remediation

    [_test_file_] calls [_fileissue_], which calls [download_single_url]
    when [redownload] is set, which calls [_test_file_] again, this time
    with [redownload] left at its default False.  The three bodies are
    written over the function they call back, and the cycle is closed in
    two layers below. *)

Definition fits_getdata (filename : string) : M unit :=
  tell (EvFitsGetdata filename) ;;
  data ← read_file filename;
  if fits_parses E data then ret tt
  else raise (OSError "cannot read the FITS file").

Definition text_readlines (filename : string) : M unit :=
  tell (EvTextRead filename) ;;
  _ ← read_text filename;
  ret tt.

Section Bodies.
(** [download_single_url(url, fileout=filename, overwrite=True,
    cookies=ck)] as seen from [_fileissue_]. *)
Variable redownload_call : string → string → cookies_arg → M unit.

Definition _fileissue_body (filename : string)
    (erasebad fromdl redownload : bool) : M unit :=
  (if fromdl
   then logger_info ("Download failed " ++ filename ++ " seems corrupted (cannot open)")
   else logger_info ("cannot open file " ++ filename)) ;;
  (if erasebad
   then logger_info ("removing " ++ filename) ;; os_remove filename
   else logger_info (filename ++ " NOT ERASED")) ;;
  if redownload then
    let '(url_to_dl, location) := _localsource_to_source_ E filename in
    match url_to_dl with
    | Some u =>
        ids ← _load_id_ location;
        ck ← get_cookie (Some (fst ids)) (Some (snd ids)) None false;
        redownload_call u filename (cookies_of_option ck)
    | None => logger_info "No url to donwload, redownload ignored"
    end
  else ret tt.

(** The body shared by the [.fits] and [.txt] branches of
    [_test_file_], which differ in the read attempted. *)
Definition verify_unless_hashed (attempt : M unit) (filename : string)
    (erasebad fromdl redownload write_hash : bool) : M bool :=
  hashed ← hash_for_file_exists filename;
  if (hashed : bool) then ret true
  else
    try_except
      (attempt ;;
       (if write_hash then calculate_and_write_hash filename
        else _ ← calculate_hash filename; ret tt) ;;
       ret true)
      (λ _, true)
      (λ e, if is_FileNotFoundError e
            then logger_debug ("[Errno 2] No such file or directory: " ++ filename) ;;
                 ret true
            else _fileissue_body filename erasebad fromdl redownload ;;
                 ret false).

Definition _test_file_body (filename : string)
    (erasebad fromdl redownload write_hash : bool) : M bool :=
  if py_in ".fits" filename then
    verify_unless_hashed (fits_getdata filename) filename
      erasebad fromdl redownload write_hash
  else if py_in ".txt" filename then
    verify_unless_hashed (text_readlines filename) filename
      erasebad fromdl redownload write_hash
  else
    logger_warning ("no file testing made for ." ++ after_last_dot filename ++ " files") ;;
    ret true.
End Bodies.

(** The test that guards the skip in [download_single_url]:
    [fileout is not None and not overwrite and os.path.isfile(fileout)]. *)
Definition already_there (a : dl_args) (w : world) : bool :=
  match dl_fileout a with
  | Some f => negb (dl_overwrite a) && os_path_isfile w f
  | None => false
  end.

(** [if cookies is None: cookies = get_cookie(session=session,
    update=False)]. *)
Definition cookies_or_login (cookies : cookies_arg) (session : option nat)
    : M cookies_arg :=
  match cookies with
  | CookiesNone =>
      ck ← get_cookie None None session false;
      ret (cookies_of_option ck)
  | given => ret given
  end.

(** The first statement of [download_single_url]:
    [if wait is not None: time.sleep(wait if not randomize_wait else
    np.random.uniform(0, wait))]. *)
Definition rate_limit_pause (wait : option Q) (randomize_wait : bool) : M unit :=
  match wait with
  | Some wait =>
      waiting ← (if negb randomize_wait then ret wait
                 else np_random_uniform E wait);
      time_sleep waiting
  | None => ret tt
  end.

(** The body of [download_single_url], over the post-fetch check
    [_test_file_(fileout, erasebad=erasebad, fromdl=True,
    write_hash=write_hash)]. *)
Definition download_single_url_body
    (post_check : string → bool → bool → M bool) (a : dl_args) : M dl_result :=
  rate_limit_pause (dl_wait a) (dl_randomize_wait a) ;;
  skip ← gets (already_there a);
  if (skip : bool) then
    logger_debug (default "" (dl_fileout a) ++ " already exists: skipped") ;;
    ret ReturnsNone
  else
    match dl_fileout a with
    | Some (String c f) =>
        logger_debug ("downloading " ++ dl_url a ++ " to " ++ String c f)
    | _ => ret tt
    end ;;
    url ← (if dl_cutouts a then
             match dl_radec a with
             | None =>
                 raise (ValueError "You selected to download cutouts only. Please provide the radec parameter. Default cutout_size: 30 arcsec")
             | Some radec =>
                 match radec !! 0%nat, radec !! 1%nat with
                 | Some ra, Some dec =>
                     ret (dl_url a ++ "?center=" ++ py_str ra ++ "," ++ py_str dec
                            ++ "&size=" ++ py_str (dl_cutout_size a)
                            ++ "arcsec&gzip=false")
                 | _, _ => raise IndexError
                 end
             end
           else ret (dl_url a));
    cookies ← cookies_or_login (dl_cookies a) (dl_session a);
    let sent := match cookies with
                | CookieJar jar => Some jar
                | _ => None
                end in
    let request_fnc := match dl_data a with
                       | Some _ => "post"
                       | None => "get"
                       end in
    match dl_fileout a with
    | None =>
        r ← send_request (dl_session a) request_fnc url sent (dl_data a);
        ret (ReturnsResponse r)
    | Some fileout =>
        let directory := dirname fileout in
        _ ← os_umask 2;
        there ← gets (λ w, os_path_exists w directory);
        (if (there : bool) then ret tt else os_makedirs directory) ;;
        response ← send_request (dl_session a) request_fnc url sent (dl_data a);
        let write_body :=
          for_each (chunks_of (Pos.to_nat (dl_chunk a)) (content response))
                   (file_write fileout) in
        (if negb (dl_show_progress a) then
           if decide (status_code response = 200%Z) then
             open_for_write fileout ;; write_body
           else ret tt
         else
           if decide (status_code response = 200%Z) then
             open_for_write fileout ;;
             match content_length response with
             | None =>
                 raise (TypeError "int() argument must be a string, a bytes-like object or a real number, not 'NoneType'")
             | Some _ => write_body
             end
           else ret tt) ;;
        (if dl_filecheck a then
           _ ← post_check fileout (dl_erasebad a) (dl_write_hash a); ret tt
         else ret tt) ;;
        ret ReturnsNone
    end.

(** First layer: the check after a fetch.  It is called with
    [redownload] False, so it never calls back. *)
Definition post_fetch_check (fileout : string) (erasebad write_hash : bool) : M bool :=
  _test_file_body (λ _ _ _, ret tt) fileout erasebad true false write_hash.

Definition download_single_url (a : dl_args) : M dl_result :=
  download_single_url_body post_fetch_check a.

(** Second layer: the functions as the module exports them. *)
Definition redownload (url filename : string) (ck : cookies_arg) : M unit :=
  _ ← download_single_url
        {| dl_url := url; dl_session := None; dl_cutouts := false;
           dl_radec := None; dl_cutout_size := PyInt 30;
           dl_fileout := Some filename; dl_overwrite := true;
           dl_cookies := ck; dl_show_progress := true;
           dl_chunk := 1024%positive; dl_wait := None;
           dl_randomize_wait := true; dl_filecheck := true;
           dl_erasebad := true; dl_write_hash := false; dl_data := None |};
  ret tt.

Definition _fileissue_ (filename : string) (erasebad fromdl redownload_ : bool) : M unit :=
  _fileissue_body redownload filename erasebad fromdl redownload_.

Definition _test_file_ (filename : string)
    (erasebad fromdl redownload_ write_hash : bool) : M bool :=
  _test_file_body redownload filename erasebad fromdl redownload_ write_hash.

Definition _test_file_multiprocess_ (args : string * bool) : M bool :=
  let '(filename, erasebad) := args in
  _test_file_ filename erasebad false false false.

Definition _is_fitsfile_bad_ (filename : string) (test_exist : bool) : M bool :=
  there ← gets (λ w, os_path_isfile w filename);
  if negb there then ret test_exist
  else try_except (fits_getdata filename ;; ret false) (λ _, true) (λ _, ret true).

(** ** Cache decision: lines 110-120 of [get_file] *)

Fixpoint map_M {A B} (f : A → M B) (xs : list A) : M (list B) :=
  match xs with
  | [] => ret []
  | x :: xs' => y ← f x; ys ← map_M f xs'; ret (y :: ys)
  end.

(** The element of the list comprehension:
    [(not os.path.isfile(f_)) or (test_file and ".fits" in f_ and
    _is_fitsfile_bad_(f_))], with the short-circuits of [or] and [and]. *)
Definition flag_without_overwrite (test_file : bool) (f_ : string) : M bool :=
  there ← gets (λ w, os_path_isfile w f_);
  if negb there then ret true
  else if test_file && py_in ".fits" f_ then _is_fitsfile_bad_ f_ true
  else ret false.

Definition get_file_flag_todl (local_filenames : list string)
    (overwrite test_file : bool) : M (list bool) :=
  if overwrite then ret (List.map (λ _, true) local_filenames)
  else map_M (flag_without_overwrite test_file) local_filenames.

(** ** Dispatch of a batch of fetches *)

(** One tuple of the argument list handed to the worker pool. *)
Record task := Task {
  t_url : string;
  t_fileout : string;
  t_session : option nat;
  t_overwrite : bool;
  t_wait : option Q;
  t_cutouts : bool;
  t_ra : pyval;
  t_dec : pyval;
  t_cutout_size : pyval;
}.

Definition _download_ (args : task) : M unit :=
  _ ← download_single_url
        {| dl_url := t_url args; dl_session := t_session args;
           dl_cutouts := t_cutouts args;
           dl_radec := Some [t_ra args; t_dec args];
           dl_cutout_size := t_cutout_size args;
           dl_fileout := Some (t_fileout args);
           dl_overwrite := t_overwrite args; dl_cookies := CookiesNone;
           dl_show_progress := true; dl_chunk := 1024%positive;
           dl_wait := t_wait args; dl_randomize_wait := true;
           dl_filecheck := true; dl_erasebad := true;
           dl_write_hash := false; dl_data := None |};
  ret tt.

(** The [zip(...)] of the multiprocessing branch of [download_url]; a
    [radec] of None becomes the pair [None, None]. *)
Definition pool_args (to_download_urls download_location : list string)
    (session : option nat) (overwrite : bool) (wait : option Q)
    (cutouts : bool) (radec : option (list pyval)) (cutout_size : pyval)
    : M (list task) :=
  let radec := default [PyNone; PyNone] radec in
  match radec !! 0%nat, radec !! 1%nat with
  | Some ra, Some dec =>
      ret (List.map
             (λ uf, Task (fst uf) (snd uf) session overwrite wait cutouts
                         ra dec cutout_size)
             (zip to_download_urls download_location))
  | _, _ => raise IndexError
  end.

(** A dask [Client]: [io.py] only hands work to it. *)
Inductive dask_client := DaskClient.

(** The calls that [download_url] wraps with [delayed] for a dask
    client, one per pair of [zip(to_download_urls, download_location)],
    with the progress bar off. *)
Definition delayed_calls (to_download_urls download_location : list string)
    (session : option nat) (cutouts : bool) (wait : option Q)
    (overwrite : bool) (cookies : cookies_arg)
    (radec : option (list pyval)) (cutout_size : pyval)
    (write_hash : bool) : list dl_args :=
  List.map
    (λ uf, {| dl_url := fst uf; dl_session := session;
              dl_cutouts := cutouts; dl_radec := radec;
              dl_cutout_size := cutout_size;
              dl_fileout := Some (snd uf); dl_overwrite := overwrite;
              dl_cookies := cookies; dl_show_progress := false;
              dl_chunk := 1024%positive; dl_wait := wait;
              dl_randomize_wait := true; dl_filecheck := true;
              dl_erasebad := true; dl_write_hash := write_hash;
              dl_data := None |})
    (zip to_download_urls download_location).

(** The part of [download_url] below the dask branch.  The worker pool
    is rendered by one of its schedules: the tasks run one after the
    other, in input order, on the same disk. *)
Definition download_here (to_download_urls download_location : list string)
    (session : option nat) (cutouts show_progress : bool) (wait : option Q)
    (overwrite : bool) (nprocess : option Z) (cookies : cookies_arg)
    (radec : option (list pyval)) (cutout_size : pyval)
    (write_hash : bool) : M unit :=
  nprocess ← match nprocess with
             | None => ret 1%Z
             | Some n =>
                 if (n <? 1)%Z
                 then raise (ValueError "nprocess must 1 or higher (None means 1)")
                 else ret n
             end;
  if (nprocess =? 1)%Z then
    logger_debug "No parallel downloading" ;;
    for_each (zip to_download_urls download_location)
      (λ uf,
         _ ← download_single_url
               {| dl_url := fst uf; dl_session := session;
                  dl_cutouts := cutouts; dl_radec := radec;
                  dl_cutout_size := cutout_size;
                  dl_fileout := Some (snd uf); dl_overwrite := overwrite;
                  dl_cookies := cookies; dl_show_progress := show_progress;
                  dl_chunk := 1024%positive; dl_wait := wait;
                  dl_randomize_wait := true; dl_filecheck := true;
                  dl_erasebad := true; dl_write_hash := write_hash;
                  dl_data := None |};
         ret tt)
  else
    logger_debug ("parallel downloading ; asking for " ++ pretty nprocess ++ " processes") ;;
    args ← pool_args to_download_urls download_location session overwrite
             wait cutouts radec cutout_size;
    for_each args _download_.

(** [download_url]; [write_hash] is the entry of [**kwargs] that
    [download_single_url] reads.  With a dask client the delayed calls
    are handed to [client.compute], which returns their futures at once:
    [download_url] returns them before it looks at [nprocess], and none
    of the calls has run in this process by then.  A future is rendered
    by the call it stands for.  Without a client the result is None. *)
Definition download_url (to_download_urls download_location : list string)
    (session : option nat) (cutouts show_progress : bool) (wait : option Q)
    (overwrite : bool) (nprocess : option Z) (cookies : cookies_arg)
    (client : option dask_client)
    (radec : option (list pyval)) (cutout_size : pyval)
    (write_hash : bool) : M (option (list dl_args)) :=
  match client with
  | Some _ =>
      ret (Some (delayed_calls to_download_urls download_location session
                   cutouts wait overwrite cookies radec cutout_size write_hash))
  | None =>
      download_here to_download_urls download_location session cutouts
        show_progress wait overwrite nprocess cookies radec cutout_size
        write_hash ;;
      ret None
  end.

(** [dask.distributed.wait(futures)]: returns when every call has run,
    whether it returned or raised.  The cluster is rendered by one of
    its schedules: the calls run one after the other, in order, on the
    same disk. *)
Definition dwait (futures : list dl_args) : M unit :=
  for_each futures
    (λ a, try_except (_ ← download_single_url a; ret tt) (λ _, true) (λ _, ret tt)).

(** ** Checking files in batch *)

(** [np.asarray(xs)[mask]] for a boolean mask. *)
Definition masked {A} (xs : list A) (mask : list bool) : list A :=
  List.map fst (List.filter snd (zip xs mask)).

(** [[f for f in filename if not test(f)]]. *)
Fixpoint failing (test : string → M bool) (filename : list string) : M (list string) :=
  match filename with
  | [] => ret []
  | f :: rest =>
      good ← test f;
      bad ← failing test rest;
      ret (if (good : bool) then bad else f :: bad)
  end.

(** [test_files]; [write_hash] is the entry of [**kwargs] that
    [_test_file_] reads.  The result is [None] when the function ends
    without reaching a [return]. *)
Definition test_files (filename : list string) (erasebad : bool)
    (nprocess : option Z) (show_progress redownload_ write_hash : bool)
    : M (option (list string)) :=
  nprocess ← match nprocess with
             | None => ret 1%Z
             | Some n =>
                 if (n <? 1)%Z
                 then raise (ValueError "nprocess must 1 or higher (None means 1)")
                 else ret n
             end;
  fileissue ←
    (if (nprocess =? 1)%Z then
       failing (λ f, _test_file_ f erasebad false redownload_ write_hash) filename
     else
       failing (λ f, _test_file_multiprocess_ (f, erasebad)) filename);
  if bool_decide (0 < length (fileissue : list string))%nat then
    logger_info (pretty (length fileissue) ++ " file failed") ;;
    (if redownload_ then
       let sources := List.map (_localsource_to_source_ E) fileissue in
       let to_download_urls := List.map fst sources in
       let locations := List.map snd sources in
       let source_to_dl := ["irsa"] in
       for_each source_to_dl
         (λ source,
            let source_dl :=
              List.map (λ l, bool_decide (l = Some source)) locations in
            logger_info ("Downloading " ++ pretty (length (List.filter id source_dl))
                           ++ " files from " ++ source) ;;
            (* session=session: a name bound nowhere in test_files *)
            _ ← load_global "session";
            ids ← _load_id_ (Some source);
            ck ← get_cookie (Some (fst ids)) (Some (snd ids)) None false;
            _ ← download_url
                  (List.map (default "None") (masked to_download_urls source_dl))
                  (masked fileissue source_dl) None false show_progress None
                  true (Some nprocess) (cookies_of_option ck) None
                  None PyNone write_hash;
            ret tt) ;;
       for_each (List.filter
                   (λ l, negb (bool_decide (l ∈ source_to_dl)))
                   (remove_dups (omap id locations)))
         (λ source_, logger_warning ("files from " ++ source_
                                       ++ " have not downloaded (not implemented)."))
     else ret tt) ;;
    ret (Some fileissue)
  else ret None.

Definition LOCALSOURCE : string := default "./Data/" (getenv_ZTFDATA E).

Definition get_localfiles (extension : string) (startpath : option string)
    : M (list string) :=
  let startpath := default LOCALSOURCE startpath in
  let extension := match extension with
                   | String "."%char rest => rest
                   | _ => extension
                   end in
  gets (λ w, glob E (files w) (startpath ++ "**/*." ++ extension)).

Definition run_full_filecheck (extension : string) (startpath : option string)
    (erasebad redownload_ : bool) (nprocess : option Z)
    (show_progress write_hash : bool) : M (option (list string)) :=
  all_ztffiles ← get_localfiles extension startpath;
  logger_info (pretty (length all_ztffiles) ++ " files to check") ;;
  badfiles ← test_files all_ztffiles erasebad nprocess show_progress
               redownload_ write_hash;
  ret badfiles.

End Code.

(** ** Vocabulary of the statements *)

(** Events that reach the network. *)
Definition is_network (e : event) : Prop :=
  match e with
  | EvLogin _ _ | EvFetch _ _ _ _ _ => True
  | _ => False
  end.

(** Events that read the content of a data file: a parse attempt, a text
    read, or a digest. *)
Definition inspects_content (e : event) : Prop :=
  match e with
  | EvFitsGetdata _ | EvTextRead _ | EvMd5 _ _ => True
  | _ => False
  end.

(** Every transfer request carries the address [u]. *)
Definition fetches_from (u : string) (e : event) : Prop :=
  match e with
  | EvFetch _ _ u' _ _ => u' = u
  | _ => True
  end.

(** [w'] is [w] after some more events, each satisfying [P]. *)
Definition extends_by (P : event → Prop) (w w' : world) : Prop :=
  ∃ new, trace w' = (new ++ trace w)%list ∧ Forall P new.

(** [w'] has the files of [w]. *)
Definition same_files (w w' : world) : Prop := files w' = files w.

(** A computation whose final world is always related by [R] to the
    initial one, whether it returns or raises. *)
Definition within (R : relation world) {A} (m : M A) : Prop :=
  ∀ w, R w (m w).2.

(** A wait is [None] or a duration that [time.sleep] accepts. *)
Definition wait_spec_ok (wait : option Q) : Prop :=
  match wait with
  | Some t => (0 <= t)%Q
  | None => True
  end.

(** The pause that [download_single_url] takes for a wait of [t]. *)
Definition pause_length (E : env) (a : dl_args) (w : world) (t : Q) : Q :=
  if dl_randomize_wait a then Qmult t (sample_value (uniform01 E (draws w)))
  else t.

(** The cache decision of [get_file] for one file, read off lines
    110-120 as a function of the files on disk, without the effects:
    [overwrite or not isfile(f) or (test_file and ".fits" in f and
    _is_fitsfile_bad_(f))]. *)
Definition unreadable_fits (E : env) (disk : gmap string string)
    (f : string) : bool :=
  match disk !! f with
  | Some c => negb (fits_parses E c)
  | None => true
  end.

Definition download_wanted (E : env) (disk : gmap string string)
    (overwrite verify : bool) (f : string) : bool :=
  overwrite
  || negb (bool_decide (is_Some (disk !! f)))
  || (verify && py_in ".fits" f && unreadable_fits E disk f).

(** [s] occurs in [f], as a property of the two strings. *)
Definition occurs_in (s f : string) : Prop := ∃ a z, f = a ++ s ++ z.

(** *** The policy of the cache decider, in the words of its specification

    To be compared with the decision of the code.  The extension of a
    path is what follows the last dot of its last component.  The
    recognized formats are the scientific binary format (extension
    [fits]) and plain text (extension [txt]).  The lightweight integrity
    test is format-aware: a full parse for the binary format, a full
    decode for text, and "not tested", treated as not corrupt, for any
    other extension.  A file is marked for download when [overwrite] is
    set, or it is absent, or [verify] is set, its extension is recognized
    and it fails the test. *)
Fixpoint extension_rev (rs acc : list ascii) : option (list ascii) :=
  match rs with
  | [] => None
  | c :: rest =>
      if Ascii.eqb c "."%char then Some acc
      else if Ascii.eqb c "/"%char then None
      else extension_rev rest (c :: acc)
  end.

Definition extension (f : string) : option string :=
  String.string_of_list_ascii
    <$> extension_rev (List.rev (String.list_ascii_of_string f)) [].

Definition policy_recognized (f : string) : bool :=
  bool_decide (extension f = Some "fits") || bool_decide (extension f = Some "txt").

Definition policy_is_corrupt (E : env) (disk : gmap string string)
    (f : string) : bool :=
  match disk !! f with
  | Some c =>
      if bool_decide (extension f = Some "fits") then negb (fits_parses E c)
      else if bool_decide (extension f = Some "txt") then negb (text_decodes E c)
      else false
  | None => false
  end.

Definition policy_flag (E : env) (disk : gmap string string)
    (overwrite verify : bool) (f : string) : bool :=
  overwrite
  || negb (bool_decide (is_Some (disk !! f)))
  || (verify && policy_recognized f && policy_is_corrupt E disk f).




(** The query string that a cutout request appends. *)
Definition cutout_query (ra dec size : pyval) : string :=
  "?center=" ++ py_str ra ++ "," ++ py_str dec ++ "&size=" ++ py_str size
    ++ "arcsec&gzip=false".

(** ** A concrete archive, disk and calls, for the examples *)

Definition demo_env : env :=
  {| md5_hexdigest := λ s, "md5:" ++ s;
     fits_parses := λ s, String.prefix "SIMPLE" s;
     text_decodes := λ _, true;
     http := λ _ _ _ _, Response 200 "SIMPLE image" (Some 12%Z) ["irsa-cookie"];
     uniform01 := λ _, UnitSample 1 1;
     _localsource_to_source_ :=
       λ p, (Some ("https://irsa.ipac.caltech.edu/ibe/data/ztf" ++ p), Some "irsa");
     credentials := λ _, Ok ("user", "secret");
     glob := λ _ _, [];
     getenv_ZTFDATA := None |}.

(** A cache holding one truncated image, one sound image with its
    sidecar, and a note. *)
Definition demo_disk : gmap string string :=
  <["/data/sci/bad.fits" := "SIMP"]>
    (<["/data/sci/good.fits" := "SIMPLE cached"]>
       (<["/data/sci/good.fits.md5" := "md5:SIMPLE cached"]>
          (<["/data/notes.dat" := "free text"]> ∅))).

Definition demo_world : world :=
  World demo_disk {["/data"; "/data/sci"]} ∅ 18 0 [].

Definition empty_world : world :=
  World ∅ {["/data"; "/data/sci"]} ∅ 18 0 [].

(** A text decoder for the examples, the ASCII codec: it refuses a byte
    above 127. *)
Fixpoint decodes_as_ascii (s : string) : bool :=
  match s with
  | "" => true
  | String (Ascii _ _ _ _ _ _ _ b7) r => negb b7 && decodes_as_ascii r
  end.

Definition demo_env_ascii : env :=
  {| md5_hexdigest := md5_hexdigest demo_env;
     fits_parses := fits_parses demo_env;
     text_decodes := decodes_as_ascii;
     http := http demo_env;
     uniform01 := uniform01 demo_env;
     _localsource_to_source_ := _localsource_to_source_ demo_env;
     credentials := credentials demo_env;
     glob := glob demo_env;
     getenv_ZTFDATA := getenv_ZTFDATA demo_env |}.

(** A cache kept under a directory whose name contains [.fits]: a note
    with the extension [dat] below it, and, elsewhere, a text file that
    holds a byte no text has. *)
Definition odd_disk : gmap string string :=
  <["/data.fits/notes.dat" := "free text"]>
    (<["/data/list.txt" := String "255"%char "list"]> ∅).

Definition odd_world : world :=
  World odd_disk {["/data"; "/data.fits"]} ∅ 18 0 [].

(** [download_single_url(url, fileout=f)], everything else at its default. *)
Definition fetch_to (url f : string) : dl_args :=
  {| dl_url := url; dl_session := None; dl_cutouts := false;
     dl_radec := None; dl_cutout_size := PyInt 30; dl_fileout := Some f;
     dl_overwrite := false; dl_cookies := CookiesNone;
     dl_show_progress := true; dl_chunk := 1024%positive; dl_wait := None;
     dl_randomize_wait := true; dl_filecheck := true; dl_erasebad := true;
     dl_write_hash := false; dl_data := None |}.

(** The same call asking for a cutout, with or without the region, and
    with a wait of half a second. *)
Definition cutout_to (url f : string) (radec : option (list pyval)) : dl_args :=
  {| dl_url := url; dl_session := None; dl_cutouts := true;
     dl_radec := radec; dl_cutout_size := PyInt 30; dl_fileout := Some f;
     dl_overwrite := false; dl_cookies := NoCookies;
     dl_show_progress := true; dl_chunk := 1024%positive;
     dl_wait := Some (1 # 2)%Q;
     dl_randomize_wait := true; dl_filecheck := true; dl_erasebad := true;
     dl_write_hash := false; dl_data := None |}.

(** The same fetch with the sidecar asked for. *)
Definition fetch_and_record (url f : string) : dl_args :=
  {| dl_url := url; dl_session := None; dl_cutouts := false;
     dl_radec := None; dl_cutout_size := PyInt 30; dl_fileout := Some f;
     dl_overwrite := false; dl_cookies := NoCookies;
     dl_show_progress := true; dl_chunk := 1024%positive; dl_wait := None;
     dl_randomize_wait := true; dl_filecheck := true; dl_erasebad := true;
     dl_write_hash := true; dl_data := None |}.

(** The world after the pause: a sample taken if the wait is
    randomized, and the sleep in the trace. *)
Definition after_pause (E : env) (a : dl_args) (w : world) : world :=
  match dl_wait a with
  | Some t =>
      emit (EvSleep (pause_length E a w t))
           (if dl_randomize_wait a then set_draws (S (draws w)) w else w)
  | None => w
  end.

(** [w'] has the files and the directories of [w]. *)
Definition same_disk (w w' : world) : Prop :=
  files w' = files w ∧ dirs w' = dirs w.

(** ** More of io.py: text files, sessions, downloads by name *)

Section MoreCode.
Context (E : env).

Definition _is_textfile_bad_ (filename : string) : M bool :=
  try_except (text_readlines E filename ;; ret false) (λ _, true) (λ _, ret true).

Definition _are_fitsfiles_bad_ (filenames : list string) (test_exist : bool)
    : M (list bool) :=
  map_M (λ f_, _is_fitsfile_bad_ E f_ test_exist) filenames.

(** [requests.Session()]: a new session object, with no cookie yet. *)
Definition requests_Session : M nat :=
  λ w, let s := fresh (dom (jars w)) in
       (Ok s, set_jars (<[s := []]>) w).

Definition open_irsa_session (auth : option (string * string))
    (incl_cookies : bool) : M nat :=
  session ← requests_Session;
  (if incl_cookies then
     _ ← get_cookie E (fst <$> auth) (snd <$> auth) (Some session) true;
     ret tt
   else ret tt) ;;
  ret session.

End MoreCode.

(** [buildurl.filename_to_url(filename, suffix=, source=, check_suffix=)]:
    the remote or local address of a named product, or the exception it
    raises on a name it cannot parse. *)
Record buildurl := BuildUrl {
  filename_to_url : string → option string → string → bool → result string;
}.

Definition lift_result {A} (r : result A) : M A :=
  match r with
  | Ok a => ret a
  | Raise e => raise e
  end.

(** What [download_from_filename] returns: the two lists of names when
    [nodl] is set, and otherwise what [download_url] returned, None or
    the futures of a dask client. *)
Inductive by_name :=
| Names (remote local : list string)
| Downloads (futures : option (list dl_args)).

Section ByName.
Context (E : env) (B : buildurl).

(** The loop of [download_from_filename] that fills [remote_filename]
    and [local_filename]. *)
Fixpoint name_pairs (filename : list string) (suffix : option string)
    (host : string) (check_suffix : bool) : M (list string * list string) :=
  match filename with
  | [] => ret ([], [])
  | file_ :: rest =>
      remote ← lift_result (filename_to_url B file_ suffix host check_suffix);
      local ← lift_result (filename_to_url B file_ suffix "local" check_suffix);
      both ← name_pairs rest suffix host check_suffix;
      ret (remote :: fst both, local :: snd both)
  end.

(** [download_from_filename]; [write_hash] is the entry of [**kwargs]
    that reaches [download_single_url]. *)
Definition download_from_filename (filename : list string)
    (session : option nat) (suffix : option string) (overwrite : bool)
    (auth : option (string * string)) (nodl : bool) (host : string)
    (maxnprocess : Z) (show_progress check_suffix : bool)
    (client : option dask_client) (wait : option Q)
    (write_hash : bool) : M by_name :=
  if negb (bool_decide (host ∈ ["irsa"; "ccin2p3"])) then
    raise (ValueError ("Only 'irsa' and 'ccin2p3' host implemented: " ++ host ++ " given"))
  else
    names ← name_pairs filename suffix host check_suffix;
    let remote_filename := fst names in
    let local_filename := snd names in
    if nodl then ret (Names remote_filename local_filename)
    else
      let nprocess := Z.min maxnprocess (Z.of_nat (length local_filename)) in
      cookies ← get_cookie E (fst <$> auth) (snd <$> auth) session false;
      out ← download_url E remote_filename local_filename session false
              show_progress wait overwrite (Some nprocess)
              (cookies_of_option cookies) client None PyNone write_hash;
      ret (Downloads out).

End ByName.

(** An event that is a transfer request. *)
Definition is_fetch (e : event) : Prop :=
  match e with
  | EvFetch _ _ _ _ _ => True
  | _ => False
  end.

(** The verdict of the content test on a file of the disk: does the
    content parse as the name says it should? *)
Definition content_ok (E : env) (f c : string) : bool :=
  if py_in ".fits" f then fits_parses E c
  else if py_in ".txt" f then text_decodes E c
  else true.

(** [os.path.basename]: what follows the last slash. *)
Fixpoint basename (p : string) : string :=
  match p with
  | "" => ""
  | String c r =>
      if py_in "/" r then basename r
      else if Ascii.eqb c "/"%char then r
      else p
  end.

(** A naming scheme for the examples: a product is named by the last
    component of what is given, a name or a path. *)
Definition demo_buildurl : buildurl :=
  {| filename_to_url := λ name suffix source _,
       if String.eqb (basename name) ""
       then Raise (ValueError "cannot parse the name")
       else if String.eqb source "local" then Ok ("/data/sci/" ++ basename name)
       else Ok ("https://" ++ source ++ "/sci/" ++ basename name) |}.

(** [w'] has the directories of [w] and its files, but possibly for the
    one path [side]. *)
Definition same_disk_but (side : string) (w w' : world) : Prop :=
  (∀ p, p ≠ side → files w' !! p = files w !! p) ∧ dirs w' = dirs w.

(** The demo archive answering every request with [r]. *)
Definition demo_env_answering (r : response) : env :=
  {| md5_hexdigest := md5_hexdigest demo_env;
     fits_parses := fits_parses demo_env;
     text_decodes := text_decodes demo_env;
     http := λ _ _ _ _, r;
     uniform01 := uniform01 demo_env;
     _localsource_to_source_ := _localsource_to_source_ demo_env;
     credentials := credentials demo_env;
     glob := glob demo_env;
     getenv_ZTFDATA := getenv_ZTFDATA demo_env |}.

Definition not_found : response := Response 404 "not found" (Some 9%Z) [].

(** The address of the login request for a user and a password. *)
Definition login_address (username password : string) : string :=
  LOGIN_URL ++ "?josso_cmd=login&josso_username=" ++ username
    ++ "&josso_password=" ++ password.

(** ** get_file, whole *)

(** The [wait] argument of [get_file]: None, a string, or a number of
    seconds. *)
Inductive wait_arg :=
| WaitNone
| WaitStr (s : string)
| WaitSeconds (q : Q).

(** What [get_file] returns: one path when the list has one element and
    [squeeze] is set, the list otherwise. *)
Inductive paths :=
| OnePath (p : string)
| Paths (ps : list string).

Definition paths_of (r : paths) : list string :=
  match r with
  | OnePath p => [p]
  | Paths ps => ps
  end.

(** The output step: drop or replace the names that are not files. *)
Definition fill_paths (fill_notexist : string) (w : world)
    (local_filenames : list string) : list string :=
  if String.eqb fill_notexist "remove" then
    List.filter (os_path_isfile w) local_filenames
  else if negb (String.eqb fill_notexist "None") then
    List.map (λ f, if os_path_isfile w f then f else fill_notexist) local_filenames
  else local_filenames.

Definition squeeze_paths (squeeze : bool) (local_filenames : list string) : paths :=
  match local_filenames with
  | [p] => if squeeze then OnePath p else Paths local_filenames
  | _ => Paths local_filenames
  end.

Section GetFile.
Context (E : env) (B : buildurl).
(* float(s): the number a string denotes, None when float raises
   ValueError (inf and nan are not represented) *)
Context (py_float : string → option Q).

(** The list comprehension over the names and, inside, the suffixes. *)
Fixpoint local_names (filename : list string) (suffix : list (option string))
    (check_suffix : bool) : M (list string) :=
  match filename with
  | [] => ret []
  | filename_ :: rest =>
      here ← map_M (λ suffix_,
                      lift_result (filename_to_url B filename_ suffix_ "local"
                                     check_suffix))
                   suffix;
      more ← local_names rest suffix check_suffix;
      ret (here ++ more)%list
  end.

(** The waiting time handed to the download, for [n] files to fetch. *)
Definition parse_wait (wait : wait_arg) (n : nat) : M (option Q) :=
  match wait with
  | WaitNone => ret None
  | WaitSeconds q => ret (Some q)
  | WaitStr s =>
      if String.eqb s "None" then ret None
      else
        match py_float s with
        | Some q =>
            if Qeq_bool q 0 then
              tell (EvLog "UserWarning"
                      ("cannot parse the inpout waiting time " ++ s ++ " -> None used.")) ;;
              ret None
            else ret (Some (Qdiv (inject_Z (Z.of_nat n)) q))
        | None =>
            tell (EvLog "UserWarning"
                    ("cannot parse the inpout waiting time " ++ s ++ " -> None used.")) ;;
            ret None
        end
  end.

(** [get_file].  [filename] and [suffix] are the arguments after
    [np.atleast_1d]: a single name is a list of one, and the default
    suffix None is the list of one None. *)
Definition get_file (filename : list string) (suffix : list (option string))
    (session : option nat) (downloadit check_suffix : bool) (dlfrom : string)
    (overwrite : bool) (maxnprocess : Z) (exist test_file squeeze
    show_progress : bool) (client : option dask_client) (wait : wait_arg)
    (fill_notexist : string) : M paths :=
  local_filenames ← local_names filename suffix check_suffix;
  if negb exist then ret (Paths local_filenames)
  else
    flag_todl ← get_file_flag_todl E local_filenames overwrite test_file;
    (if existsb id flag_todl && downloadit then
       let wait := match client, wait with
                   | Some _, WaitNone => WaitStr "100"
                   | _, _ => wait
                   end in
       wait ← parse_wait wait (length (masked local_filenames flag_todl));
       f_ ← download_from_filename E B (masked local_filenames flag_todl)
              session None true None false dlfrom maxnprocess show_progress
              check_suffix client wait false;
       (* with a client, [f_] is the list of futures *)
       match client, f_ with
       | Some _, Downloads (Some futures) => dwait E futures
       | _, _ => ret tt
       end
     else ret tt) ;;
    local_filenames ← gets (λ w, fill_paths fill_notexist w local_filenames);
    ret (squeeze_paths squeeze local_filenames).

End GetFile.

(** [float] on the strings of the examples. *)
Definition demo_float (s : string) : option Q :=
  if String.eqb s "100" then Some (100 # 1)%Q
  else if String.eqb s "0" then Some 0%Q
  else None.

(** * Proofs *)

(** ** The monad *)

Lemma bind_unfold {A B} (m : M A) (k : A → M B) (w : world) :
  (m ≫= k) w = match m w with
               | (Ok a, w') => k a w'
               | (Raise e, w') => (Raise e, w')
               end.
Proof. reflexivity. Qed.

Lemma bind_ok {A B} (m : M A) (k : A → M B) (w w' : world) (a : A) :
  m w = (Ok a, w') → (m ≫= k) w = k a w'.
Proof. intros H. rewrite bind_unfold, H. reflexivity. Qed.

Lemma bind_raise {A B} (m : M A) (k : A → M B) (w w' : world) (e : exn) :
  m w = (Raise e, w') → (m ≫= k) w = (Raise e, w').
Proof. intros H. rewrite bind_unfold, H. reflexivity. Qed.

(** Unfolds the monad and the logging shorthands, so that a computation
    applied to a world reduces. *)
Ltac run_monad :=
  unfold logger_debug, logger_info, logger_warning, tell, modify, gets,
    mbind, M_bind, bind, mret, M_ret, ret, raise;
  simpl.

(** ** Paths below a regular file *)

(** Whether a path lies below a regular file depends on the files and
    the directories only. *)
Lemma nearest_is_file_same (w w' : world) (ups : list string) :
  files w' = files w → dirs w' = dirs w →
  nearest_is_file w' ups = nearest_is_file w ups.
Proof.
  intros Hf Hd. induction ups as [|up rest IH]; [reflexivity |].
  simpl. unfold os_path_isfile. rewrite Hf, Hd, IH. reflexivity.
Qed.

Lemma below_file_same (w w' : world) (p : string) :
  files w' = files w → dirs w' = dirs w → below_file w' p = below_file w p.
Proof. intros Hf Hd. apply nearest_is_file_same; assumption. Qed.

Lemma no_such_file_same (w w' : world) (p : string) :
  files w' = files w → dirs w' = dirs w → no_such_file w' p = no_such_file w p.
Proof.
  intros Hf Hd. unfold no_such_file.
  rewrite (below_file_same w w' p Hf Hd). reflexivity.
Qed.

Lemma no_such_file_emit (e : event) (w : world) (p : string) :
  no_such_file (emit e w) p = no_such_file w p.
Proof. apply no_such_file_same; reflexivity. Qed.

(** A path whose directory part exists, or is empty, is not below a
    file. *)
Lemma below_file_in_dir (w : world) (p : string) :
  dirname p = "" ∨ dirname p ∈ dirs w → below_file w p = false.
Proof.
  intros H. unfold below_file.
  destruct (String.length p) as [|n]; [reflexivity |].
  cbn [parents]. cbv zeta.
  destruct (decide (dirname p = "")) as [|Hne]; [reflexivity |].
  destruct (decide (dirname p = p)); [reflexivity |].
  destruct H as [H|H]; [contradiction |].
  cbn [nearest_is_file]. rewrite (bool_decide_eq_true_2 _ H). reflexivity.
Qed.

(** ** Footprints: what a computation may do to the world *)

Section Within.
Context (R : relation world) `{!Reflexive R} `{!Transitive R}.

Lemma within_ret {A} (a : A) : within R (ret a).
Proof. intros w. simpl. reflexivity. Qed.

Lemma within_mret {A} (a : A) : within R (mret a : M A).
Proof. intros w. simpl. reflexivity. Qed.

Lemma within_raise {A} (e : exn) : within R (raise e : M A).
Proof. intros w. simpl. reflexivity. Qed.

Lemma within_gets {A} (f : world → A) : within R (gets f).
Proof. intros w. simpl. reflexivity. Qed.

Lemma within_bind {A B} (m : M A) (k : A → M B) :
  within R m → (∀ a, within R (k a)) → within R (m ≫= k).
Proof.
  intros Hm Hk w. rewrite bind_unfold.
  specialize (Hm w). destruct (m w) as [[a|e] w1]; simpl in *.
  - etransitivity; [exact Hm | apply Hk].
  - exact Hm.
Qed.

Lemma within_try_except {A} (body : M A) (catches : exn → bool)
    (handler : exn → M A) :
  within R body → (∀ e, within R (handler e)) →
  within R (try_except body catches handler).
Proof.
  intros Hb Hh w. unfold try_except.
  specialize (Hb w). destruct (body w) as [[a|e] w1]; simpl in *.
  - exact Hb.
  - destruct (catches e); simpl; [|exact Hb].
    etransitivity; [exact Hb | apply Hh].
Qed.

Lemma within_for_each {A} (xs : list A) (body : A → M unit) :
  (∀ x, within R (body x)) → within R (for_each xs body).
Proof.
  intros Hb. induction xs as [|x xs IH]; simpl.
  - apply within_ret.
  - apply within_bind; [apply Hb | intros _; exact IH].
Qed.

Lemma within_map_M {A B} (f : A → M B) (xs : list A) :
  (∀ x, within R (f x)) → within R (map_M f xs).
Proof.
  intros Hf. induction xs as [|x xs IH]; simpl.
  - apply within_ret.
  - apply within_bind; [apply Hf | intros y].
    apply within_bind; [exact IH | intros ys; apply within_ret].
Qed.

Lemma within_failing (test : string → M bool) (xs : list string) :
  (∀ x, within R (test x)) → within R (failing test xs).
Proof.
  intros Ht. induction xs as [|x xs IH]; simpl.
  - apply within_ret.
  - apply within_bind; [apply Ht | intros good].
    apply within_bind; [exact IH | intros bad; apply within_ret].
Qed.

End Within.

#[global] Instance extends_by_refl (P : event → Prop) : Reflexive (extends_by P).
Proof. intros w. exists []. split; [reflexivity | constructor]. Qed.

#[global] Instance extends_by_trans (P : event → Prop) : Transitive (extends_by P).
Proof.
  intros w1 w2 w3 (n1 & H1 & F1) (n2 & H2 & F2).
  exists (n2 ++ n1)%list. split.
  - rewrite H2, H1. apply app_assoc.
  - apply Forall_app. split; assumption.
Qed.

#[global] Instance same_files_refl : Reflexive same_files.
Proof. intros w. reflexivity. Qed.

#[global] Instance same_files_trans : Transitive same_files.
Proof. intros w1 w2 w3 H1 H2. unfold same_files in *. congruence. Qed.

(** Steps that leave the trace alone, and the step that extends it. *)
Lemma extends_by_silent (P : event → Prop) (w w' : world) :
  trace w' = trace w → extends_by P w w'.
Proof. intros H. exists []. split; [exact H | constructor]. Qed.

Lemma within_tell (P : event → Prop) (e : event) :
  P e → within (extends_by P) (tell e).
Proof.
  intros He w. exists [e]. split; [reflexivity | repeat constructor; exact He].
Qed.

Lemma within_silent (P : event → Prop) {A} (m : M A) :
  (∀ w, trace (m w).2 = trace w) → within (extends_by P) m.
Proof. intros H w. apply extends_by_silent, H. Qed.

Lemma extends_by_weaken (P Q : event → Prop) (w w' : world) :
  (∀ e, P e → Q e) → extends_by P w w' → extends_by Q w w'.
Proof.
  intros HPQ (new & Ht & Hf). exists new. split; [exact Ht |].
  eapply Forall_impl; eauto.
Qed.

(** The steps of a proof that a composite computation stays within a
    footprint: follow the structure of the code. *)
Ltac footprint_step :=
  match goal with
  | |- within _ (ret _) => apply within_ret
  | |- within _ (mret _) => apply within_mret
  | |- within _ (raise _) => apply within_raise
  | |- within _ (gets _) => apply within_gets
  | |- within _ (_ ≫= _) => apply within_bind; try apply _; [| intros ?]
  | |- within _ (try_except _ _ _) =>
      apply within_try_except; try apply _; [| intros ?]
  | |- within _ (for_each _ _) => apply within_for_each; try apply _; intros ?
  | |- within _ (match ?x with _ => _ end) => destruct x eqn:?
  | |- Reflexive _ => apply _
  | |- Transitive _ => apply _
  end.

Create HintDb footprint.

Ltac footprint := repeat first [ footprint_step | solve [ eauto with footprint ] ].

(** Primitives of [os] and of the random generator leave no event. *)
Lemma os_remove_trace (p : string) (w : world) :
  trace (os_remove p w).2 = trace w.
Proof. unfold os_remove. repeat case_match; reflexivity. Qed.

Lemma read_file_trace (p : string) (w : world) :
  trace (read_file p w).2 = trace w.
Proof. unfold read_file. repeat case_match; reflexivity. Qed.

Lemma open_for_write_trace (p : string) (w : world) :
  trace (open_for_write p w).2 = trace w.
Proof. unfold open_for_write. repeat case_match; reflexivity. Qed.

Lemma file_write_trace (p data : string) (w : world) :
  trace (file_write p data w).2 = trace w.
Proof. reflexivity. Qed.

Lemma os_makedirs_trace (d : string) (w : world) :
  trace (os_makedirs d w).2 = trace w.
Proof. unfold os_makedirs. repeat case_match; reflexivity. Qed.

Lemma os_umask_trace (m : N) (w : world) :
  trace (os_umask m w).2 = trace w.
Proof. reflexivity. Qed.

Lemma np_random_uniform_trace (E : env) (high : Q) (w : world) :
  trace (np_random_uniform E high w).2 = trace w.
Proof. reflexivity. Qed.

Lemma set_jars_trace (f : gmap nat (list string) → gmap nat (list string)) (w : world) :
  trace (modify (set_jars f) w).2 = trace w.
Proof. reflexivity. Qed.

(** What everything but the transfer itself emits: any event that is
    not a transfer request. *)
Section AllButFetch.
Context (E : env) (P : event → Prop).
Hypothesis P_sleep : ∀ t, P (EvSleep t).
Hypothesis P_log : ∀ l m, P (EvLog l m).
Hypothesis P_fits : ∀ p, P (EvFitsGetdata p).
Hypothesis P_text : ∀ p, P (EvTextRead p).
Hypothesis P_md5 : ∀ p d, P (EvMd5 p d).
Hypothesis P_login : ∀ s u, P (EvLogin s u).

#[local] Hint Resolve within_tell within_silent os_remove_trace
  read_file_trace open_for_write_trace file_write_trace os_makedirs_trace
  os_umask_trace np_random_uniform_trace set_jars_trace : footprint.
#[local] Hint Resolve P_sleep P_log P_fits P_text P_md5 P_login : footprint.

Lemma within_logger_debug (msg : string) : within (extends_by P) (logger_debug msg).
Proof. apply within_tell, P_log. Qed.

Lemma within_logger_info (msg : string) : within (extends_by P) (logger_info msg).
Proof. apply within_tell, P_log. Qed.

Lemma within_logger_warning (msg : string) : within (extends_by P) (logger_warning msg).
Proof. apply within_tell, P_log. Qed.

Lemma within_time_sleep (t : Q) : within (extends_by P) (time_sleep t).
Proof. unfold time_sleep. footprint. Qed.

#[local] Hint Resolve within_logger_debug within_logger_info
  within_logger_warning within_time_sleep : footprint.

Lemma within_calculate_hash (f : string) :
  within (extends_by P) (calculate_hash E f).
Proof. unfold calculate_hash. footprint. Qed.

#[local] Hint Resolve within_calculate_hash : footprint.

Lemma within_calculate_and_write_hash (f : string) :
  within (extends_by P) (calculate_and_write_hash E f).
Proof. unfold calculate_and_write_hash. footprint. Qed.

Lemma within_read_text (f : string) : within (extends_by P) (read_text E f).
Proof. unfold read_text. footprint. Qed.

#[local] Hint Resolve within_calculate_and_write_hash within_read_text : footprint.

Lemma within_fits_getdata (f : string) : within (extends_by P) (fits_getdata E f).
Proof. unfold fits_getdata. footprint. Qed.

Lemma within_text_readlines (f : string) : within (extends_by P) (text_readlines E f).
Proof. unfold text_readlines. footprint. Qed.

Lemma within_load_id (which : option string) : within (extends_by P) (_load_id_ E which).
Proof. unfold _load_id_. footprint. Qed.

Lemma within_login_request (s : option nat) (u : string) :
  within (extends_by P) (login_request E s u).
Proof. unfold login_request. footprint. Qed.

#[local] Hint Resolve within_fits_getdata within_text_readlines
  within_load_id within_login_request : footprint.

Lemma within_get_cookie (u p : option string) (s : option nat) (update : bool) :
  within (extends_by P) (get_cookie E u p s update).
Proof. unfold get_cookie. footprint. Qed.

#[local] Hint Resolve within_get_cookie : footprint.

Lemma within_fileissue_body (call : string → string → cookies_arg → M unit)
    (f : string) (erasebad fromdl redownload_ : bool) :
  (∀ u g ck, within (extends_by P) (call u g ck)) →
  within (extends_by P) (_fileissue_body E call f erasebad fromdl redownload_).
Proof. intros Hcall. unfold _fileissue_body. footprint. Qed.

#[local] Hint Resolve within_fileissue_body : footprint.

Lemma within_test_file_body (call : string → string → cookies_arg → M unit)
    (f : string) (erasebad fromdl redownload_ write_hash : bool) :
  (∀ u g ck, within (extends_by P) (call u g ck)) →
  within (extends_by P)
    (_test_file_body E call f erasebad fromdl redownload_ write_hash).
Proof.
  intros Hcall. unfold _test_file_body, verify_unless_hashed, hash_for_file_exists.
  footprint.
Qed.

Lemma within_post_fetch_check (f : string) (erasebad write_hash : bool) :
  within (extends_by P) (post_fetch_check E f erasebad write_hash).
Proof.
  unfold post_fetch_check. apply within_test_file_body.
  intros u g ck. footprint.
Qed.

End AllButFetch.

(** ** Byte strings and chunked reads *)

Lemma append_cons (c : ascii) (s t : string) :
  String c s ++ t = String c (s ++ t).
Proof. reflexivity. Qed.

Lemma append_nil_l (s : string) : "" ++ s = s.
Proof. reflexivity. Qed.

Lemma append_nil_r (s : string) : s ++ "" = s.
Proof.
  induction s as [|c s IH]; [reflexivity |].
  rewrite append_cons, IH. reflexivity.
Qed.

Lemma append_assoc (s t u : string) : (s ++ t) ++ u = s ++ (t ++ u).
Proof.
  induction s as [|c s IH]; [reflexivity |].
  rewrite !append_cons, IH. reflexivity.
Qed.

(** A read splits the unread bytes, and an empty read means there was
    nothing to read or nothing was asked for. *)
Lemma read_split (n : nat) (s : string) :
  (read n s).1 ++ (read n s).2 = s.
Proof.
  revert s. induction n as [|n IH]; intros [|c r]; simpl; try reflexivity.
  specialize (IH r). destruct (read n r) as [h t]. simpl in *.
  rewrite append_cons, IH. reflexivity.
Qed.

Lemma read_nothing (n : nat) (s : string) :
  (0 < n)%nat → (read n s).1 = "" → s = "".
Proof.
  intros Hn. destruct n as [|n]; [lia |].
  destruct s as [|c r]; simpl; [reflexivity |].
  destruct (read n r); simpl. discriminate.
Qed.

Lemma read_shortens (n : nat) (s : string) :
  (read n s).1 ≠ "" → (String.length (read n s).2 < String.length s)%nat.
Proof.
  revert s. induction n as [|n IH]; intros [|c r]; simpl; try congruence.
  intros _. destruct (read n r) as [h t] eqn:Hr. simpl.
  destruct (decide (h = "")) as [->|Hh].
  - pose proof (read_split n r) as Hs. rewrite Hr in Hs. simpl in Hs.
    rewrite append_nil_l in Hs. subst r. lia.
  - specialize (IH r). rewrite Hr in IH. simpl in IH.
    specialize (IH Hh). lia.
Qed.

(** Feeding the chunks one by one amounts to feeding the whole content:
    the chunk size does not matter. *)
Lemma foldl_append_read_chunks (fuel n : nat) (s acc : string) :
  (0 < n)%nat → (String.length s < fuel)%nat →
  foldl String.append acc (read_chunks fuel n s) = acc ++ s.
Proof.
  intros Hn. revert s acc.
  induction fuel as [|fuel IH]; intros s acc Hlen; [lia |].
  simpl. pose proof (read_split n s) as Hsplit.
  pose proof (read_shortens n s) as Hshort.
  pose proof (read_nothing n s Hn) as Hnone.
  destruct (read n s) as [h t]. simpl in *.
  destruct (decide (h = "")) as [Hh|Hh].
  - rewrite (Hnone Hh). simpl. rewrite append_nil_r. reflexivity.
  - simpl. rewrite IH.
    + rewrite append_assoc, Hsplit. reflexivity.
    + specialize (Hshort Hh). lia.
Qed.

Lemma feed_chunks (n : nat) (s : string) :
  (0 < n)%nat → foldl String.append "" (chunks_of n s) = s.
Proof.
  intros Hn. unfold chunks_of.
  rewrite foldl_append_read_chunks; [reflexivity | exact Hn | lia].
Qed.

(** The directory of a sidecar is the directory of its data file. *)
Lemma head_upto_slash_md5 (f : string) :
  head_upto_slash (f ++ ".md5") = head_upto_slash f.
Proof.
  induction f as [|c f IH]; [reflexivity |].
  rewrite append_cons. simpl. rewrite IH. reflexivity.
Qed.

Lemma dirname_md5 (f : string) : dirname (f ++ ".md5") = dirname f.
Proof. unfold dirname. rewrite head_upto_slash_md5. reflexivity. Qed.

(** ** The hash tools *)

(** [calculate_hash] returns the digest of the content, whatever the
    chunking, and changes nothing but the trace. *)
Lemma calculate_hash_content (E : env) (f c : string) (w : world) :
  files w !! f = Some c →
  calculate_hash E f w
  = (Ok (md5_hexdigest E c), emit (EvMd5 f (md5_hexdigest E c)) w).
Proof.
  intros Hf. unfold calculate_hash.
  rewrite bind_unfold. unfold read_file. rewrite Hf.
  rewrite feed_chunks by lia. reflexivity.
Qed.

(** Same content, same digest: on any two disks. *)
Lemma calculate_hash_deterministic (E : env) (f g c : string) (w1 w2 : world) :
  files w1 !! f = Some c → files w2 !! g = Some c →
  (calculate_hash E f w1).1 = (calculate_hash E g w2).1.
Proof.
  intros H1 H2.
  rewrite (calculate_hash_content E f c w1 H1).
  rewrite (calculate_hash_content E g c w2 H2). reflexivity.
Qed.

(** [hash_fname] is bound nowhere. *)
Lemma load_global_hash_fname (w : world) :
  load_global "hash_fname" w = (Raise (NameError "hash_fname"), w).
Proof. reflexivity. Qed.

Lemma load_global_session (w : world) :
  load_global "session" w = (Raise (NameError "session"), w).
Proof. reflexivity. Qed.

(** C3 (the code departs from the claim). Recording a sidecar and then
    comparing should yield True; [compare_hash] instead raises NameError on
    every file and every disk, before it opens anything, because it reads
    the unbound name [hash_fname]. *)
Theorem compare_hash_raises_NameError (E : env) (fname : string) (w : world) :
  compare_hash E fname w = (Raise (NameError "hash_fname"), w).
Proof.
  unfold compare_hash. rewrite bind_unfold.
  rewrite (bind_raise _ _ w w (NameError "hash_fname")); [reflexivity |].
  apply load_global_hash_fname.
Qed.

(** The round trip at a concrete file: the sidecar is written with the
    digest of the content, and the comparison that follows raises. *)
Example compare_hash_after_record :
  let w := (calculate_and_write_hash demo_env "/data/notes.dat" demo_world).2 in
  files w !! "/data/notes.dat.md5" = Some "md5:free text"
  ∧ (compare_hash demo_env "/data/notes.dat" w).1 = Raise (NameError "hash_fname").
Proof. vm_compute. split; reflexivity. Qed.

(** ** Batch checks *)

Lemma bind_fst_ok {A B} (m : M A) (k : A → M B) (w : world) (b : B) :
  ((m ≫= k) w).1 = Ok b → ∃ a w', m w = (Ok a, w') ∧ (k a w').1 = Ok b.
Proof.
  rewrite bind_unfold. destruct (m w) as [[a|e] w'] eqn:Hm; simpl.
  - intros H. exists a, w'. split; [reflexivity | exact H].
  - discriminate.
Qed.

(** C9 (the code departs from the claim). The batch check should return
    the list of failed files, the empty list when all pass.  [test_files]
    never returns the empty list: its [return fileissue] sits inside
    [if len(fileissue) > 0], so a batch without failures falls off the end
    of the function and yields None. *)
Theorem test_files_never_returns_empty_list (E : env) (filename : list string)
    (erasebad : bool) (nprocess : option Z)
    (show_progress redownload_ write_hash : bool) (w : world) :
  (test_files E filename erasebad nprocess show_progress redownload_ write_hash w).1
  ≠ Ok (Some []).
Proof.
  intros H. unfold test_files in H.
  apply bind_fst_ok in H as (n & w1 & _ & H).
  apply bind_fst_ok in H as (bad & w2 & _ & H).
  case_bool_decide as Hlen.
  - apply bind_fst_ok in H as (? & w3 & _ & H).
    apply bind_fst_ok in H as (? & w4 & _ & H).
    simpl in H. inversion H; subst. simpl in Hlen. lia.
  - discriminate.
Qed.

(** What it returns instead, on an empty batch and on a batch of one
    sound file. *)
Lemma test_files_empty_batch (E : env) (erasebad show_progress redownload_
    write_hash : bool) (w : world) :
  test_files E [] erasebad None show_progress redownload_ write_hash w
  = (Ok None, w).
Proof. reflexivity. Qed.

Example test_files_all_good :
  (test_files demo_env ["/data/sci/good.fits"] true None true false false demo_world).1
  = Ok None.
Proof. vm_compute. reflexivity. Qed.

(** A failure does not stop the batch: the files after it are still
    checked and the failed one is reported. *)
Example test_files_reports_bad :
  (test_files demo_env ["/data/sci/bad.fits"; "/data/sci/good.fits"]
     false None true false false demo_world).1
  = Ok (Some ["/data/sci/bad.fits"]).
Proof. vm_compute. reflexivity. Qed.

(** C5 (the code departs from the claim). A truncated file of a known
    host, no sidecar, [erasebad] and [redownload] set: the file is removed
    and fetched again from its remote address inside [_fileissue_], but
    [test_files] then raises NameError on the unbound name [session] of its
    own re-download block, so no list of bad files comes back. *)
Theorem test_files_redownload_raises_NameError :
  let out := test_files demo_env ["/data/sci/bad.fits"] true None true true false
               demo_world in
  out.1 = Raise (NameError "session")
  ∧ In (EvLog "info" "removing /data/sci/bad.fits") (trace out.2)
  ∧ In (EvFetch None "get"
          "https://irsa.ipac.caltech.edu/ibe/data/ztf/data/sci/bad.fits"
          ["irsa-cookie"] None) (trace out.2)
  ∧ files out.2 !! "/data/sci/bad.fits" = Some "SIMPLE image".
Proof. vm_compute. repeat split; auto 10. Qed.

(** The defect is general: with [redownload] set, [test_files] never
    returns a list. *)
Lemma test_files_redownload_never_reports (E : env) (filename : list string)
    (erasebad : bool) (nprocess : option Z) (show_progress write_hash : bool)
    (w : world) (bad : list string) :
  (test_files E filename erasebad nprocess show_progress true write_hash w).1
  ≠ Ok (Some bad).
Proof.
  intros H. unfold test_files in H.
  apply bind_fst_ok in H as (n & w1 & _ & H).
  apply bind_fst_ok in H as (l & w2 & _ & H).
  case_bool_decide as Hlen; [| discriminate].
  apply bind_fst_ok in H as (? & w3 & _ & H).
  apply bind_fst_ok in H as (? & w4 & H & _).
  (* the loop over source_to_dl stops at the load of [session] *)
  apply (f_equal fst) in H. simpl in H. discriminate.
Qed.

(** Without [redownload] the scenario holds: the truncated file is
    reported and, with [erasebad], removed. *)
Example test_files_erases_bad :
  let out := test_files demo_env ["/data/sci/bad.fits"] true None true false false
               demo_world in
  out.1 = Ok (Some ["/data/sci/bad.fits"])
  ∧ files out.2 !! "/data/sci/bad.fits" = None.
Proof. vm_compute. split; reflexivity. Qed.

(** ** Remediation *)



(** Erasing twice: the second call raises. *)
Example fileissue_twice :
  let once := _fileissue_ demo_env "/data/sci/bad.fits" true false false demo_world in
  let twice := _fileissue_ demo_env "/data/sci/bad.fits" true false false once.2 in
  once.1 = Ok tt ∧ twice.1 = Raise (FileNotFoundError "/data/sci/bad.fits").
Proof. vm_compute. split; reflexivity. Qed.

(** Inside [_test_file_] the remediator is not reached when nothing is
    at the path: the FileNotFoundError of the read is caught first and
    the file counts as good. *)
Lemma test_file_on_absent_file (E : env) (f : string)
    (erasebad fromdl redownload_ write_hash : bool) (w : world) :
  files w !! f = None → f ∉ dirs w → below_file w f = false →
  (_test_file_ E f erasebad fromdl redownload_ write_hash w).1 = Ok true
  ∧ files (_test_file_ E f erasebad fromdl redownload_ write_hash w).2 = files w.
Proof.
  intros Hf Hd Hb.
  unfold _test_file_, _test_file_body, verify_unless_hashed,
    hash_for_file_exists, fits_getdata, text_readlines, read_text, read_file.
  destruct (py_in ".fits" f); [| destruct (py_in ".txt" f)];
    run_monad; try (split; reflexivity);
    destruct (os_path_exists w (f ++ ".md5")); simpl; try (split; reflexivity);
    unfold try_except; simpl; rewrite Hf; simpl;
    rewrite (bool_decide_eq_false_2 _ Hd); simpl;
    rewrite no_such_file_emit; unfold no_such_file; rewrite Hb; simpl;
    split; reflexivity.
Qed.

(** A path below a regular file is another matter: the read raises
    NotADirectoryError, which [except FileNotFoundError] does not catch,
    so the remediator runs and its [os.remove] raises in turn. *)
Example test_file_below_a_file :
  (_test_file_ demo_env "/data/notes.dat/x.fits" true false false false demo_world).1
  = Raise (NotADirectoryError "/data/notes.dat/x.fits")
  ∧ (_test_file_ demo_env "/data/notes.dat/x.fits" false false false false demo_world).1
    = Ok false.
Proof. vm_compute. split; reflexivity. Qed.

(** ** The sidecar as the sign of a verified file *)

(** C6. When the sidecar [path + ".md5"] exists, [_test_file_] reports
    the file good, leaves the disk alone, and neither parses, reads nor
    hashes the content: it emits at most a log line. *)
Theorem test_file_trusts_sidecar (E : env) (f : string)
    (erasebad fromdl redownload_ write_hash : bool) (w : world) :
  os_path_exists w (f ++ ".md5") = true →
  (_test_file_ E f erasebad fromdl redownload_ write_hash w).1 = Ok true
  ∧ files (_test_file_ E f erasebad fromdl redownload_ write_hash w).2 = files w
  ∧ extends_by (λ e, ¬ inspects_content e) w
      (_test_file_ E f erasebad fromdl redownload_ write_hash w).2.
Proof.
  intros Hside.
  unfold _test_file_, _test_file_body, verify_unless_hashed, hash_for_file_exists.
  destruct (py_in ".fits" f); [| destruct (py_in ".txt" f)]; run_monad.
  - rewrite Hside. simpl. repeat split. apply extends_by_silent. reflexivity.
  - rewrite Hside. simpl. repeat split. apply extends_by_silent. reflexivity.
  - repeat split. eexists [_]. split; [reflexivity |].
    repeat constructor. simpl. tauto.
Qed.

(** The sound image of the demo cache, whose sidecar is on disk. *)
Lemma test_file_trusts_sidecar_witness :
  (_test_file_ demo_env "/data/sci/good.fits" true false false false demo_world).1
  = Ok true.
Proof.
  apply (test_file_trusts_sidecar demo_env "/data/sci/good.fits"
           true false false false demo_world).
  vm_compute. reflexivity.
Defined.

(** The sidecar is not compared with the content: a file that no longer
    parses still counts as good while its sidecar is there. *)
Example stale_sidecar_is_trusted :
  let w := set_files (<["/data/sci/good.fits" := "garbage"]>) demo_world in
  (_test_file_ demo_env "/data/sci/good.fits" true false false false w).1 = Ok true.
Proof. vm_compute. reflexivity. Qed.

(** ** The fetcher: pause, then skip *)

Lemma sample_value_nonneg (u : unit_sample) : (0 <= sample_value u)%Q.
Proof.
  unfold sample_value, Qle. simpl. destruct (us_num u); simpl; lia.
Qed.

Lemma sample_value_below_1 (u : unit_sample) : (sample_value u <= 1)%Q.
Proof.
  unfold sample_value, Qle. simpl. destruct (us_num u); simpl; lia.
Qed.

Lemma pause_length_bounds (E : env) (a : dl_args) (w : world) (t : Q) :
  (0 <= t)%Q → (0 <= pause_length E a w t)%Q ∧ (pause_length E a w t <= t)%Q.
Proof.
  intros Ht. unfold pause_length. destruct (dl_randomize_wait a).
  - split.
    + apply Qmult_le_0_compat; [exact Ht | apply sample_value_nonneg].
    + eapply Qle_trans.
      * apply (Qmult_le_compat_nonneg t t _ 1%Q).
        -- split; [exact Ht | apply Qle_refl].
        -- split; [apply sample_value_nonneg | apply sample_value_below_1].
      * rewrite Qmult_1_r. apply Qle_refl.
  - split; [exact Ht | apply Qle_refl].
Qed.

Lemma rate_limit_pause_ok (E : env) (a : dl_args) (w : world) :
  wait_spec_ok (dl_wait a) →
  rate_limit_pause E (dl_wait a) (dl_randomize_wait a) w
  = (Ok tt, after_pause E a w).
Proof.
  intros Hok. unfold rate_limit_pause, after_pause.
  destruct (dl_wait a) as [t|]; [| reflexivity].
  simpl in Hok.
  pose proof (pause_length_bounds E a w t Hok) as [Hlo _].
  apply Qle_bool_iff in Hlo.
  unfold pause_length in *.
  destruct (dl_randomize_wait a); simpl;
    unfold time_sleep, np_random_uniform; run_monad;
    rewrite Hlo; reflexivity.
Qed.

(** Whatever the wait, the pause touches neither the files nor the
    network. *)
Lemma rate_limit_pause_files (E : env) (wait : option Q) (r : bool) (w : world) :
  files (rate_limit_pause E wait r w).2 = files w.
Proof.
  unfold rate_limit_pause, time_sleep, np_random_uniform.
  destruct wait as [t|]; [| reflexivity].
  destruct r; run_monad; case_match; reflexivity.
Qed.

Lemma rate_limit_pause_offline (E : env) (wait : option Q) (r : bool) :
  within (extends_by (λ e, ¬ is_network e)) (rate_limit_pause E wait r).
Proof.
  unfold rate_limit_pause, time_sleep.
  destruct wait as [t|]; [| apply within_ret; apply _].
  apply within_bind; try apply _.
  - destruct r; simpl; [apply within_silent; reflexivity | apply within_ret; apply _].
  - intros t'. case_match; [apply within_tell; simpl; tauto | apply within_raise; apply _].
Qed.

Lemma already_there_hit (a : dl_args) (f : string) (w w' : world) :
  dl_fileout a = Some f → dl_overwrite a = false → os_path_isfile w f = true →
  files w' = files w → already_there a w' = true.
Proof.
  intros Hf Ho Hi Hw. unfold already_there. rewrite Hf, Ho. simpl.
  unfold os_path_isfile in *. rewrite Hw. exact Hi.
Qed.

(** The skip, from the world reached after the pause. *)
Lemma download_single_url_skips (E : env) (a : dl_args) (f : string) (w w1 : world) :
  dl_fileout a = Some f → already_there a w1 = true →
  rate_limit_pause E (dl_wait a) (dl_randomize_wait a) w = (Ok tt, w1) →
  download_single_url E a w
  = (Ok ReturnsNone, emit (EvLog "debug" (f ++ " already exists: skipped")) w1).
Proof.
  intros Hf Hhit Hpause.
  unfold download_single_url, download_single_url_body.
  rewrite (bind_ok _ _ w w1 tt Hpause).
  rewrite (bind_ok _ _ w1 w1 true); [| unfold gets; rewrite Hhit; reflexivity].
  rewrite Hf. reflexivity.
Qed.

(** C10. With a wait, the pause comes first: a call that is then skipped
    because the file is there has slept the whole pause, the wait itself
    or a sample of [0, wait] when randomized, before it returns. *)
Theorem download_single_url_pauses_before_skip (E : env) (a : dl_args)
    (f : string) (t : Q) (w : world) :
  dl_wait a = Some t → (0 <= t)%Q →
  dl_fileout a = Some f → dl_overwrite a = false →
  os_path_isfile w f = true →
  (download_single_url E a w).1 = Ok ReturnsNone
  ∧ trace (download_single_url E a w).2
    = EvLog "debug" (f ++ " already exists: skipped")
        :: EvSleep (pause_length E a w t) :: trace w
  ∧ (0 <= pause_length E a w t)%Q ∧ (pause_length E a w t <= t)%Q.
Proof.
  intros Hwait Ht Hf Ho Hi.
  assert (Hok : wait_spec_ok (dl_wait a)) by (rewrite Hwait; exact Ht).
  rewrite (download_single_url_skips E a f w (after_pause E a w) Hf).
  - unfold after_pause. rewrite Hwait. simpl.
    repeat split; try apply (pause_length_bounds E a w t Ht).
    destruct (dl_randomize_wait a); reflexivity.
  - apply (already_there_hit a f w); try assumption.
    unfold after_pause. destruct (dl_wait a); [| reflexivity].
    destruct (dl_randomize_wait a); reflexivity.
  - apply rate_limit_pause_ok, Hok.
Qed.

(** A call with a wait of half a second on a file that is there. *)
Lemma download_single_url_pauses_before_skip_witness :
  trace (download_single_url demo_env
           (cutout_to "https://irsa/x" "/data/sci/good.fits" None) demo_world).2
  = [EvLog "debug" "/data/sci/good.fits already exists: skipped";
     EvSleep (pause_length demo_env
                (cutout_to "https://irsa/x" "/data/sci/good.fits" None)
                demo_world (1 # 2))].
Proof.
  apply (download_single_url_pauses_before_skip demo_env
           (cutout_to "https://irsa/x" "/data/sci/good.fits" None)
           "/data/sci/good.fits" (1 # 2) demo_world);
    vm_compute; congruence.
Defined.

(** C1. A call whose destination exists and that does not overwrite
    issues no network request and leaves every file as it was; unless
    the wait is a negative duration, which [time.sleep] refuses, it
    returns None after logging the skip. *)
Theorem download_single_url_cache_short_circuit (E : env) (a : dl_args)
    (f : string) (w : world) :
  dl_fileout a = Some f → dl_overwrite a = false →
  os_path_isfile w f = true →
  extends_by (λ e, ¬ is_network e) w (download_single_url E a w).2
  ∧ files (download_single_url E a w).2 = files w
  ∧ (wait_spec_ok (dl_wait a) →
     (download_single_url E a w).1 = Ok ReturnsNone
     ∧ In (EvLog "debug" (f ++ " already exists: skipped"))
          (trace (download_single_url E a w).2)).
Proof.
  intros Hf Ho Hi.
  pose proof (rate_limit_pause_files E (dl_wait a) (dl_randomize_wait a) w) as Hfiles.
  pose proof (rate_limit_pause_offline E (dl_wait a) (dl_randomize_wait a) w) as Hoff.
  destruct (rate_limit_pause E (dl_wait a) (dl_randomize_wait a) w)
    as [[[]|e] w1] eqn:Hpause; simpl in *.
  - rewrite (download_single_url_skips E a f w w1 Hf);
      [| apply (already_there_hit a f w); assumption | exact Hpause].
    simpl. split; [| split; [exact Hfiles |]].
    + destruct Hoff as (new & Hnew & Hall).
      exists (EvLog "debug" (f ++ " already exists: skipped") :: new).
      split; [simpl; rewrite Hnew; reflexivity |].
      constructor; [simpl; tauto | exact Hall].
    + intros _. split; [reflexivity | left; reflexivity].
  - assert (Hout : download_single_url E a w = (Raise e, w1)).
    { unfold download_single_url, download_single_url_body.
      apply bind_raise. exact Hpause. }
    rewrite Hout. simpl. split; [exact Hoff | split; [exact Hfiles |]].
    intros Hok. rewrite (rate_limit_pause_ok E a w Hok) in Hpause.
    discriminate.
Qed.

(** A default call whose destination is in the demo cache. *)
Lemma download_single_url_cache_short_circuit_witness :
  files (download_single_url demo_env
           (fetch_to "https://irsa/x" "/data/sci/bad.fits") demo_world).2
  = files demo_world.
Proof.
  apply (download_single_url_cache_short_circuit demo_env
           (fetch_to "https://irsa/x" "/data/sci/bad.fits")
           "/data/sci/bad.fits" demo_world);
    vm_compute; reflexivity.
Defined.

(** ** The cache decision *)

(** On a file that is there, [_is_fitsfile_bad_] says whether the
    content fails to parse; on a missing one it answers [test_exist]. *)
Lemma is_fitsfile_bad_spec (E : env) (f : string) (test_exist : bool) (w : world) :
  (_is_fitsfile_bad_ E f test_exist w).1
  = Ok (match files w !! f with
        | Some c => negb (fits_parses E c)
        | None => test_exist
        end)
  ∧ files (_is_fitsfile_bad_ E f test_exist w).2 = files w.
Proof.
  unfold _is_fitsfile_bad_, fits_getdata, read_file, try_except, os_path_isfile.
  run_monad.
  destruct (files w !! f) as [c|] eqn:Hf; simpl.
  - rewrite ?Hf. destruct (fits_parses E c); simpl; split; reflexivity.
  - split; reflexivity.
Qed.

(** The decision for one file, without [overwrite]. *)
Lemma flag_without_overwrite_spec (E : env) (f : string) (test_file : bool)
    (w : world) :
  (flag_without_overwrite E test_file f w).1
  = Ok (download_wanted E (files w) false test_file f)
  ∧ files (flag_without_overwrite E test_file f w).2 = files w.
Proof.
  unfold flag_without_overwrite, download_wanted, unreadable_fits.
  rewrite bind_unfold. unfold gets, os_path_isfile. simpl.
  destruct (files w !! f) as [c|] eqn:Hf.
  - rewrite bool_decide_eq_true_2 by eauto. simpl.
    destruct (test_file && py_in ".fits" f) eqn:Hrec.
    + pose proof (is_fitsfile_bad_spec E f true w) as [Hr Hw].
      rewrite Hf in Hr. split; [exact Hr | exact Hw].
    + split; reflexivity.
  - rewrite bool_decide_eq_false_2 by (intros [? ?]; discriminate).
    simpl. split; reflexivity.
Qed.

Lemma map_M_flags (E : env) (test_file : bool) (fs : list string) (w : world) :
  (map_M (flag_without_overwrite E test_file) fs w).1
  = Ok (List.map (download_wanted E (files w) false test_file) fs)
  ∧ files (map_M (flag_without_overwrite E test_file) fs w).2 = files w.
Proof.
  revert w. induction fs as [|f fs IH]; intros w.
  - split; reflexivity.
  - cbn [map_M List.map].
    pose proof (flag_without_overwrite_spec E f test_file w) as [H1 H2].
    rewrite bind_unfold.
    destruct (flag_without_overwrite E test_file f w) as [[b|e] w1];
      simpl in H1, H2; [| discriminate].
    inversion H1; subst b. clear H1.
    rewrite bind_unfold.
    specialize (IH w1) as [IH1 IH2].
    destruct (map_M (flag_without_overwrite E test_file) fs w1) as [[bs|e] w2]; simpl in IH1, IH2; [| discriminate].
    inversion IH1; subst bs. simpl.
    rewrite H2. split; [reflexivity | congruence].
Qed.

(** *** Occurrence of a needle in a string *)

Lemma substring_prefix (s : string) (n : nat) :
  ∃ z, s = String.substring 0 n s ++ z.
Proof.
  revert n. induction s as [|c s IH]; intros n.
  - exists "". destruct n; reflexivity.
  - destruct n as [|n].
    + exists (String c s). reflexivity.
    + destruct (IH n) as [z Hz]. exists z.
      cbn [String.substring]. rewrite append_cons. f_equal. exact Hz.
Qed.

Lemma substring_is_part (s : string) (m n : nat) :
  ∃ a z, s = a ++ String.substring m n s ++ z.
Proof.
  revert m. induction s as [|c s IH]; intros m.
  - exists "", "". destruct m, n; reflexivity.
  - destruct m as [|m].
    + destruct (substring_prefix (String c s) n) as [z Hz].
      exists "", z. rewrite append_nil_l. exact Hz.
    + destruct (IH m) as (a & z & H).
      exists (String c a), z. cbn [String.substring].
      rewrite append_cons. f_equal. exact H.
Qed.

Lemma substring_at_prefix (t z : string) :
  String.substring 0 (String.length t) (t ++ z) = t.
Proof.
  induction t as [|c t IH].
  - rewrite append_nil_l. destruct z; reflexivity.
  - rewrite append_cons. cbn [String.length String.substring]. f_equal. exact IH.
Qed.

Lemma substring_at (a t z : string) :
  String.substring (String.length a) (String.length t) (a ++ t ++ z) = t.
Proof.
  induction a as [|c a IH].
  - rewrite append_nil_l. apply substring_at_prefix.
  - rewrite append_cons. cbn [String.length String.substring]. exact IH.
Qed.

(** [needle in hay] holds exactly when the needle occurs in the hay. *)
Lemma py_in_occurs (needle hay : string) :
  needle ≠ "" → py_in needle hay = true ↔ occurs_in needle hay.
Proof.
  intros Hne. unfold py_in, occurs_in. split.
  - destruct (String.index 0 needle hay) as [m|] eqn:Hi; [| discriminate].
    intros _. apply String.index_correct1 in Hi.
    destruct (substring_is_part hay m (String.length needle)) as (a & z & H).
    rewrite Hi in H. exists a, z. exact H.
  - intros (a & z & ->).
    destruct (String.index 0 needle (a ++ needle ++ z)) as [m|] eqn:Hi;
      [reflexivity |].
    exfalso.
    apply (String.index_correct3 0 (String.length a) needle _ Hi Hne);
      [lia | apply substring_at].
Qed.

(** The decision for one file, with its effect: the one parse attempt,
    made when the file is there, [test_file] is set and [".fits"] is in
    the name. *)
Lemma flag_without_overwrite_run (E : env) (test_file : bool) (f : string)
    (w : world) :
  flag_without_overwrite E test_file f w
  = (Ok (download_wanted E (files w) false test_file f),
     if os_path_isfile w f && test_file && py_in ".fits" f
     then emit (EvFitsGetdata f) w else w).
Proof.
  unfold flag_without_overwrite, download_wanted, unreadable_fits,
    _is_fitsfile_bad_, fits_getdata, read_file, try_except.
  rewrite bind_unfold. unfold gets, os_path_isfile. simpl.
  destruct (files w !! f) as [c|] eqn:Hf.
  - rewrite bool_decide_eq_true_2 by eauto. simpl.
    destruct test_file; simpl; [| reflexivity].
    destruct (py_in ".fits" f); simpl; [| reflexivity].
    run_monad. rewrite Hf.
    rewrite bool_decide_eq_true_2 by eauto. simpl. rewrite Hf.
    destruct (fits_parses E c); reflexivity.
  - rewrite bool_decide_eq_false_2 by (intros [? ?]; discriminate).
    reflexivity.
Qed.

(** The decision in words. *)
Lemma download_wanted_iff (E : env) (disk : gmap string string)
    (overwrite verify : bool) (f : string) :
  download_wanted E disk overwrite verify f = true
  ↔ overwrite = true ∨ disk !! f = None
    ∨ (verify = true ∧ occurs_in ".fits" f
       ∧ ∃ c, disk !! f = Some c ∧ fits_parses E c = false).
Proof.
  unfold download_wanted, unreadable_fits.
  rewrite !orb_true_iff, !andb_true_iff, negb_true_iff, bool_decide_eq_false.
  rewrite (py_in_occurs ".fits" f) by discriminate.
  destruct (disk !! f) as [c|] eqn:Hf.
  - rewrite negb_true_iff. split.
    + intros [[H | H] | [[Hv Ho] Hp]]; [left; exact H | | ].
      * exfalso. apply H. eauto.
      * right. right. repeat split; try assumption. exists c. split; auto.
    + intros [H | [H | (Hv & Ho & c' & Hc & Hp)]];
        [left; left; exact H | discriminate |].
      right. inversion Hc; subst. repeat split; assumption.
  - split.
    + intros _. right. left. reflexivity.
    + intros _. left. right. intros [? ?]; discriminate.
Qed.

(** What the loop over the names adds to the trace: parse attempts, each
    on one of the names, and only on names in which [".fits"] occurs. *)
Lemma map_M_flags_trace (E : env) (test_file : bool) (fs : list string)
    (w : world) :
  extends_by (λ e, ∃ f, e = EvFitsGetdata f ∧ f ∈ fs ∧ occurs_in ".fits" f) w
    (map_M (flag_without_overwrite E test_file) fs w).2.
Proof.
  revert w. induction fs as [|f fs IH]; intros w; [reflexivity |].
  cbn [map_M]. rewrite bind_unfold, flag_without_overwrite_run.
  set (w1 := if os_path_isfile w f && test_file && py_in ".fits" f
             then emit (EvFitsGetdata f) w else w).
  assert (H1 : extends_by
                 (λ e, ∃ g, e = EvFitsGetdata g ∧ g ∈ f :: fs ∧ occurs_in ".fits" g)
                 w w1).
  { subst w1. destruct (os_path_isfile w f && test_file && py_in ".fits" f) eqn:Hc;
      [| reflexivity].
    apply andb_true_iff in Hc as [_ Hin].
    exists [EvFitsGetdata f]. split; [reflexivity |].
    repeat constructor. exists f. split; [reflexivity |].
    split; [set_solver | apply py_in_occurs; [discriminate | exact Hin]]. }
  specialize (IH w1). rewrite bind_unfold.
  destruct (map_M (flag_without_overwrite E test_file) fs w1) as [[bs|e] w2];
    simpl in *; (etransitivity; [exact H1 |]);
    (eapply extends_by_weaken; [| exact IH]);
    intros e' (g & -> & Hg & Ho); exists g; (split; [reflexivity |]);
    (split; [set_solver | exact Ho]).
Qed.

(** C2 (counterexample to the claim as stated). On a cache kept below a
    directory named [/data.fits], the note [notes.dat], whose extension
    is not a recognized one, is flagged because its content does not
    parse as FITS; and the text file [list.txt], whose extension is
    recognized and whose content does not decode, is not flagged.  The
    policy decides the other way on both. *)
Lemma get_file_flag_todl_departs_from_policy :
  (get_file_flag_todl demo_env_ascii ["/data.fits/notes.dat"; "/data/list.txt"]
     false true odd_world).1
  = Ok [true; false]
  ∧ List.map (policy_flag demo_env_ascii (files odd_world) false true)
      ["/data.fits/notes.dat"; "/data/list.txt"]
    = [false; true]
  ∧ extension "/data.fits/notes.dat" = Some "dat"
  ∧ policy_is_corrupt demo_env_ascii (files odd_world) "/data/list.txt" = true.
Proof. vm_compute. repeat split; reflexivity. Qed.

(** C2 (amended). The download flags of [get_file], file by file: a
    flag is set exactly when [overwrite] is set, or the local file is
    absent, or [test_file] is set, [".fits"] occurs somewhere in the path
    and the content does not parse as FITS.  The decision changes no file
    and no directory, and the only content it inspects is that of paths
    in which [".fits"] occurs, by a FITS parse: any other file, a text
    file included, is flagged by [overwrite] or by its absence only. *)
Theorem get_file_flag_todl_policy (E : env) (fs : list string)
    (overwrite test_file : bool) (w : world) :
  ∃ flags,
    (get_file_flag_todl E fs overwrite test_file w).1 = Ok flags
    ∧ Forall2 (λ f flag,
         flag = true
         ↔ overwrite = true ∨ files w !! f = None
           ∨ (test_file = true ∧ occurs_in ".fits" f
              ∧ ∃ c, files w !! f = Some c ∧ fits_parses E c = false))
        fs flags
    ∧ same_disk w (get_file_flag_todl E fs overwrite test_file w).2
    ∧ extends_by (λ e, ∃ f, e = EvFitsGetdata f ∧ f ∈ fs ∧ occurs_in ".fits" f) w
        (get_file_flag_todl E fs overwrite test_file w).2.
Proof.
  exists (List.map (download_wanted E (files w) overwrite test_file) fs).
  assert (Hflags : Forall2 (λ f flag,
             flag = true
             ↔ overwrite = true ∨ files w !! f = None
               ∨ (test_file = true ∧ occurs_in ".fits" f
                  ∧ ∃ c, files w !! f = Some c ∧ fits_parses E c = false))
            fs (List.map (download_wanted E (files w) overwrite test_file) fs)).
  { induction fs as [|f fs IH]; constructor; [| exact IH].
    apply download_wanted_iff. }
  unfold get_file_flag_todl. destruct overwrite.
  - split; [reflexivity |]. split; [exact Hflags |].
    split; [split; reflexivity | reflexivity].
  - pose proof (map_M_flags E test_file fs w) as [Hr Hf].
    split; [exact Hr |]. split; [exact Hflags |].
    split; [| apply map_M_flags_trace].
    split; [exact Hf |].
    (* the directories: the loop only reads *)
    clear Hr Hf Hflags. revert w. induction fs as [|f fs IH]; intros w;
      [reflexivity |].
    cbn [map_M]. rewrite bind_unfold, flag_without_overwrite_run.
    set (w1 := if os_path_isfile w f && test_file && py_in ".fits" f
               then emit (EvFitsGetdata f) w else w).
    assert (Hd : dirs w1 = dirs w) by (subst w1; case_match; reflexivity).
    specialize (IH w1). rewrite bind_unfold.
    destruct (map_M (flag_without_overwrite E test_file) fs w1) as [[bs|e] w2];
      simpl in *; congruence.
Qed.

(** The decision on the demo cache: the truncated image is flagged, the
    sound one is not, a missing file is, and the note is not. *)
Example get_file_flags_demo :
  (get_file_flag_todl demo_env
     ["/data/sci/bad.fits"; "/data/sci/good.fits"; "/data/sci/new.fits";
      "/data/notes.dat"] false true demo_world).1
  = Ok [true; false; true; false].
Proof. vm_compute. reflexivity. Qed.

(** The sidecar plays no part in the decision: the sound image is parsed
    again although its sidecar is on disk. *)
Example get_file_flags_parse_despite_sidecar :
  trace (get_file_flag_todl demo_env ["/data/sci/good.fits"] false true demo_world).2
  = [EvFitsGetdata "/data/sci/good.fits"].
Proof. vm_compute. reflexivity. Qed.

(** ** Cutouts *)

Lemma within_ret_bind (R : relation world) {A B} (a : A) (k : A → M B) :
  within R (k a) → within R (ret a ≫= k).
Proof. intros H w. apply H. Qed.

Lemma already_there_same_files (a : dl_args) (w w' : world) :
  files w' = files w → already_there a w' = already_there a w.
Proof.
  intros H. unfold already_there, os_path_isfile. rewrite H. reflexivity.
Qed.

Lemma after_pause_files (E : env) (a : dl_args) (w : world) :
  files (after_pause E a w) = files w.
Proof.
  unfold after_pause. destruct (dl_wait a); [| reflexivity].
  destruct (dl_randomize_wait a); reflexivity.
Qed.

Lemma after_pause_offline (E : env) (a : dl_args) (w : world) :
  extends_by (λ e, ¬ is_network e) w (after_pause E a w).
Proof.
  unfold after_pause. destruct (dl_wait a) as [t|]; [| reflexivity].
  exists [EvSleep (pause_length E a w t)]. split.
  - destruct (dl_randomize_wait a); reflexivity.
  - repeat constructor. simpl. tauto.
Qed.

(** The announcement [downloading url to fileout] leaves the files alone
    and is not a network event. *)
Lemma announce_download (a : dl_args) (w : world) :
  ∃ w1,
    match dl_fileout a with
    | Some (String c f) =>
        logger_debug ("downloading " ++ dl_url a ++ " to " ++ String c f)
    | _ => ret tt
    end w = (Ok tt, w1)
    ∧ files w1 = files w
    ∧ extends_by (λ e, ¬ is_network e) w w1.
Proof.
  destruct (dl_fileout a) as [[|c f]|].
  - exists w. repeat split. reflexivity.
  - eexists. split; [reflexivity |]. split; [reflexivity |].
    eexists [_]. split; [reflexivity |]. repeat constructor. simpl. tauto.
  - exists w. repeat split. reflexivity.
Qed.

(** Events of one transfer. *)
Lemma within_send_request (E : env) (s : option nat) (m u : string)
    (ck : option (list string)) (d : option string) :
  within (extends_by (fetches_from u)) (send_request E s m u ck d).
Proof.
  unfold send_request.
  apply within_bind; try apply _; [apply within_gets; apply _ | intros jar].
  apply within_bind; try apply _; [apply within_tell; reflexivity | intros _].
  apply within_bind; try apply _; [| intros _; apply within_ret; apply _].
  destruct s; [apply within_silent; reflexivity | apply within_ret; apply _].
Qed.

Lemma within_pause_any (E : env) (P : event → Prop) (wait : option Q) (r : bool) :
  (∀ t, P (EvSleep t)) →
  within (extends_by P) (rate_limit_pause E wait r).
Proof.
  intros HP. unfold rate_limit_pause, time_sleep.
  destruct wait as [t|]; [| apply within_ret; apply _].
  apply within_bind; try apply _.
  - destruct r; simpl; [apply within_silent; reflexivity | apply within_ret; apply _].
  - intros t'. case_match; [apply within_tell, HP | apply within_raise; apply _].
Qed.

(** C7 (counterexample to the claim as stated). A cutout request
    without a region raises nothing when the destination is already
    there: the call is skipped before the region is looked at. *)
Lemma cutout_without_region_is_skipped :
  dl_cutouts (cutout_to "https://irsa/x" "/data/sci/good.fits" None) = true
  ∧ dl_radec (cutout_to "https://irsa/x" "/data/sci/good.fits" None) = None
  ∧ (download_single_url demo_env
       (cutout_to "https://irsa/x" "/data/sci/good.fits" None) demo_world).1
    = Ok ReturnsNone.
Proof. vm_compute. repeat split; reflexivity. Qed.

(** C7 (amended). In cutout mode, a call that is not skipped by the
    cache and has no region raises ValueError before any network request
    and without touching a file; and when the region is there, every
    transfer request of the call goes to the address extended by the
    centre and the size. *)
Theorem download_single_url_cutout (E : env) (a : dl_args) (w : world) :
  dl_cutouts a = true →
  (dl_radec a = None → wait_spec_ok (dl_wait a) → already_there a w = false →
   (download_single_url E a w).1
   = Raise (ValueError "You selected to download cutouts only. Please provide the radec parameter. Default cutout_size: 30 arcsec")
   ∧ extends_by (λ e, ¬ is_network e) w (download_single_url E a w).2
   ∧ files (download_single_url E a w).2 = files w)
  ∧ (∀ radec ra dec,
       dl_radec a = Some radec →
       radec !! 0%nat = Some ra → radec !! 1%nat = Some dec →
       extends_by
         (fetches_from (dl_url a ++ cutout_query ra dec (dl_cutout_size a)))
         w (download_single_url E a w).2).
Proof.
  intros Hcut. split.
  - intros Hradec Hok Hmiss.
    destruct (announce_download a (after_pause E a w)) as (w1 & Hlog & Hf1 & Ht1).
    assert (Hout : download_single_url E a w
                   = (Raise (ValueError "You selected to download cutouts only. Please provide the radec parameter. Default cutout_size: 30 arcsec"), w1)).
    { unfold download_single_url, download_single_url_body.
      rewrite (bind_ok _ _ w _ tt (rate_limit_pause_ok E a w Hok)).
      rewrite (bind_ok _ _ _ (after_pause E a w) false).
      2:{ unfold gets.
          rewrite (already_there_same_files a w _ (after_pause_files E a w)).
          rewrite Hmiss. reflexivity. }
      cbv beta iota.
      rewrite (bind_ok _ _ _ w1 tt Hlog).
      rewrite Hcut, Hradec. reflexivity. }
    rewrite Hout. simpl. split; [reflexivity | split].
    + transitivity (after_pause E a w); [apply after_pause_offline | exact Ht1].
    + rewrite Hf1. apply after_pause_files.
  - intros radec ra dec Hradec Hra Hdec.
    set (u := dl_url a ++ cutout_query ra dec (dl_cutout_size a)).
    assert (Hany : ∀ e, (∀ s m u' c d, e ≠ EvFetch s m u' c d) → fetches_from u e).
    { intros [] He; simpl; try exact I. exfalso. eapply He. reflexivity. }
    unfold download_single_url, download_single_url_body.
    rewrite Hcut, Hradec. cbv beta iota. rewrite Hra, Hdec. cbv beta iota.
    apply within_bind; try apply _.
    { apply within_pause_any. intros t. exact I. }
    intros _. apply within_bind; try apply _; [apply within_gets; apply _ |].
    intros skip. destruct skip.
    { apply within_bind; try apply _;
        [apply within_tell; exact I | intros _; apply within_ret; apply _]. }
    apply within_bind; try apply _.
    { destruct (dl_fileout a) as [[|c f]|];
        [apply within_ret; apply _ | apply within_tell; exact I
        | apply within_ret; apply _]. }
    intros _. apply within_ret_bind.
    fold (cutout_query ra dec (dl_cutout_size a)). fold u.
    assert (Hck : ∀ ck s, within (extends_by (fetches_from u))
                            (cookies_or_login E ck s)).
    { intros ck s. unfold cookies_or_login. destruct ck;
        try (apply within_ret; apply _).
      apply within_bind; try apply _;
        [apply within_get_cookie; intros; exact I
        | intros ?; apply within_ret; apply _]. }
    assert (Hpost : ∀ f eb wh, within (extends_by (fetches_from u))
                                 (post_fetch_check E f eb wh)).
    { intros f eb wh. apply within_post_fetch_check; intros; exact I. }
    pose proof (within_send_request E) as Hsend.
    pose proof (λ p, within_silent (fetches_from u) (open_for_write p)
                       (open_for_write_trace p)) as Hopen.
    pose proof (λ p d, within_silent (fetches_from u) (file_write p d)
                         (file_write_trace p d)) as Hwrite.
    pose proof (λ d, within_silent (fetches_from u) (os_makedirs d)
                       (os_makedirs_trace d)) as Hmk.
    pose proof (λ m, within_silent (fetches_from u) (os_umask m)
                       (os_umask_trace m)) as Hum.
    footprint.
Qed.

(** A cutout request with its region, on an empty cache: the transfer
    goes to the extended address. *)
Example cutout_request_address :
  In (EvFetch None "get"
        "https://irsa/x?center=21,-3.5&size=30arcsec&gzip=false" [] None)
     (trace (download_single_url demo_env
               (cutout_to "https://irsa/x" "/data/sci/new.fits"
                  (Some [PyInt 21; PyStr "-3.5"])) empty_world).2).
Proof. vm_compute. auto 10. Qed.

(** A cutout call without region into an empty cache. *)
Lemma download_single_url_cutout_witness :
  dl_cutouts (cutout_to "https://irsa/x" "/data/sci/new.fits" None) = true
  ∧ (download_single_url demo_env
       (cutout_to "https://irsa/x" "/data/sci/new.fits" None) empty_world).1
    = Raise (ValueError "You selected to download cutouts only. Please provide the radec parameter. Default cutout_size: 30 arcsec").
Proof.
  split; [reflexivity |].
  destruct (download_single_url_cutout demo_env
              (cutout_to "https://irsa/x" "/data/sci/new.fits" None)
              empty_world eq_refl) as [Hnone _].
  apply Hnone; vm_compute; congruence.
Defined.

(** The slip next to it: the worker-pool branch of [download_url] turns a
    missing region into the pair (None, None), so the check above never
    fires there and the address asks for the centre None,None. *)
Example pool_cutout_without_region :
  ∃ tasks w,
    pool_args ["https://irsa/x"] ["/data/sci/new.fits"] None true None true
      None PyNone empty_world = (Ok tasks, w)
    ∧ In (EvFetch None "get"
            "https://irsa/x?center=None,None&size=Nonearcsec&gzip=false"
            ["irsa-cookie"] None)
         (trace (for_each tasks (_download_ demo_env) w).2).
Proof. eexists _, _. split; [reflexivity |]. vm_compute. auto 10. Qed.

(** ** A fresh fetch *)

#[global] Instance same_disk_refl : Reflexive same_disk.
Proof. intros w. split; reflexivity. Qed.

#[global] Instance same_disk_trans : Transitive same_disk.
Proof. intros w1 w2 w3 [H1 H2] [H3 H4]. split; congruence. Qed.


Lemma same_disk_exists (w w' : world) (p : string) :
  same_disk w w' → os_path_exists w' p = os_path_exists w p.
Proof.
  intros [Hf Hd]. unfold os_path_exists, os_path_isfile.
  rewrite Hf, Hd. reflexivity.
Qed.

Lemma after_pause_same_disk (E : env) (a : dl_args) (w : world) :
  same_disk w (after_pause E a w).
Proof.
  unfold after_pause. destruct (dl_wait a); [| reflexivity].
  destruct (dl_randomize_wait a); split; reflexivity.
Qed.

(** Logging in writes no file. *)
Lemma within_login_request_disk (E : env) (s : option nat) (u : string) :
  within same_disk (login_request E s u).
Proof. intros w. unfold login_request. run_monad. destruct s; split; reflexivity. Qed.

Lemma get_cookie_same_disk (E : env) (u p : option string) (s : option nat)
    (update : bool) :
  within same_disk (get_cookie E u p s update).
Proof.
  unfold get_cookie, _load_id_.
  apply within_bind; try apply _; [apply within_gets; apply _ | intros jar].
  case_match; [apply within_ret; apply _ |].
  apply within_bind; try apply _.
  { repeat case_match; try (apply within_ret; apply _);
      intros w; split; reflexivity. }
  intros [u' p'].
  apply within_bind; try apply _.
  { destruct s; [| apply within_ret; apply _].
    apply within_bind; try apply _;
      [apply within_login_request_disk | intros ?; apply within_ret; apply _]. }
  intros _. apply within_bind; try apply _;
    [apply within_login_request_disk | intros ?; apply within_ret; apply _].
Qed.

(** With a login in store, the cookies are obtained. *)
Lemma get_cookie_returns (E : env) (s : option nat) (c : string * string)
    (w : world) :
  credentials E "irsa" = Ok c →
  ∃ ck, (get_cookie E None None s false w).1 = Ok ck.
Proof.
  intros Hc. unfold get_cookie, _load_id_, login_request. rewrite Hc.
  run_monad. case_match; [eexists; reflexivity |].
  destruct c as [u p]. destruct s; simpl; eexists; reflexivity.
Qed.

Lemma cookies_or_login_ok (E : env) (ck : cookies_arg) (s : option nat)
    (w : world) :
  (ck = CookiesNone → ∃ c, credentials E "irsa" = Ok c) →
  ∃ ck' w', cookies_or_login E ck s w = (Ok ck', w') ∧ same_disk w w'.
Proof.
  intros Hc. unfold cookies_or_login.
  destruct ck; try (eexists _, _; split; [reflexivity | reflexivity]).
  destruct (Hc eq_refl) as [c Hcred].
  destruct (get_cookie_returns E s c w Hcred) as [got Hgot].
  pose proof (get_cookie_same_disk E None None s false w) as Hdisk.
  rewrite bind_unfold.
  destruct (get_cookie E None None s false w) as [[x|e] w1]; simpl in *;
    [| discriminate].
  eexists _, _. split; [reflexivity | exact Hdisk].
Qed.

Lemma send_request_ok (E : env) (s : option nat) (m u : string)
    (ck : option (list string)) (d : option string) (w : world) :
  ∃ w', send_request E s m u ck d w
        = (Ok (http E m u (default [] ck ++ session_cookies s w)%list d), w')
        ∧ same_disk w w'.
Proof.
  unfold send_request. run_monad.
  destruct s; simpl; eexists; (split; [reflexivity | split; reflexivity]).
Qed.

Lemma open_for_write_ok (p : string) (w : world) :
  p ∉ dirs w → files w !! dirname p = None →
  dirname p = "" ∨ dirname p ∈ dirs w →
  open_for_write p w = (Ok tt, set_files (<[p := ""]>) w).
Proof.
  intros Hp _ Hdir. unfold open_for_write.
  rewrite (bool_decide_eq_false_2 _ Hp).
  rewrite (below_file_in_dir w p Hdir).
  destruct Hdir as [H|H].
  - rewrite (bool_decide_eq_true_2 _ H). reflexivity.
  - rewrite (bool_decide_eq_true_2 (dirname p ∈ dirs w) H).
    rewrite orb_true_r. reflexivity.
Qed.

(** Writing the chunks one after the other appends the whole body. *)
Lemma write_chunks (fuel n : nat) (p s old : string) (w : world) :
  (0 < n)%nat → (String.length s < fuel)%nat → files w !! p = Some old →
  ∃ w', for_each (read_chunks fuel n s) (file_write p) w = (Ok tt, w')
        ∧ files w' = <[p := old ++ s]> (files w)
        ∧ dirs w' = dirs w.
Proof.
  intros Hn. revert s old w.
  induction fuel as [|fuel IH]; intros s old w Hlen Hold; [lia |].
  simpl. pose proof (read_split n s) as Hsplit.
  pose proof (read_shortens n s) as Hshort.
  pose proof (read_nothing n s Hn) as Hnone.
  destruct (read n s) as [h t]. simpl in *.
  destruct (decide (h = "")) as [Hh|Hh].
  - rewrite (Hnone Hh), append_nil_r. exists w. simpl.
    split; [reflexivity | split; [| reflexivity]].
    symmetry. apply insert_id. exact Hold.
  - cbn [for_each]. rewrite bind_unfold. simpl.
    specialize (Hshort Hh).
    destruct (IH t (old ++ h)
                (set_files (λ fs, <[p := default "" (fs !! p) ++ h]> fs) w))
      as (w' & Hrun & Hfiles & Hdirs).
    + lia.
    + simpl. rewrite Hold. simpl. apply lookup_insert_eq.
    + exists w'. split; [exact Hrun |]. split; [| exact Hdirs].
      rewrite Hfiles. simpl. rewrite Hold. simpl.
      rewrite insert_insert_eq, append_assoc, Hsplit. reflexivity.
Qed.

Lemma md5_name_differs (f : string) : f ++ ".md5" ≠ f.
Proof.
  intros H. apply (f_equal String.length) in H.
  assert (Hlen : ∀ s t, String.length (s ++ t)
                        = (String.length s + String.length t)%nat).
  { intros s t. induction s as [|c s IH]; [reflexivity |].
    rewrite append_cons. simpl. rewrite IH. reflexivity. }
  rewrite Hlen in H. simpl in H. lia.
Qed.

Lemma ret_bind {A B} (a : A) (k : A → M B) (w : world) :
  (ret a ≫= k) w = k a w.
Proof. reflexivity. Qed.

Lemma announce_download_disk (a : dl_args) (w : world) :
  ∃ w1,
    match dl_fileout a with
    | Some (String c f) =>
        logger_debug ("downloading " ++ dl_url a ++ " to " ++ String c f)
    | _ => ret tt
    end w = (Ok tt, w1)
    ∧ same_disk w w1.
Proof.
  destruct (dl_fileout a) as [[|c f]|]; eexists;
    (split; [reflexivity | split; reflexivity]).
Qed.

Lemma fits_getdata_ok (E : env) (f c : string) (w : world) :
  files w !! f = Some c → fits_parses E c = true →
  fits_getdata E f w = (Ok tt, emit (EvFitsGetdata f) w).
Proof.
  intros Hf Hp. unfold fits_getdata, read_file. run_monad.
  rewrite Hf, Hp. reflexivity.
Qed.

(** Recording: the sidecar receives the digest of the content. *)
Lemma calculate_and_write_hash_ok (E : env) (f c : string) (w : world) :
  files w !! f = Some c →
  os_path_exists w (f ++ ".md5") = false →
  files w !! dirname f = None →
  dirname f = "" ∨ dirname f ∈ dirs w →
  ∃ w', calculate_and_write_hash E f w = (Ok tt, w')
        ∧ files w' = <[f ++ ".md5" := md5_hexdigest E c]> (files w)
        ∧ dirs w' = dirs w.
Proof.
  intros Hf Hside Hdf Hdir.
  unfold os_path_exists in Hside. apply orb_false_iff in Hside as [_ Hnd].
  apply bool_decide_eq_false in Hnd.
  unfold calculate_and_write_hash.
  rewrite (bind_ok _ _ _ _ _ (calculate_hash_content E f c w Hf)).
  set (w1 := emit (EvMd5 f (md5_hexdigest E c)) w).
  rewrite (bind_ok _ _ w1 _ tt (open_for_write_ok (f ++ ".md5") w1 Hnd
             ltac:(rewrite dirname_md5; exact Hdf)
             ltac:(rewrite dirname_md5; exact Hdir))).
  eexists. split; [reflexivity |]. split; [| reflexivity].
  simpl. rewrite lookup_insert_eq. simpl.
  rewrite insert_insert_eq, append_nil_l. reflexivity.
Qed.

(** The check after the fetch, on a file that parses and has no sidecar
    yet: good, and the sidecar is written exactly when [write_hash] asks
    for it. *)
Lemma post_fetch_check_good (E : env) (f c : string) (erasebad write_hash : bool)
    (w : world) :
  py_in ".fits" f = true → files w !! f = Some c → fits_parses E c = true →
  os_path_exists w (f ++ ".md5") = false →
  files w !! dirname f = None →
  dirname f = "" ∨ dirname f ∈ dirs w →
  ∃ w', post_fetch_check E f erasebad write_hash w = (Ok true, w')
        ∧ files w' = (if write_hash
                      then <[f ++ ".md5" := md5_hexdigest E c]> (files w)
                      else files w)
        ∧ dirs w' = dirs w.
Proof.
  intros Hfits Hf Hp Hside Hdf Hdir.
  unfold post_fetch_check, _test_file_body. rewrite Hfits.
  unfold verify_unless_hashed, hash_for_file_exists.
  rewrite (bind_ok _ _ w w false); [| unfold gets; rewrite Hside; reflexivity].
  cbv beta iota. unfold try_except.
  rewrite (bind_ok _ _ w _ tt (fits_getdata_ok E f c w Hf Hp)).
  set (w1 := emit (EvFitsGetdata f) w).
  destruct write_hash.
  - destruct (calculate_and_write_hash_ok E f c w1 Hf Hside Hdf Hdir)
      as (w2 & Hrun & Hfiles & Hdirs).
    rewrite (bind_ok _ _ w1 w2 tt Hrun).
    exists w2. split; [reflexivity | split; assumption].
  - rewrite (bind_ok _ _ w1 (emit (EvMd5 f (md5_hexdigest E c)) w1) tt).
    2:{ rewrite (bind_ok _ _ _ _ _ (calculate_hash_content E f c w1 Hf)).
        reflexivity. }
    eexists. split; [reflexivity | split; reflexivity].
Qed.

(** *** Directories created on demand *)


















(** The same fetch with the default options leaves no sidecar, and a
    name of a kind the check does not test gets none even with
    [write_hash]. *)
Example fresh_fetch_sidecars :
  files (download_single_url demo_env
           (fetch_to "https://irsa/new" "/archive/2024/new.fits")
           empty_world).2 !! "/archive/2024/new.fits.md5" = None
  ∧ files (download_single_url demo_env
             (fetch_and_record "https://irsa/new" "/archive/2024/new.dat")
             empty_world).2 !! "/archive/2024/new.dat.md5" = None
  ∧ files (download_single_url demo_env
             (fetch_and_record "https://irsa/new" "/archive/2024/new.dat")
             empty_world).2 !! "/archive/2024/new.dat" = Some "SIMPLE image".
Proof. vm_compute. repeat split; reflexivity. Qed.

(** * More properties of the code *)

(** ** Hash tools *)


(** The three failures on the demo cache: a directory, a path below the
    note, a name that is not there. *)
Example calculate_hash_failures :
  (calculate_hash demo_env "/data/sci" demo_world).1
  = Raise (IsADirectoryError "/data/sci")
  ∧ (calculate_hash demo_env "/data/notes.dat/x" demo_world).1
    = Raise (NotADirectoryError "/data/notes.dat/x")
  ∧ (calculate_hash demo_env "/data/sci/gone.fits" demo_world).1
    = Raise (FileNotFoundError "/data/sci/gone.fits").
Proof. vm_compute. repeat split; reflexivity. Qed.

(** Recording next to any existing file, whether or not a sidecar is
    already there. *)
Lemma calculate_and_write_hash_overwrites (E : env) (f c : string) (w : world) :
  files w !! f = Some c →
  f ++ ".md5" ∉ dirs w →
  files w !! dirname f = None →
  dirname f = "" ∨ dirname f ∈ dirs w →
  calculate_and_write_hash E f w
  = (Ok tt,
     set_files (<[f ++ ".md5" := md5_hexdigest E c]>)
       (emit (EvMd5 f (md5_hexdigest E c)) w)).
Proof.
  intros Hf Hnd Hdf Hdir.
  unfold calculate_and_write_hash.
  rewrite (bind_ok _ _ _ _ _ (calculate_hash_content E f c w Hf)).
  set (w1 := emit (EvMd5 f (md5_hexdigest E c)) w).
  rewrite (bind_ok _ _ w1 _ tt (open_for_write_ok (f ++ ".md5") w1 Hnd
             ltac:(rewrite dirname_md5; exact Hdf)
             ltac:(rewrite dirname_md5; exact Hdir))).
  unfold file_write, modify, set_files. simpl.
  rewrite lookup_insert_eq. simpl.
  rewrite insert_insert_eq, append_nil_l. reflexivity.
Qed.

(** X2. Round trip of the sidecar: after [calculate_and_write_hash] on
    an existing file, [read_hash] gives back the digest that
    [calculate_hash] computes, and the data file is untouched; a sidecar
    that was already there is replaced. *)
Theorem record_then_read_hash (E : env) (f c : string) (w : world) :
  files w !! f = Some c →
  f ++ ".md5" ∉ dirs w →
  files w !! dirname f = None →
  dirname f = "" ∨ dirname f ∈ dirs w →
  text_decodes E (md5_hexdigest E c) = true →
  (calculate_and_write_hash E f w).1 = Ok tt
  ∧ (read_hash E f (calculate_and_write_hash E f w).2).1
    = (calculate_hash E f (calculate_and_write_hash E f w).2).1
  ∧ (read_hash E f (calculate_and_write_hash E f w).2).1
    = Ok (md5_hexdigest E c)
  ∧ files (calculate_and_write_hash E f w).2 !! f = Some c.
Proof.
  intros Hf Hnd Hdf Hdir Hdec.
  rewrite (calculate_and_write_hash_overwrites E f c w Hf Hnd Hdf Hdir).
  simpl.
  assert (Hkeep : <[f ++ ".md5" := md5_hexdigest E c]> (files w) !! f = Some c).
  { rewrite lookup_insert_ne by apply md5_name_differs. exact Hf. }
  assert (Hread : (read_hash E f
                     (set_files (<[f ++ ".md5" := md5_hexdigest E c]>)
                        (emit (EvMd5 f (md5_hexdigest E c)) w))).1
                  = Ok (md5_hexdigest E c)).
  { unfold read_hash, read_text, read_file. rewrite bind_unfold. simpl.
    rewrite lookup_insert_eq. rewrite Hdec. reflexivity. }
  split; [reflexivity |]. split; [| split; [exact Hread | exact Hkeep]].
  rewrite Hread.
  rewrite (calculate_hash_content E f c
             (set_files (<[f ++ ".md5" := md5_hexdigest E c]>)
                (emit (EvMd5 f (md5_hexdigest E c)) w)) Hkeep).
  reflexivity.
Qed.

(** The note of the demo cache. *)
Lemma record_then_read_hash_witness :
  files demo_world !! "/data/notes.dat" = Some "free text"
  ∧ (read_hash demo_env "/data/notes.dat"
       (calculate_and_write_hash demo_env "/data/notes.dat" demo_world).2).1
    = Ok "md5:free text".
Proof.
  split; [reflexivity |].
  apply (record_then_read_hash demo_env "/data/notes.dat" "free text" demo_world);
    first [ reflexivity
          | vm_compute; reflexivity
          | vm_compute; set_solver
          | right; vm_compute; set_solver ].
Defined.

(** ** File tests *)

(** X3. The verdict of [_test_file_] on a file that is on disk and has
    no sidecar, without re-download and without [write_hash]: the file is
    good exactly when its content parses as its name says (FITS when
    [".fits"] occurs in the name, else text when [".txt"] does, anything
    else passing untested); a bad file is removed when [erasebad] is set,
    and nothing else changes on the disk. *)
Theorem test_file_verdict (E : env) (f c : string) (erasebad fromdl : bool)
    (w : world) :
  files w !! f = Some c →
  os_path_exists w (f ++ ".md5") = false →
  (_test_file_ E f erasebad fromdl false false w).1 = Ok (content_ok E f c)
  ∧ files (_test_file_ E f erasebad fromdl false false w).2
    = (if content_ok E f c then files w
       else if erasebad then delete f (files w) else files w).
Proof.
  intros Hf Hside.
  assert (Hisf : bool_decide (is_Some (files w !! f)) = true).
  { apply bool_decide_eq_true_2. eauto. }
  unfold _test_file_, _test_file_body, content_ok, verify_unless_hashed,
    hash_for_file_exists, _fileissue_body, calculate_hash, fits_getdata,
    text_readlines, read_text, read_file, try_except, os_remove,
    os_path_isfile.
  destruct (py_in ".fits" f); [| destruct (py_in ".txt" f)]; run_monad;
    try (split; reflexivity);
    rewrite Hside; simpl; rewrite Hf; simpl.
  - destruct (fits_parses E c); simpl; [rewrite Hf; split; reflexivity |].
    destruct fromdl, erasebad; simpl; rewrite ?Hisf; split; reflexivity.
  - destruct (text_decodes E c); simpl; [rewrite Hf; split; reflexivity |].
    destruct fromdl, erasebad; simpl; rewrite ?Hisf; split; reflexivity.
Qed.

(** The truncated image of the demo cache. *)
Lemma test_file_verdict_witness :
  files demo_world !! "/data/sci/bad.fits" = Some "SIMP"
  ∧ (_test_file_ demo_env "/data/sci/bad.fits" true false false false demo_world).1
    = Ok false.
Proof.
  split; [reflexivity |].
  apply (test_file_verdict demo_env "/data/sci/bad.fits" "SIMP" true false demo_world);
    vm_compute; reflexivity.
Defined.


#[global] Instance same_disk_but_refl (side : string) : Reflexive (same_disk_but side).
Proof. intros w. split; [intros p _ |]; reflexivity. Qed.

#[global] Instance same_disk_but_trans (side : string) :
  Transitive (same_disk_but side).
Proof.
  intros w1 w2 w3 [H1 D1] [H2 D2]. split.
  - intros p Hp. rewrite (H2 p Hp). apply H1, Hp.
  - congruence.
Qed.

Lemma same_disk_same_disk_but (side : string) (w w' : world) :
  files w' = files w → dirs w' = dirs w → same_disk_but side w w'.
Proof. intros Hf Hd. split; [intros p _; rewrite Hf; reflexivity | exact Hd]. Qed.

(** The steps that can only write the sidecar. *)
Lemma within_tell_but (side : string) (e : event) :
  within (same_disk_but side) (tell e).
Proof. intros w. apply same_disk_same_disk_but; reflexivity. Qed.

Lemma within_read_file_but (side p : string) :
  within (same_disk_but side) (read_file p).
Proof.
  intros w. unfold read_file. repeat case_match;
    apply same_disk_same_disk_but; reflexivity.
Qed.

Lemma within_open_for_write_but (side : string) :
  within (same_disk_but side) (open_for_write side).
Proof.
  intros w. unfold open_for_write. repeat case_match; simpl;
    try (apply same_disk_same_disk_but; reflexivity).
  split; [| reflexivity]. intros p Hp. simpl.
  apply lookup_insert_ne. congruence.
Qed.

Lemma within_file_write_but (side data : string) :
  within (same_disk_but side) (file_write side data).
Proof.
  intros w. split; [| reflexivity]. intros p Hp. simpl.
  apply lookup_insert_ne. congruence.
Qed.

Lemma within_calculate_hash_but (E : env) (side f : string) :
  within (same_disk_but side) (calculate_hash E f).
Proof.
  unfold calculate_hash.
  apply within_bind; try apply _; [apply within_read_file_but | intros data].
  apply within_bind; try apply _; [apply within_tell_but | intros _].
  apply within_ret; apply _.
Qed.

Lemma within_record_but (E : env) (f : string) :
  within (same_disk_but (f ++ ".md5")) (calculate_and_write_hash E f).
Proof.
  unfold calculate_and_write_hash.
  apply within_bind; try apply _; [apply within_calculate_hash_but | intros d].
  apply within_bind; try apply _; [apply within_open_for_write_but | intros _].
  apply within_file_write_but.
Qed.

(** What [_fileissue_] does when it neither erases nor re-downloads:
    two log lines. *)
Lemma fileissue_body_keep (E : env)
    (call : string → string → cookies_arg → M unit) (f : string) (fromdl : bool)
    (w : world) :
  (_fileissue_body E call f false fromdl false w).1 = Ok tt
  ∧ files (_fileissue_body E call f false fromdl false w).2 = files w
  ∧ dirs (_fileissue_body E call f false fromdl false w).2 = dirs w.
Proof. unfold _fileissue_body. destruct fromdl; repeat split; reflexivity. Qed.

Lemma verify_unless_hashed_keep (E : env)
    (call : string → string → cookies_arg → M unit) (attempt : M unit)
    (f : string) (fromdl write_hash : bool) (w : world) :
  within (same_disk_but (f ++ ".md5")) attempt →
  (∃ b, (verify_unless_hashed E call attempt f false fromdl false write_hash w).1
        = Ok b)
  ∧ same_disk_but (f ++ ".md5") w
      (verify_unless_hashed E call attempt f false fromdl false write_hash w).2.
Proof.
  intros Hattempt. unfold verify_unless_hashed, hash_for_file_exists.
  rewrite bind_unfold. unfold gets.
  destruct (os_path_exists w (f ++ ".md5")); cbv beta iota.
  { split; [eexists; reflexivity | reflexivity]. }
  unfold try_except.
  set (body := attempt ≫= _).
  assert (Hbody : within (same_disk_but (f ++ ".md5")) body).
  { subst body. apply within_bind; try apply _; [exact Hattempt | intros _].
    apply within_bind; try apply _; [| intros _; apply within_ret; apply _].
    destruct write_hash; [apply within_record_but |].
    apply within_bind; try apply _;
      [apply within_calculate_hash_but | intros _; apply within_ret; apply _]. }
  specialize (Hbody w).
  destruct (body w) as [[b|e] w1]; simpl in Hbody.
  { split; [eexists; reflexivity | exact Hbody]. }
  destruct (is_FileNotFoundError e).
  { split; [eexists; reflexivity |].
    etransitivity; [exact Hbody |].
    apply same_disk_same_disk_but; reflexivity. }
  rewrite bind_unfold.
  pose proof (fileissue_body_keep E call f fromdl w1) as (Hr & Hf & Hd).
  destruct (_fileissue_body E call f false fromdl false w1) as [[[]|e'] w2];
    simpl in Hr, Hf, Hd; [| discriminate].
  split; [eexists; reflexivity |].
  etransitivity; [exact Hbody |].
  apply same_disk_same_disk_but; assumption.
Qed.

(** X4. With [erasebad] and [redownload] unset, [_test_file_] never
    raises, whatever the file or its absence: every failure of the read
    becomes the verdict.  It changes no directory and no file, except
    for the sidecar [path + ".md5"] that [write_hash] may write. *)
Theorem test_file_never_raises_when_keeping (E : env) (f : string)
    (fromdl write_hash : bool) (w : world) :
  (∃ b, (_test_file_ E f false fromdl false write_hash w).1 = Ok b)
  ∧ same_disk_but (f ++ ".md5") w
      (_test_file_ E f false fromdl false write_hash w).2.
Proof.
  unfold _test_file_, _test_file_body.
  destruct (py_in ".fits" f); [| destruct (py_in ".txt" f)].
  - apply verify_unless_hashed_keep.
    unfold fits_getdata.
    apply within_bind; try apply _; [apply within_tell_but | intros _].
    apply within_bind; try apply _; [apply within_read_file_but | intros data].
    case_match; [apply within_ret | apply within_raise]; apply _.
  - apply verify_unless_hashed_keep.
    unfold text_readlines, read_text.
    apply within_bind; try apply _; [apply within_tell_but | intros _].
    apply within_bind; try apply _; [| intros _; apply within_ret; apply _].
    apply within_bind; try apply _; [apply within_read_file_but | intros data].
    case_match; [apply within_ret | apply within_raise]; apply _.
  - split; [eexists; reflexivity |].
    apply same_disk_same_disk_but; reflexivity.
Qed.

(** With [erasebad] set the read errors are still caught, but the
    removal can raise: a directory whose name contains [".fits"]. *)
Example test_file_raises_on_directory :
  (_test_file_ demo_env "/data/sci.fits" true false false false
     (set_dirs (λ ds, {["/data/sci.fits"]} ∪ ds) demo_world)).1
  = Raise (IsADirectoryError "/data/sci.fits").
Proof. vm_compute. reflexivity. Qed.

(** X5. [_are_fitsfiles_bad_] answers file by file, in order: for a file
    that is there, whether its content fails to parse; for one that is
    not, [test_exist].  It never raises and changes no file. *)
Theorem are_fitsfiles_bad_spec (E : env) (filenames : list string)
    (test_exist : bool) (w : world) :
  (_are_fitsfiles_bad_ E filenames test_exist w).1
  = Ok (List.map (λ f, match files w !! f with
                       | Some c => negb (fits_parses E c)
                       | None => test_exist
                       end) filenames)
  ∧ files (_are_fitsfiles_bad_ E filenames test_exist w).2 = files w.
Proof.
  unfold _are_fitsfiles_bad_. revert w.
  induction filenames as [|f fs IH]; intros w; [split; reflexivity |].
  cbn [map_M List.map].
  pose proof (is_fitsfile_bad_spec E f test_exist w) as [H1 H2].
  rewrite bind_unfold.
  destruct (_is_fitsfile_bad_ E f test_exist w) as [[b|e] w1];
    simpl in H1, H2; [| discriminate].
  inversion H1; subst b. clear H1.
  rewrite bind_unfold.
  specialize (IH w1) as [IH1 IH2].
  destruct (map_M (λ f_, _is_fitsfile_bad_ E f_ test_exist) fs w1)
    as [[bs|e] w2]; simpl in IH1, IH2; [| discriminate].
  inversion IH1; subst bs. simpl.
  rewrite H2. split; [reflexivity | congruence].
Qed.

(** X6. [_is_textfile_bad_] never raises: a file that is missing, a
    directory, or a content that does not decode all give True, and a
    file that decodes gives False; no file changes.  (Unlike
    [_test_file_], which counts a missing file as good.) *)
Theorem is_textfile_bad_spec (E : env) (f : string) (w : world) :
  (_is_textfile_bad_ E f w).1
  = Ok (match files w !! f with
        | Some c => negb (text_decodes E c)
        | None => true
        end)
  ∧ files (_is_textfile_bad_ E f w).2 = files w.
Proof.
  unfold _is_textfile_bad_, text_readlines, read_text, read_file, try_except.
  run_monad.
  destruct (files w !! f) as [c|] eqn:Hf; simpl.
  - destruct (text_decodes E c); simpl; split; reflexivity.
  - destruct (bool_decide (f ∈ dirs w)); split; reflexivity.
Qed.

(** ** The fetcher, past the cache test *)

Lemma after_pause_no_fetch (E : env) (a : dl_args) (w : world) :
  extends_by (λ e, ¬ is_fetch e) w (after_pause E a w).
Proof.
  unfold after_pause. destruct (dl_wait a) as [t|]; [| reflexivity].
  exists [EvSleep (pause_length E a w t)]. split.
  - destruct (dl_randomize_wait a); reflexivity.
  - repeat constructor. simpl. tauto.
Qed.

Lemma cookies_or_login_no_fetch (E : env) (ck : cookies_arg) (s : option nat) :
  within (extends_by (λ e, ¬ is_fetch e)) (cookies_or_login E ck s).
Proof.
  unfold cookies_or_login. destruct ck; try (apply within_ret; apply _).
  apply within_bind; try apply _;
    [apply within_get_cookie; intros; simpl; tauto
    | intros ?; apply within_ret; apply _].
Qed.

(** The call up to the request: a pause, the cache test that fails, the
    announcement, the cookies.  Nothing is written and nothing is
    transferred so far. *)
Lemma fetch_prefix (E : env) (a : dl_args) (w : world) :
  wait_spec_ok (dl_wait a) →
  (dl_cookies a = CookiesNone → ∃ c, credentials E "irsa" = Ok c) →
  ∃ w1 ck w2,
    match dl_fileout a with
    | Some (String c f) =>
        logger_debug ("downloading " ++ dl_url a ++ " to " ++ String c f)
    | _ => ret tt
    end (after_pause E a w) = (Ok tt, w1)
    ∧ cookies_or_login E (dl_cookies a) (dl_session a) w1 = (Ok ck, w2)
    ∧ same_disk w w2
    ∧ extends_by (λ e, ¬ is_fetch e) w w2.
Proof.
  intros Hwait Hcred.
  destruct (announce_download_disk a (after_pause E a w)) as (w1 & Hlog & Hd1).
  destruct (cookies_or_login_ok E (dl_cookies a) (dl_session a) w1 Hcred)
    as (ck & w2 & Hck & Hd2).
  exists w1, ck, w2. split; [exact Hlog |]. split; [exact Hck |]. split.
  - transitivity (after_pause E a w); [apply after_pause_same_disk |].
    transitivity w1; assumption.
  - transitivity (after_pause E a w); [apply after_pause_no_fetch |].
    transitivity w1.
    + destruct (dl_fileout a) as [[|c f]|]; simpl in Hlog;
        inversion Hlog; subst; try reflexivity.
      eexists [_]. split; [reflexivity |]. repeat constructor. simpl. tauto.
    + pose proof (cookies_or_login_no_fetch E (dl_cookies a) (dl_session a) w1) as H.
      rewrite Hck in H. exact H.
Qed.

(** Rewrites the call up to the request, from the facts of
    [fetch_prefix]. *)
Ltac run_fetch_prefix E a w Hwait Hmiss Hlog Hcut Hck :=
  unfold download_single_url, download_single_url_body;
  rewrite (bind_ok _ _ w _ tt (rate_limit_pause_ok E a w Hwait));
  rewrite (bind_ok _ _ _ (after_pause E a w) false)
    by (unfold gets;
        rewrite (already_there_same_files a w _ (after_pause_files E a w));
        rewrite Hmiss; reflexivity);
  cbv beta iota;
  rewrite (bind_ok _ _ _ _ tt Hlog);
  rewrite Hcut; rewrite ret_bind;
  rewrite (bind_ok _ _ _ _ _ Hck).

(** X8. Without [fileout] nothing is stored: the call returns the
    response of the one request it sends to the address, and the disk is
    as before. *)
Theorem download_single_url_returns_response (E : env) (a : dl_args) (w : world) :
  dl_fileout a = None →
  wait_spec_ok (dl_wait a) →
  dl_cutouts a = false →
  (dl_cookies a = CookiesNone → ∃ c, credentials E "irsa" = Ok c) →
  (∃ presented,
     (download_single_url E a w).1
     = Ok (ReturnsResponse
             (http E (match dl_data a with Some _ => "post" | None => "get" end)
                (dl_url a) presented (dl_data a))))
  ∧ same_disk w (download_single_url E a w).2.
Proof.
  intros Hnone Hwait Hcut Hcred.
  destruct (fetch_prefix E a w Hwait Hcred) as (w1 & ck & w2 & Hlog & Hck & Hd & _).
  assert (Hmiss : already_there a w = false).
  { unfold already_there. rewrite Hnone. reflexivity. }
  set (sent := match ck with CookieJar jar => Some jar | _ => None end).
  set (method := match dl_data a with Some _ => "post" | None => "get" end).
  destruct (send_request_ok E (dl_session a) method (dl_url a) sent
              (dl_data a) w2) as (w3 & Hsend & Hd3).
  assert (Hout : download_single_url E a w
                 = (Ok (ReturnsResponse
                          (http E method (dl_url a)
                             (default [] sent ++ session_cookies (dl_session a) w2)%list
                             (dl_data a))), w3)).
  { run_fetch_prefix E a w Hwait Hmiss Hlog Hcut Hck.
    rewrite Hnone. cbv beta iota zeta. fold sent method.
    rewrite (bind_ok _ _ _ _ _ Hsend). reflexivity. }
  rewrite Hout. simpl. split; [eexists; reflexivity |].
  transitivity w2; assumption.
Qed.

Lemma download_single_url_returns_response_witness :
  dl_fileout (default_args "https://irsa/new") = None
  ∧ same_disk demo_world
      (download_single_url demo_env (default_args "https://irsa/new") demo_world).2.
Proof.
  split; [reflexivity |].
  apply (download_single_url_returns_response demo_env
           (default_args "https://irsa/new") demo_world);
    first [ reflexivity
          | vm_compute; congruence
          | intros _; exists ("user", "secret"); reflexivity ].
Defined.

(** X9. A destination without directory part (a bare file name) cannot
    be fetched: unless the call is skipped, [os.makedirs] is asked to
    create the empty path and raises FileNotFoundError, before any
    transfer and without writing a file. *)
Theorem download_single_url_bare_name (E : env) (a : dl_args) (f : string)
    (w : world) :
  dl_fileout a = Some f → dirname f = "" →
  os_path_exists w "" = false →
  already_there a w = false →
  wait_spec_ok (dl_wait a) →
  dl_cutouts a = false →
  (dl_cookies a = CookiesNone → ∃ c, credentials E "irsa" = Ok c) →
  (download_single_url E a w).1 = Raise (FileNotFoundError "")
  ∧ extends_by (λ e, ¬ is_fetch e) w (download_single_url E a w).2
  ∧ files (download_single_url E a w).2 = files w.
Proof.
  intros Hf Hdir Hex Hmiss Hwait Hcut Hcred.
  destruct (fetch_prefix E a w Hwait Hcred)
    as (w1 & ck & w2 & Hlog & Hck & Hd & Hquiet).
  assert (Hout : download_single_url E a w
                 = (Raise (FileNotFoundError ""), set_umask 2 w2)).
  { run_fetch_prefix E a w Hwait Hmiss Hlog Hcut Hck.
    rewrite Hf. cbv beta iota zeta. rewrite Hdir.
    rewrite (bind_ok _ _ w2 (set_umask 2 w2) (umask w2)); [| reflexivity].
    rewrite (bind_ok _ _ _ (set_umask 2 w2) false).
    2:{ unfold gets.
        rewrite (same_disk_exists w (set_umask 2 w2) "");
          [rewrite Hex; reflexivity |].
        destruct Hd as [H1 H2]. split; assumption. }
    cbv beta iota. reflexivity. }
  rewrite Hout. simpl. split; [reflexivity |]. split.
  - destruct Hquiet as (new & Hnew & Hall). exists new. split; assumption.
  - apply Hd.
Qed.

Lemma download_single_url_bare_name_witness :
  dirname "new.fits" = ""
  ∧ (download_single_url demo_env (fetch_to "https://irsa/new" "new.fits")
       empty_world).1 = Raise (FileNotFoundError "").
Proof.
  split; [reflexivity |].
  apply (download_single_url_bare_name demo_env
           (fetch_to "https://irsa/new" "new.fits") "new.fits" empty_world);
    first [ reflexivity
          | vm_compute; reflexivity
          | vm_compute; congruence
          | intros _; exists ("user", "secret"); reflexivity ].
Defined.

(** The check on a path where nothing is: the FileNotFoundError of the
    read is caught, and the file counts as good. *)
Lemma test_file_body_absent (E : env)
    (call : string → string → cookies_arg → M unit) (f : string)
    (erasebad fromdl redownload_ write_hash : bool) (w : world) :
  files w !! f = None → f ∉ dirs w → below_file w f = false →
  (_test_file_body E call f erasebad fromdl redownload_ write_hash w).1 = Ok true
  ∧ files (_test_file_body E call f erasebad fromdl redownload_ write_hash w).2
    = files w.
Proof.
  intros Hf Hd Hb.
  unfold _test_file_body, verify_unless_hashed,
    hash_for_file_exists, fits_getdata, text_readlines, read_text, read_file.
  destruct (py_in ".fits" f); [| destruct (py_in ".txt" f)];
    run_monad; try (split; reflexivity);
    destruct (os_path_exists w (f ++ ".md5")); simpl; try (split; reflexivity);
    unfold try_except; simpl; rewrite Hf; simpl;
    rewrite (bool_decide_eq_false_2 _ Hd); simpl;
    rewrite no_such_file_emit; unfold no_such_file; rewrite Hb; simpl;
    split; reflexivity.
Qed.

(** X7. A status other than 200 is swallowed: the call to fetch a file
    that was absent returns None as a successful one does, raises
    nothing, and leaves every file of the disk as it was; the destination
    is not created. *)
Theorem download_single_url_http_error (E : env) (a : dl_args) (f : string)
    (r : response) (w : world) :
  dl_fileout a = Some f →
  files w !! f = None → f ∉ dirs w →
  dirname f ∈ dirs w →
  wait_spec_ok (dl_wait a) →
  dl_cutouts a = false →
  (dl_cookies a = CookiesNone → ∃ c, credentials E "irsa" = Ok c) →
  (∀ m ck, http E m (dl_url a) ck (dl_data a) = r) →
  status_code r ≠ 200%Z →
  (download_single_url E a w).1 = Ok ReturnsNone
  ∧ files (download_single_url E a w).2 = files w.
Proof.
  intros Hf Habs Hnd Hdir Hwait Hcut Hcred Hhttp Hstatus.
  destruct (fetch_prefix E a w Hwait Hcred)
    as (w1 & ck & w2 & Hlog & Hck & Hd & _).
  assert (Hmiss : already_there a w = false).
  { unfold already_there, os_path_isfile. rewrite Hf, Habs.
    rewrite bool_decide_eq_false_2 by (intros [? ?]; discriminate).
    apply andb_false_r. }
  set (sent := match ck with CookieJar jar => Some jar | _ => None end).
  set (method := match dl_data a with Some _ => "post" | None => "get" end).
  destruct (send_request_ok E (dl_session a) method (dl_url a) sent
              (dl_data a) (set_umask 2 w2)) as (w3 & Hsend & Hd3).
  rewrite Hhttp in Hsend.
  assert (Hdisk : same_disk w w3).
  { transitivity w2; [exact Hd |].
    transitivity (set_umask 2 w2); [split; reflexivity | exact Hd3]. }
  destruct Hdisk as [Hfiles3 Hdirs3].
  pose proof (test_file_body_absent E (λ _ _ _, ret tt) f (dl_erasebad a) true
                false (dl_write_hash a) w3
                ltac:(rewrite Hfiles3; exact Habs)
                ltac:(rewrite Hdirs3; exact Hnd)
                ltac:(apply below_file_in_dir; right; rewrite Hdirs3; exact Hdir))
    as [Hpost1 Hpost2].
  fold (post_fetch_check E f (dl_erasebad a) (dl_write_hash a)) in Hpost1, Hpost2.
  assert (Hout : (download_single_url E a w).1 = Ok ReturnsNone
                 ∧ files (download_single_url E a w).2 = files w3).
  { run_fetch_prefix E a w Hwait Hmiss Hlog Hcut Hck.
    rewrite Hf. cbv beta iota zeta.
    rewrite (bind_ok _ _ w2 (set_umask 2 w2) (umask w2)); [| reflexivity].
    rewrite (bind_ok _ _ _ (set_umask 2 w2) true).
    2:{ unfold gets, os_path_exists. simpl.
        destruct Hd as [_ Hdirs2].
        rewrite (bool_decide_eq_true_2 (dirname f ∈ dirs w2));
          [rewrite orb_true_r; reflexivity |].
        rewrite Hdirs2. exact Hdir. }
    cbv beta iota. rewrite ret_bind.
    fold sent method.
    rewrite (bind_ok _ _ _ w3 r Hsend).
    rewrite (bind_ok _ _ w3 w3 tt).
    2:{ destruct (dl_show_progress a); simpl;
          destruct (decide (status_code r = 200%Z)) as [Hyes|_];
          try (exfalso; apply Hstatus; exact Hyes); reflexivity. }
    destruct (dl_filecheck a).
    - rewrite bind_unfold. rewrite bind_unfold.
      destruct (post_fetch_check E f (dl_erasebad a) (dl_write_hash a) w3)
        as [[b|e] w4]; simpl in Hpost1, Hpost2; [| discriminate].
      simpl. split; [reflexivity | exact Hpost2].
    - split; reflexivity. }
  destruct Hout as [H1 H2]. split; [exact H1 | congruence].
Qed.


Lemma download_single_url_http_error_witness :
  status_code not_found ≠ 200%Z
  ∧ files (download_single_url (demo_env_answering not_found)
             (fetch_to "https://irsa/new" "/data/sci/new.fits") empty_world).2
    = files empty_world.
Proof.
  split; [vm_compute; congruence |].
  apply (download_single_url_http_error (demo_env_answering not_found)
           (fetch_to "https://irsa/new" "/data/sci/new.fits")
           "/data/sci/new.fits" not_found empty_world);
    first [ reflexivity
          | vm_compute; reflexivity
          | vm_compute; congruence
          | vm_compute; set_solver
          | intros _; exists ("user", "secret"); reflexivity ].
Defined.


(** ** Batches *)

(** One call of a batch whose destination is in the cache. *)
Lemma download_single_url_skip_step (E : env) (a : dl_args) (f : string)
    (w : world) :
  dl_fileout a = Some f → dl_overwrite a = false →
  os_path_isfile w f = true → wait_spec_ok (dl_wait a) →
  ∃ w', download_single_url E a w = (Ok ReturnsNone, w')
        ∧ files w' = files w
        ∧ extends_by (λ e, ¬ is_network e) w w'.
Proof.
  intros Hf Ho Hi Hok. eexists. split; [| split].
  - apply (download_single_url_skips E a f w (after_pause E a w) Hf).
    + apply (already_there_hit a f w); try assumption. apply after_pause_files.
    + apply rate_limit_pause_ok, Hok.
  - simpl. apply after_pause_files.
  - transitivity (after_pause E a w); [apply after_pause_offline |].
    eexists [_]. split; [reflexivity |]. repeat constructor. simpl. tauto.
Qed.

Lemma for_each_cached (E : env) (pairs : list (string * string))
    (body : string * string → M unit) (w : world) :
  (∀ uf w1, uf ∈ pairs → files w1 = files w →
     ∃ w2, body uf w1 = (Ok tt, w2) ∧ files w2 = files w1
           ∧ extends_by (λ e, ¬ is_network e) w1 w2) →
  ∃ w', for_each pairs body w = (Ok tt, w')
        ∧ files w' = files w
        ∧ extends_by (λ e, ¬ is_network e) w w'.
Proof.
  revert w. induction pairs as [|uf rest IH]; intros w Hbody.
  - exists w. repeat split. reflexivity.
  - destruct (Hbody uf w ltac:(left) eq_refl) as (w1 & Hrun & Hf1 & Hq1).
    destruct (IH w1) as (w2 & Hrest & Hf2 & Hq2).
    { intros uf' w1' Hin Hfiles. apply Hbody; [right; exact Hin | congruence]. }
    exists w2. split; [| split].
    + cbn [for_each]. rewrite (bind_ok _ _ w w1 tt Hrun). exact Hrest.
    + congruence.
    + transitivity w1; assumption.
Qed.

(** X11. A sequential batch whose destinations are all in the cache,
    without [overwrite]: [download_url] completes, sends nothing to the
    network (no login, no transfer) and changes no file, whatever the
    addresses and even in cutout mode. *)
Theorem download_url_cached_batch (E : env)
    (to_download_urls download_location : list string) (session : option nat)
    (cutouts show_progress : bool) (wait : option Q) (nprocess : option Z)
    (cookies : cookies_arg) (radec : option (list pyval)) (cutout_size : pyval)
    (write_hash : bool) (w : world) :
  nprocess = None ∨ nprocess = Some 1%Z →
  Forall (λ f, os_path_isfile w f = true) download_location →
  wait_spec_ok wait →
  (download_url E to_download_urls download_location session cutouts
     show_progress wait false nprocess cookies None radec cutout_size
     write_hash w).1
  = Ok None
  ∧ files (download_url E to_download_urls download_location session cutouts
             show_progress wait false nprocess cookies None radec cutout_size
             write_hash w).2 = files w
  ∧ extends_by (λ e, ¬ is_network e) w
      (download_url E to_download_urls download_location session cutouts
         show_progress wait false nprocess cookies None radec cutout_size
         write_hash w).2.
Proof.
  intros Hnp Hall Hwait.
  set (w0 := emit (EvLog "debug" "No parallel downloading") w).
  destruct (for_each_cached E (zip to_download_urls download_location)
              (λ uf,
                 _ ← download_single_url E
                       {| dl_url := fst uf; dl_session := session;
                          dl_cutouts := cutouts; dl_radec := radec;
                          dl_cutout_size := cutout_size;
                          dl_fileout := Some (snd uf); dl_overwrite := false;
                          dl_cookies := cookies; dl_show_progress := show_progress;
                          dl_chunk := 1024%positive; dl_wait := wait;
                          dl_randomize_wait := true; dl_filecheck := true;
                          dl_erasebad := true; dl_write_hash := write_hash;
                          dl_data := None |};
                 ret tt) w0) as (w' & Hrun & Hfiles & Hquiet).
  { intros [u f] w1 Hin Hf1.
    assert (Hisf : os_path_isfile w1 f = true).
    { apply elem_of_zip_r in Hin. rewrite Forall_forall in Hall.
      specialize (Hall f Hin). unfold os_path_isfile in *.
      rewrite Hf1. exact Hall. }
    destruct (download_single_url_skip_step E
                {| dl_url := u; dl_session := session;
                   dl_cutouts := cutouts; dl_radec := radec;
                   dl_cutout_size := cutout_size;
                   dl_fileout := Some f; dl_overwrite := false;
                   dl_cookies := cookies; dl_show_progress := show_progress;
                   dl_chunk := 1024%positive; dl_wait := wait;
                   dl_randomize_wait := true; dl_filecheck := true;
                   dl_erasebad := true; dl_write_hash := write_hash;
                   dl_data := None |} f w1 eq_refl eq_refl Hisf Hwait)
      as (w2 & Hstep & Hf2 & Hq2).
    exists w2. split; [| split; assumption].
    simpl. rewrite (bind_ok _ _ _ _ _ Hstep). reflexivity. }
  assert (Hout : download_url E to_download_urls download_location session
                   cutouts show_progress wait false nprocess cookies None radec
                   cutout_size write_hash w = (Ok None, w')).
  { unfold download_url. rewrite (bind_ok _ _ w w' tt); [reflexivity |].
    unfold download_here. destruct Hnp as [-> | ->]; exact Hrun. }
  rewrite Hout. simpl. split; [reflexivity |]. split; [exact Hfiles |].
  transitivity w0; [| exact Hquiet].
  eexists [_]. split; [reflexivity |]. repeat constructor. simpl. tauto.
Qed.

Lemma download_url_cached_batch_witness :
  Forall (λ f, os_path_isfile demo_world f = true)
    ["/data/sci/good.fits"; "/data/sci/bad.fits"]
  ∧ (download_url demo_env ["https://irsa/a"; "https://irsa/b"]
       ["/data/sci/good.fits"; "/data/sci/bad.fits"] None false true None
       false None CookiesNone None None PyNone false demo_world).1 = Ok None.
Proof.
  assert (H : Forall (λ f, os_path_isfile demo_world f = true)
                ["/data/sci/good.fits"; "/data/sci/bad.fits"]).
  { repeat constructor. }
  split; [exact H |].
  apply (download_url_cached_batch demo_env ["https://irsa/a"; "https://irsa/b"]
           ["/data/sci/good.fits"; "/data/sci/bad.fits"] None false true None
           None CookiesNone None PyNone false demo_world);
    [left; reflexivity | exact H | exact I].
Defined.

(** The files that fail a test form a sublist of the files tested. *)
Lemma failing_sublist (test : string → M bool) (xs bad : list string)
    (w w' : world) :
  failing test xs w = (Ok bad, w') → bad `sublist_of` xs.
Proof.
  revert bad w w'. induction xs as [|x xs IH]; intros bad w w' H.
  - inversion H. constructor.
  - cbn [failing] in H. rewrite bind_unfold in H.
    destruct (test x w) as [[good|e] w1]; [| discriminate].
    rewrite bind_unfold in H.
    destruct (failing test xs w1) as [[rest|e] w2] eqn:Hrest; [| discriminate].
    inversion H; subst. specialize (IH rest w1 w' Hrest).
    destruct good; [apply sublist_cons | apply sublist_skip]; exact IH.
Qed.

(** X12. What [test_files] reports: when it returns a list, the list is
    not empty and is a sublist of the files given, in their order; no file
    is reported twice over or out of nowhere. *)
Theorem test_files_reports_sublist (E : env) (filename : list string)
    (erasebad : bool) (nprocess : option Z)
    (show_progress redownload_ write_hash : bool) (w : world)
    (bad : list string) :
  (test_files E filename erasebad nprocess show_progress redownload_ write_hash w).1
  = Ok (Some bad) →
  bad ≠ [] ∧ bad `sublist_of` filename.
Proof.
  intros H. unfold test_files in H.
  apply bind_fst_ok in H as (n & w1 & _ & H).
  apply bind_fst_ok in H as (l & w2 & Hl & H).
  case_bool_decide as Hlen; [| discriminate].
  apply bind_fst_ok in H as (? & w3 & _ & H).
  apply bind_fst_ok in H as (? & w4 & _ & H).
  simpl in H. inversion H; subst bad. split.
  - intros ->. simpl in Hlen. lia.
  - destruct (n =? 1)%Z; eapply failing_sublist; exact Hl.
Qed.

Lemma test_files_reports_sublist_witness :
  ["/data/sci/bad.fits"] `sublist_of` ["/data/sci/good.fits"; "/data/sci/bad.fits"].
Proof.
  apply (test_files_reports_sublist demo_env
           ["/data/sci/good.fits"; "/data/sci/bad.fits"] false None true false
           false demo_world ["/data/sci/bad.fits"]).
  vm_compute. reflexivity.
Defined.

(** ** Sessions *)

(** A session that holds cookies is left alone by [get_cookie] unless
    [update] is set. *)
Lemma get_cookie_keeps_session (E : env) (u p : option string) (s : nat)
    (jar : list string) (w : world) :
  jars w !! s = Some jar → jar ≠ [] →
  get_cookie E u p (Some s) false w = (Ok None, w).
Proof.
  intros Hjar Hne. unfold get_cookie.
  rewrite (bind_ok _ _ w w jar); [| unfold gets; simpl; rewrite Hjar; reflexivity].
  rewrite bool_decide_eq_true_2 by discriminate.
  rewrite bool_decide_eq_true_2 by (destruct jar; [congruence | simpl; lia]).
  reflexivity.
Qed.

(** X13. [open_irsa_session] returns a session that did not exist
    before, after sending the login request twice (once through the
    session, once through [requests]); the session then holds the cookies
    of the answer, and no file has changed.  When the answer set a
    cookie, a later [get_cookie] on that session without [update] does
    nothing at all, and a request sent through the session presents the
    cookies. *)
Theorem open_irsa_session_holds_cookies (E : env) (auth : option (string * string))
    (u p : string) (w : world) :
  match auth with
  | Some c => Ok c
  | None => credentials E "irsa"
  end = Ok (u, p) →
  let r := http E "get" (login_address u p) [] None in
  ∃ s w1,
    open_irsa_session E auth true w = (Ok s, w1)
    ∧ jars w !! s = None
    ∧ jars w1 !! s = Some (set_cookies r)
    ∧ trace w1 = EvLogin None (login_address u p)
                   :: EvLogin (Some s) (login_address u p) :: trace w
    ∧ same_disk w w1
    ∧ (set_cookies r ≠ [] →
       (∀ u' p', get_cookie E u' p' (Some s) false w1 = (Ok None, w1))
       ∧ (∀ m url d, (send_request E (Some s) m url None d w1).1
                     = Ok (http E m url (set_cookies r) d))).
Proof.
  intros Hcred r.
  set (s := fresh (dom (jars w))).
  assert (Hfresh : jars w !! s = None).
  { apply not_elem_of_dom. apply is_fresh. }
  set (w1 := World (files w) (dirs w) (<[s := set_cookies r]> (jars w))
               (umask w) (draws w)
               (EvLogin None (login_address u p)
                  :: EvLogin (Some s) (login_address u p) :: trace w)).
  assert (Hrun : open_irsa_session E auth true w = (Ok s, w1)).
  { unfold open_irsa_session.
    rewrite (bind_ok _ _ w (set_jars (<[s := []]>) w) s); [| reflexivity].
    rewrite (bind_ok _ _ _ w1 tt); [reflexivity |].
    rewrite (bind_ok _ _ _ w1 (Some (set_cookies (http E "get" (login_address u p) [] None))));
      [reflexivity |].
    unfold get_cookie.
    rewrite (bind_ok _ _ _ (set_jars (<[s := []]>) w) []).
    2:{ unfold gets. simpl. rewrite lookup_insert_eq. reflexivity. }
    rewrite andb_false_r.
    rewrite (bind_ok _ _ _ (set_jars (<[s := []]>) w) (u, p)).
    2:{ unfold _load_id_. destruct auth as [[u0 p0]|]; simpl in *.
        - inversion Hcred; subst. reflexivity.
        - rewrite Hcred. reflexivity. }
    cbv beta iota. fold (login_address u p).
    unfold login_request. run_monad.
    rewrite lookup_insert_eq. simpl.
    subst w1. unfold set_jars, emit. simpl.
    rewrite insert_insert_eq. reflexivity. }
  assert (Hjar : jars w1 !! s = Some (set_cookies r)).
  { subst w1. simpl. apply lookup_insert_eq. }
  exists s, w1. split; [exact Hrun |]. split; [exact Hfresh |].
  split; [exact Hjar |]. split; [reflexivity |].
  split; [split; reflexivity |].
  intros Hne. split.
  - intros u' p'. apply (get_cookie_keeps_session E u' p' s _ w1 Hjar Hne).
  - intros m url d. unfold send_request, session_cookies. clear Hrun.
    rewrite bind_unfold. unfold gets. cbv beta iota. rewrite Hjar.
    reflexivity.
Qed.

Lemma open_irsa_session_holds_cookies_witness :
  credentials demo_env "irsa" = Ok ("user", "secret")
  ∧ ∃ s w1, open_irsa_session demo_env None true demo_world = (Ok s, w1)
            ∧ jars demo_world !! s = None.
Proof.
  split; [reflexivity |].
  destruct (open_irsa_session_holds_cookies demo_env None "user" "secret"
              demo_world eq_refl) as (s & w1 & Hrun & Hfresh & _).
  exists s, w1. split; assumption.
Defined.

(** Without [incl_cookies] the session is opened and nothing is sent. *)
Example open_irsa_session_offline :
  trace (open_irsa_session demo_env None false demo_world).2 = trace demo_world.
Proof. reflexivity. Qed.

(** ** Downloads by name *)

(** The naming loop touches nothing, and names file by file. *)
Lemma name_pairs_spec (B : buildurl) (filename : list string)
    (suffix : option string) (host : string) (check_suffix : bool) (w : world) :
  (name_pairs B filename suffix host check_suffix w).2 = w
  ∧ ∀ remote local,
      (name_pairs B filename suffix host check_suffix w).1 = Ok (remote, local) →
      Forall2 (λ name x, filename_to_url B name suffix host check_suffix = Ok x)
        filename remote
      ∧ Forall2 (λ name x, filename_to_url B name suffix "local" check_suffix = Ok x)
          filename local.
Proof.
  induction filename as [|name rest [IHw IHr]].
  - split; [reflexivity |]. intros remote local H. inversion H.
    split; constructor.
  - cbn [name_pairs]. rewrite !bind_unfold.
    destruct (filename_to_url B name suffix host check_suffix) as [x|e] eqn:Hx;
      simpl; [| split; [reflexivity | discriminate]].
    rewrite !bind_unfold.
    destruct (filename_to_url B name suffix "local" check_suffix) as [y|e] eqn:Hy;
      simpl; [| split; [reflexivity | discriminate]].
    rewrite !bind_unfold.
    destruct (name_pairs B rest suffix host check_suffix w) as [[[rs ls]|e] w1];
      simpl in *; subst w1; [| split; [reflexivity | discriminate]].
    split; [reflexivity |]. intros remote local H. inversion H; subst.
    destruct (IHr rs ls eq_refl) as [Hr Hl].
    split; constructor; assumption.
Qed.

(** X14. With [nodl], [download_from_filename] only names: it leaves
    the world exactly as it was (no login, no transfer, no file), and
    when it returns, the host is one of the two it knows and the two
    lists are the remote and the local address of each name, in order. *)
Theorem download_from_filename_nodl (E : env) (B : buildurl)
    (filename : list string) (session : option nat) (suffix : option string)
    (overwrite : bool) (auth : option (string * string)) (host : string)
    (maxnprocess : Z) (show_progress check_suffix : bool)
    (client : option dask_client) (wait : option Q)
    (write_hash : bool) (w : world) :
  (download_from_filename E B filename session suffix overwrite auth true host
     maxnprocess show_progress check_suffix client wait write_hash w).2 = w
  ∧ ∀ out,
      (download_from_filename E B filename session suffix overwrite auth true
         host maxnprocess show_progress check_suffix client wait write_hash w).1
      = Ok out →
      ∃ remote local,
        out = Names remote local
        ∧ host ∈ ["irsa"; "ccin2p3"]
        ∧ Forall2 (λ name x, filename_to_url B name suffix host check_suffix = Ok x)
            filename remote
        ∧ Forall2 (λ name x, filename_to_url B name suffix "local" check_suffix = Ok x)
            filename local.
Proof.
  unfold download_from_filename.
  case_bool_decide as Hhost; simpl.
  2:{ split; [reflexivity | discriminate]. }
  pose proof (name_pairs_spec B filename suffix host check_suffix w) as [Hw Hnames].
  rewrite bind_unfold.
  destruct (name_pairs B filename suffix host check_suffix w) as [[[rs ls]|e] w1];
    simpl in *; subst w1; [| split; [reflexivity | discriminate]].
  split; [reflexivity |]. intros out H. inversion H; subst.
  destruct (Hnames rs ls eq_refl) as [Hr Hl].
  exists rs, ls. repeat split; assumption.
Qed.

(** The guard on the number of processes, which only a call without a
    dask client reaches. *)
Lemma download_url_nprocess_guard (E : env) (urls locs : list string)
    (session : option nat) (cutouts show_progress : bool) (wait : option Q)
    (overwrite : bool) (n : Z) (cookies : cookies_arg)
    (radec : option (list pyval)) (cutout_size : pyval) (write_hash : bool)
    (w : world) :
  (n < 1)%Z →
  download_url E urls locs session cutouts show_progress wait overwrite (Some n)
    cookies None radec cutout_size write_hash w
  = (Raise (ValueError "nprocess must 1 or higher (None means 1)"), w).
Proof.
  intros Hn. unfold download_url, download_here. rewrite !bind_unfold.
  apply Z.ltb_lt in Hn. rewrite Hn. reflexivity.
Qed.

(** With a login given or in store, the cookies are obtained. *)
Lemma get_cookie_succeeds (E : env) (auth : option (string * string))
    (s : option nat) (w : world) :
  (auth = None → ∃ c, credentials E "irsa" = Ok c) →
  ∃ ck w1, get_cookie E (fst <$> auth) (snd <$> auth) s false w = (Ok ck, w1).
Proof.
  intros Hc. unfold get_cookie, _load_id_, login_request.
  destruct auth as [[u p]|]; simpl.
  - run_monad. case_match; [eexists _, _; reflexivity |].
    destruct s; simpl; eexists _, _; reflexivity.
  - destruct (Hc eq_refl) as [[u p] Hcred]. rewrite Hcred.
    run_monad. case_match; [eexists _, _; reflexivity |].
    destruct s; simpl; eexists _, _; reflexivity.
Qed.

(** X15. Without a dask client, and with a login given or in store,
    [download_from_filename] never succeeds on an empty list of names,
    nor with [maxnprocess] below one: the number of processes it asks
    for is the smaller of [maxnprocess] and the number of names, and
    [download_url] refuses a number below one, after the cookies were
    fetched.  No transfer is made and no file changes. *)
Theorem download_from_filename_needs_a_process (E : env) (B : buildurl)
    (filename : list string) (session : option nat) (suffix : option string)
    (overwrite : bool) (auth : option (string * string)) (host : string)
    (maxnprocess : Z) (show_progress check_suffix : bool) (wait : option Q)
    (write_hash : bool) (w : world) :
  filename = [] ∨ (maxnprocess < 1)%Z →
  (auth = None → ∃ c, credentials E "irsa" = Ok c) →
  (∀ out,
     (download_from_filename E B filename session suffix overwrite auth false
        host maxnprocess show_progress check_suffix None wait write_hash w).1
     ≠ Ok out)
  ∧ (host ∈ ["irsa"; "ccin2p3"] →
     ∀ names,
       (name_pairs B filename suffix host check_suffix w).1 = Ok names →
       (download_from_filename E B filename session suffix overwrite auth false
          host maxnprocess show_progress check_suffix None wait write_hash w).1
       = Raise (ValueError "nprocess must 1 or higher (None means 1)")
       ∧ (download_from_filename E B filename session suffix overwrite auth
            false host maxnprocess show_progress check_suffix None wait
            write_hash w).2
         = (get_cookie E (fst <$> auth) (snd <$> auth) session false w).2)
  ∧ same_disk w
      (download_from_filename E B filename session suffix overwrite auth false
         host maxnprocess show_progress check_suffix None wait write_hash w).2
  ∧ extends_by (λ e, ¬ is_fetch e) w
      (download_from_filename E B filename session suffix overwrite auth false
         host maxnprocess show_progress check_suffix None wait write_hash w).2.
Proof.
  intros Hsmall Hlogin.
  unfold download_from_filename.
  case_bool_decide as Hhost; simpl.
  2:{ split; [discriminate |]. split; [intros; contradiction |].
      split; reflexivity. }
  pose proof (name_pairs_spec B filename suffix host check_suffix w) as [Hw Hnames].
  rewrite bind_unfold.
  destruct (name_pairs B filename suffix host check_suffix w) as [[[rs ls]|e] w0];
    simpl in *; subst w0.
  2:{ split; [discriminate |]. split; [intros; discriminate |].
      split; reflexivity. }
  destruct (Hnames rs ls eq_refl) as [_ Hl].
  assert (Hn : (Z.min maxnprocess (Z.of_nat (length ls)) < 1)%Z).
  { destruct Hsmall as [-> | Hm]; [| lia].
    inversion Hl; subst. simpl. lia. }
  pose proof (get_cookie_same_disk E (fst <$> auth) (snd <$> auth) session false w)
    as Hdisk.
  assert (Hquiet : extends_by (λ e, ¬ is_fetch e) w
                     (get_cookie E (fst <$> auth) (snd <$> auth) session false w).2).
  { apply within_get_cookie; intros; simpl; tauto. }
  destruct (get_cookie_succeeds E auth session w Hlogin) as (ck & w1 & Hck).
  rewrite Hck in Hdisk, Hquiet. simpl in Hdisk, Hquiet.
  rewrite (bind_ok _ _ w w1 ck Hck). cbv beta.
  rewrite bind_unfold.
  pose proof (download_url_nprocess_guard E rs ls session false show_progress
                wait overwrite _ (cookies_of_option ck) None PyNone write_hash
                w1 Hn) as Hguard.
  unfold download_url in Hguard. rewrite Hguard.
  simpl. split; [discriminate |]. split; [| split; assumption].
  intros _ names _. split; [reflexivity |]. rewrite Hck. reflexivity.
Qed.

(** The empty list of names on the demo archive. *)
Lemma download_from_filename_needs_a_process_witness :
  (download_from_filename demo_env demo_buildurl [] None None false None false
     "irsa" 4 true true None None false demo_world).1
  = Raise (ValueError "nprocess must 1 or higher (None means 1)").
Proof.
  destruct (download_from_filename_needs_a_process demo_env demo_buildurl []
              None None false None "irsa" 4 true true None false demo_world
              (or_introl eq_refl)
              ltac:(intros _; exists ("user", "secret"); reflexivity))
    as (_ & H & _).
  apply (H ltac:(left) ([], []) eq_refl).
Defined.

(** With a dask client the guard is not reached: the same call returns
    the futures, none for no name, and one delayed call per name
    otherwise, which has not run when the call returns. *)
Example download_from_filename_with_client :
  (download_from_filename demo_env demo_buildurl [] None None false None false
     "irsa" 4 true true (Some DaskClient) None false demo_world).1
  = Ok (Downloads (Some []))
  ∧ files (download_from_filename demo_env demo_buildurl ["new.fits"] None None
             false None false "irsa" 4 true true (Some DaskClient) None false
             demo_world).2 = files demo_world
  ∧ ∃ call,
      (download_from_filename demo_env demo_buildurl ["new.fits"] None None
         false None false "irsa" 4 true true (Some DaskClient) None false
         demo_world).1 = Ok (Downloads (Some [call]))
      ∧ dl_url call = "https://irsa/sci/new.fits"
      ∧ dl_fileout call = Some "/data/sci/new.fits"
      ∧ dl_show_progress call = false.
Proof.
  split; [reflexivity |]. split; [reflexivity |].
  eexists. split; [reflexivity |]. repeat split.
Qed.

(** A host outside the two known ones is refused before anything else. *)
Example download_from_filename_unknown_host :
  download_from_filename demo_env demo_buildurl ["ztf_x_sciimg.fits"] None None
    false None false "mirror" 4 true true None None false demo_world
  = (Raise (ValueError "Only 'irsa' and 'ccin2p3' host implemented: mirror given"),
     demo_world).
Proof. reflexivity. Qed.

(** ** get_file *)

Lemma bind_ok_inv {A B} (m : M A) (k : A → M B) (w w' : world) (b : B) :
  (m ≫= k) w = (Ok b, w') → ∃ a w1, m w = (Ok a, w1) ∧ k a w1 = (Ok b, w').
Proof.
  rewrite bind_unfold. destruct (m w) as [[a|e] w1]; [| discriminate].
  intros H. exists a, w1. split; [reflexivity | exact H].
Qed.

(** Naming reads the naming scheme only. *)
Lemma map_M_lift_pure {A B} (f : A → result B) (xs : list A) (w : world) :
  (map_M (λ x, lift_result (f x)) xs w).2 = w.
Proof.
  induction xs as [|x xs IH]; [reflexivity |].
  cbn [map_M]. rewrite bind_unfold.
  destruct (f x) as [y|e]; simpl; [| reflexivity].
  rewrite bind_unfold.
  destruct (map_M (λ x, lift_result (f x)) xs w) as [[ys|e] w1];
    simpl in *; exact IH.
Qed.

Lemma local_names_pure (B : buildurl) (filename : list string)
    (suffix : list (option string)) (check_suffix : bool) (w : world) :
  (local_names B filename suffix check_suffix w).2 = w.
Proof.
  induction filename as [|f rest IH]; [reflexivity |].
  cbn [local_names]. rewrite bind_unfold.
  pose proof (map_M_lift_pure
                (λ suffix_, filename_to_url B f suffix_ "local" check_suffix)
                suffix w) as Hhere.
  destruct (map_M _ suffix w) as [[here|e] w1]; simpl in *; subst w1;
    [| reflexivity].
  rewrite bind_unfold.
  destruct (local_names B rest suffix check_suffix w) as [[more|e] w1];
    simpl in *; exact IH.
Qed.

(** The decision, with its trace: it only parses. *)
Lemma within_is_fitsfile_bad (E : env) (P : event → Prop) (f : string) (t : bool) :
  (∀ p, P (EvFitsGetdata p)) →
  within (extends_by P) (_is_fitsfile_bad_ E f t).
Proof.
  intros HP. unfold _is_fitsfile_bad_.
  apply within_bind; try apply _; [apply within_gets; apply _ | intros there].
  case_match; [apply within_ret; apply _ |].
  apply within_try_except; try apply _; [| intros _; apply within_ret; apply _].
  apply within_bind; try apply _; [| intros _; apply within_ret; apply _].
  apply within_fits_getdata. exact HP.
Qed.

Lemma within_get_file_flag_todl (E : env) (P : event → Prop)
    (fs : list string) (overwrite test_file : bool) :
  (∀ p, P (EvFitsGetdata p)) →
  within (extends_by P) (get_file_flag_todl E fs overwrite test_file).
Proof.
  intros HP. unfold get_file_flag_todl.
  destruct overwrite; [apply within_ret; apply _ |].
  apply within_map_M; try apply _. intros f. unfold flag_without_overwrite.
  apply within_bind; try apply _; [apply within_gets; apply _ | intros there].
  repeat case_match; try (apply within_ret; apply _).
  apply within_is_fitsfile_bad. exact HP.
Qed.

Lemma get_file_flag_todl_run (E : env) (fs : list string)
    (overwrite test_file : bool) (w : world) :
  ∃ w', get_file_flag_todl E fs overwrite test_file w
        = (Ok (List.map (download_wanted E (files w) overwrite test_file) fs), w')
        ∧ files w' = files w
        ∧ extends_by (λ e, ¬ is_network e) w w'.
Proof.
  pose proof (within_get_file_flag_todl E (λ e, ¬ is_network e) fs overwrite
                test_file ltac:(intros; simpl; tauto) w) as Hquiet.
  assert (Hrun : (get_file_flag_todl E fs overwrite test_file w).1
                 = Ok (List.map (download_wanted E (files w) overwrite test_file) fs)
                 ∧ files (get_file_flag_todl E fs overwrite test_file w).2 = files w).
  { unfold get_file_flag_todl. destruct overwrite.
    - split; reflexivity.
    - apply map_M_flags. }
  destruct (get_file_flag_todl E fs overwrite test_file w) as [r w'].
  simpl in *. destruct Hrun as [-> Hf]. exists w'. repeat split; assumption.
Qed.

Lemma fill_paths_same_files (fill : string) (w w' : world) (l : list string) :
  files w' = files w → fill_paths fill w' l = fill_paths fill w l.
Proof.
  intros Hf. unfold fill_paths.
  assert (Hisf : ∀ p, os_path_isfile w' p = os_path_isfile w p).
  { intros p. unfold os_path_isfile. rewrite Hf. reflexivity. }
  repeat case_match; try reflexivity.
  - apply filter_ext_in. intros p _. apply Hisf.
  - apply map_ext. intros p. rewrite Hisf. reflexivity.
Qed.

Lemma paths_of_squeeze (squeeze : bool) (l : list string) :
  paths_of (squeeze_paths squeeze l) = l.
Proof. destruct l as [|p [|q l]]; try reflexivity. destruct squeeze; reflexivity. Qed.

Lemma nothing_flagged (wanted : string → bool) (names : list string) :
  Forall (λ f, wanted f = false) names →
  existsb id (List.map wanted names) = false.
Proof.
  induction 1 as [|f fs Hf _ IH]; [reflexivity |].
  simpl. rewrite Hf. exact IH.
Qed.

(** X16. Cached hit: when nothing is to be fetched, because
    [downloadit] is unset or because no local file is wanted by the
    decision, [get_file] sends nothing to the network and changes no
    file; it returns the local names, filled as [fill_notexist] says and
    squeezed. *)
Theorem get_file_without_download (E : env) (B : buildurl)
    (py_float : string → option Q) (filename : list string)
    (suffix : list (option string)) (session : option nat)
    (downloadit check_suffix : bool) (dlfrom : string) (overwrite : bool)
    (maxnprocess : Z) (test_file squeeze show_progress : bool)
    (client : option dask_client) (wait : wait_arg) (fill_notexist : string)
    (names : list string)
    (w : world) :
  (local_names B filename suffix check_suffix w).1 = Ok names →
  downloadit = false
  ∨ Forall (λ f, download_wanted E (files w) overwrite test_file f = false) names →
  (get_file E B py_float filename suffix session downloadit check_suffix dlfrom
     overwrite maxnprocess true test_file squeeze show_progress client wait
     fill_notexist w).1
  = Ok (squeeze_paths squeeze (fill_paths fill_notexist w names))
  ∧ files (get_file E B py_float filename suffix session downloadit
             check_suffix dlfrom overwrite maxnprocess true test_file squeeze
             show_progress client wait fill_notexist w).2 = files w
  ∧ extends_by (λ e, ¬ is_network e) w
      (get_file E B py_float filename suffix session downloadit check_suffix
         dlfrom overwrite maxnprocess true test_file squeeze show_progress client wait
         fill_notexist w).2.
Proof.
  intros Hnames Hnone.
  pose proof (local_names_pure B filename suffix check_suffix w) as Hpure.
  destruct (local_names B filename suffix check_suffix w) as [r0 w0] eqn:Hloc.
  simpl in Hnames, Hpure. subst r0 w0.
  destruct (get_file_flag_todl_run E names overwrite test_file w)
    as (w1 & Hflags & Hf1 & Hq1).
  assert (Hskip : existsb id (List.map (download_wanted E (files w) overwrite
                                          test_file) names) && downloadit = false).
  { destruct Hnone as [-> | Hall]; [apply andb_false_r |].
    apply andb_false_intro1. apply nothing_flagged. exact Hall. }
  assert (Hout : get_file E B py_float filename suffix session downloadit
                   check_suffix dlfrom overwrite maxnprocess true test_file
                   squeeze show_progress client wait fill_notexist w
                 = (Ok (squeeze_paths squeeze (fill_paths fill_notexist w1 names)),
                    w1)).
  { unfold get_file.
    rewrite (bind_ok _ _ w w names Hloc).
    change (negb true) with false. cbv beta iota.
    rewrite (bind_ok _ _ w w1 _ Hflags).
    rewrite Hskip. reflexivity. }
  rewrite Hout. simpl.
  rewrite (fill_paths_same_files fill_notexist w w1 names Hf1).
  repeat split; assumption.
Qed.

(** The sound image of the demo cache, asked by name. *)
Lemma get_file_without_download_witness :
  (local_names demo_buildurl ["good.fits"] [None] true demo_world).1
  = Ok ["/data/sci/good.fits"]
  ∧ (get_file demo_env demo_buildurl demo_float ["good.fits"] [None] None true
       true "irsa" false 4 true true true true None WaitNone "None" demo_world).1
    = Ok (OnePath "/data/sci/good.fits").
Proof.
  split; [reflexivity |].
  apply (get_file_without_download demo_env demo_buildurl demo_float
           ["good.fits"] [None] None true true "irsa" false 4 true true true
           None WaitNone "None" ["/data/sci/good.fits"] demo_world).
  - reflexivity.
  - right. repeat constructor.
Defined.

(** X17. With [fill_notexist="remove"], every path that [get_file]
    returns is a regular file on the disk as the call leaves it, whatever
    was downloaded or failed to be. *)
Theorem get_file_remove_returns_files (E : env) (B : buildurl)
    (py_float : string → option Q) (filename : list string)
    (suffix : list (option string)) (session : option nat)
    (downloadit check_suffix : bool) (dlfrom : string) (overwrite : bool)
    (maxnprocess : Z) (test_file squeeze show_progress : bool)
    (client : option dask_client) (wait : wait_arg) (res : paths) (w : world) :
  (get_file E B py_float filename suffix session downloadit check_suffix dlfrom
     overwrite maxnprocess true test_file squeeze show_progress client wait "remove" w).1
  = Ok res →
  Forall (λ p, os_path_isfile
                 (get_file E B py_float filename suffix session downloadit
                    check_suffix dlfrom overwrite maxnprocess true test_file
                    squeeze show_progress client wait "remove" w).2 p = true)
    (paths_of res).
Proof.
  destruct (get_file E B py_float filename suffix session downloadit
              check_suffix dlfrom overwrite maxnprocess true test_file squeeze
              show_progress client wait "remove" w) as [r w'] eqn:Hrun.
  simpl. intros ->. unfold get_file in Hrun.
  apply bind_ok_inv in Hrun as (names & w0 & _ & Hrun).
  change (negb true) with false in Hrun. cbv beta iota in Hrun.
  apply bind_ok_inv in Hrun as (flags & w1 & _ & Hrun).
  apply bind_ok_inv in Hrun as ([] & w2 & _ & Hrun).
  apply bind_ok_inv in Hrun as (kept & w3 & Hkept & Hrun).
  unfold gets in Hkept. inversion Hkept; subst. clear Hkept.
  inversion Hrun; subst. clear Hrun.
  rewrite paths_of_squeeze. unfold fill_paths. simpl.
  apply Forall_forall. intros p Hp.
  apply list_elem_of_In in Hp. apply filter_In in Hp. apply Hp.
Qed.

Lemma get_file_remove_returns_files_witness :
  Forall (λ p, os_path_isfile
                 (get_file demo_env demo_buildurl demo_float
                    ["good.fits"; "gone.fits"] [None] None false true "irsa"
                    false 4 true true true true None WaitNone "remove" demo_world).2
                 p = true)
    (paths_of (OnePath "/data/sci/good.fits")).
Proof.
  apply (get_file_remove_returns_files demo_env demo_buildurl demo_float
           ["good.fits"; "gone.fits"] [None] None false true "irsa" false 4
           true true true None WaitNone (OnePath "/data/sci/good.fits") demo_world).
  vm_compute. reflexivity.
Defined.

(** ** Remediation by re-download *)

(** A transfer that succeeds, onto a destination that may already be
    there (under [overwrite]): the body replaces what was there. *)
Lemma download_writes_body (E : env) (a : dl_args) (f : string)
    (r : response) (w : world) :
  dl_fileout a = Some f →
  already_there a w = false →
  f ∉ dirs w →
  os_path_exists w (f ++ ".md5") = false →
  dirname f ∈ dirs w → files w !! dirname f = None →
  wait_spec_ok (dl_wait a) →
  dl_cutouts a = false →
  (dl_cookies a = CookiesNone → ∃ c, credentials E "irsa" = Ok c) →
  dl_filecheck a = true →
  (∀ m ck, http E m (dl_url a) ck (dl_data a) = r) →
  status_code r = 200%Z →
  (dl_show_progress a = true → content_length r ≠ None) →
  py_in ".fits" f = true → fits_parses E (content r) = true →
  ∃ w', download_single_url E a w = (Ok ReturnsNone, w')
        ∧ files w'
          = (if dl_write_hash a
             then <[f ++ ".md5" := md5_hexdigest E (content r)]>
                    (<[f := content r]> (files w))
             else <[f := content r]> (files w))
        ∧ dirs w' = dirs w.
Proof.
  intros Hf Hmiss Hnd Hside Hdir Hdf Hwait Hcut Hcred Hcheck Hhttp Hstatus
    Hlen Hfits Hparse.
  destruct (fetch_prefix E a w Hwait Hcred)
    as (w1 & ck & w2 & Hlog & Hck & Hd & _).
  set (sent := match ck with CookieJar jar => Some jar | _ => None end).
  set (method := match dl_data a with Some _ => "post" | None => "get" end).
  destruct (send_request_ok E (dl_session a) method (dl_url a) sent
              (dl_data a) (set_umask 2 w2)) as (w3 & Hsend & Hd3).
  rewrite Hhttp in Hsend.
  assert (Hdisk : same_disk w w3).
  { transitivity w2; [exact Hd |].
    transitivity (set_umask 2 w2); [split; reflexivity | exact Hd3]. }
  destruct Hdisk as [Hfiles3 Hdirs3].
  pose proof (open_for_write_ok f w3
                ltac:(rewrite Hdirs3; exact Hnd)
                ltac:(rewrite Hfiles3; exact Hdf)
                ltac:(right; rewrite Hdirs3; exact Hdir)) as Hopen.
  set (w4 := set_files (<[f := ""]>) w3) in *.
  destruct (write_chunks (S (String.length (content r)))
              (Pos.to_nat (dl_chunk a)) f (content r) "" w4)
    as (w5 & Hwrite & Hfiles5 & Hdirs5).
  { apply Pos2Nat.is_pos. }
  { lia. }
  { apply lookup_insert_eq. }
  fold (chunks_of (Pos.to_nat (dl_chunk a)) (content r)) in Hwrite.
  assert (Hfiles5' : files w5 = <[f := content r]> (files w)).
  { rewrite Hfiles5. subst w4. simpl.
    rewrite insert_insert_eq, append_nil_l, Hfiles3. reflexivity. }
  assert (Hdirs5' : dirs w5 = dirs w).
  { rewrite Hdirs5. subst w4. simpl. exact Hdirs3. }
  assert (Hne : f ++ ".md5" ≠ f) by apply md5_name_differs.
  assert (Hfd : f ≠ dirname f) by (intros Heq; apply Hnd; rewrite Heq; exact Hdir).
  destruct (post_fetch_check_good E f (content r) (dl_erasebad a)
              (dl_write_hash a) w5) as (w6 & Hpost & Hfiles6 & Hdirs6);
    try assumption.
  { rewrite Hfiles5'. apply lookup_insert_eq. }
  { unfold os_path_exists, os_path_isfile in *. rewrite Hfiles5', Hdirs5'.
    rewrite lookup_insert_ne by (intros Heq; apply Hne; symmetry; exact Heq).
    exact Hside. }
  { rewrite Hfiles5'. rewrite lookup_insert_ne by exact Hfd. exact Hdf. }
  { right. rewrite Hdirs5'. exact Hdir. }
  exists w6. split; [| split].
  - run_fetch_prefix E a w Hwait Hmiss Hlog Hcut Hck.
    rewrite Hf. cbv beta iota zeta.
    rewrite (bind_ok _ _ w2 (set_umask 2 w2) (umask w2)); [| reflexivity].
    rewrite (bind_ok _ _ _ (set_umask 2 w2) true).
    2:{ unfold gets, os_path_exists. simpl.
        destruct Hd as [_ Hdirs2].
        rewrite (bool_decide_eq_true_2 (dirname f ∈ dirs w2));
          [rewrite orb_true_r; reflexivity |].
        rewrite Hdirs2. exact Hdir. }
    cbv beta iota. rewrite ret_bind.
    fold sent method.
    rewrite (bind_ok _ _ _ w3 r Hsend).
    rewrite Hcheck.
    rewrite (bind_ok _ _ w3 w5 tt).
    2:{ destruct (dl_show_progress a) eqn:Hprog; simpl;
          destruct (decide (status_code r = 200%Z)) as [_|Hno];
          try (exfalso; apply Hno; exact Hstatus).
        - rewrite (bind_ok _ _ w3 w4 tt Hopen).
          destruct (content_length r) eqn:Hcl;
            [exact Hwrite | exfalso; apply (Hlen eq_refl); reflexivity].
        - rewrite (bind_ok _ _ w3 w4 tt Hopen). exact Hwrite. }
    rewrite (bind_ok _ _ w5 w6 tt).
    2:{ rewrite (bind_ok _ _ w5 w6 true Hpost). reflexivity. }
    reflexivity.
  - rewrite Hfiles6, Hfiles5'. reflexivity.
  - congruence.
Qed.


(** A login with the name and the password given: the cookies of the
    answer, and the disk as it was. *)
Lemma get_cookie_returns_given (E : env) (usr pw : string) (w : world) :
  ∃ jar w', get_cookie E (Some usr) (Some pw) None false w = (Ok (Some jar), w')
            ∧ same_disk w w'.
Proof.
  unfold get_cookie, login_request. run_monad.
  eexists _, _. split; [reflexivity | split; reflexivity].
Qed.

(** X18. Remediation through [_test_file_] with [redownload]: a FITS
    file on disk that does not parse, of a host that [buildurl] knows and
    whose login is in store, is fetched again from its remote address and
    the body that parses replaces it, whether or not [erasebad] removed it
    first; the verdict of the call is still False, and no sidecar is
    written. *)
Theorem test_file_redownloads_bad_file (E : env) (f c u loc : string)
    (login : string * string) (r : response) (erasebad fromdl write_hash : bool)
    (w : world) :
  py_in ".fits" f = true →
  files w !! f = Some c → fits_parses E c = false →
  os_path_exists w (f ++ ".md5") = false →
  dirname f ∈ dirs w → files w !! dirname f = None → f ∉ dirs w →
  _localsource_to_source_ E f = (Some u, Some loc) →
  credentials E loc = Ok login →
  (∀ m ck, http E m u ck None = r) →
  status_code r = 200%Z → content_length r ≠ None →
  fits_parses E (content r) = true →
  (_test_file_ E f erasebad fromdl true write_hash w).1 = Ok false
  ∧ files (_test_file_ E f erasebad fromdl true write_hash w).2 !! f
    = Some (content r)
  ∧ files (_test_file_ E f erasebad fromdl true write_hash w).2 !! (f ++ ".md5")
    = None.
Proof.
  intros Hfits Hf Hbad Hside Hdir Hdf Hnd Hsrc Hcred Hhttp Hstatus Hlen Hparse.
  (* the failed read *)
  set (w1 := emit (EvFitsGetdata f) w).
  assert (Hread : fits_getdata E f w
                  = (Raise (OSError "cannot read the FITS file"), w1)).
  { unfold fits_getdata, read_file. run_monad. rewrite Hf, Hbad. reflexivity. }
  (* the two log lines and the removal *)
  assert (Hissue1 : ∃ w2,
            ((if fromdl
              then logger_info ("Download failed " ++ f ++ " seems corrupted (cannot open)")
              else logger_info ("cannot open file " ++ f)) ;;
             (if erasebad
              then logger_info ("removing " ++ f) ;; os_remove f
              else logger_info (f ++ " NOT ERASED"))) w1 = (Ok tt, w2)
            ∧ files w2 = (if erasebad then delete f (files w) else files w)
            ∧ dirs w2 = dirs w).
  { assert (Hisf : bool_decide (is_Some (files w !! f)) = true).
    { apply bool_decide_eq_true_2. eauto. }
    unfold os_remove, os_path_isfile.
    destruct fromdl, erasebad; run_monad; rewrite ?Hisf;
      eexists; (split; [reflexivity | split; reflexivity]). }
  destruct Hissue1 as (w2 & Hissue1 & Hfiles2 & Hdirs2).
  (* the login *)
  destruct login as [usr pw].
  destruct (get_cookie_returns_given E usr pw w2) as (jar & w3 & Hck & Hd3).
  destruct Hd3 as [Hfiles3 Hdirs3].
  (* the fetch *)
  set (a := {| dl_url := u; dl_session := None; dl_cutouts := false;
               dl_radec := None; dl_cutout_size := PyInt 30;
               dl_fileout := Some f; dl_overwrite := true;
               dl_cookies := cookies_of_option (Some jar);
               dl_show_progress := true;
               dl_chunk := 1024%positive; dl_wait := None;
               dl_randomize_wait := true; dl_filecheck := true;
               dl_erasebad := true; dl_write_hash := false; dl_data := None |}).
  assert (Hside3 : os_path_exists w3 (f ++ ".md5") = false).
  { unfold os_path_exists, os_path_isfile in *.
    rewrite Hfiles3, Hdirs3, Hfiles2, Hdirs2.
    destruct erasebad; [| exact Hside].
    rewrite lookup_delete_ne by (intros Heq; symmetry in Heq;
                                 exact (md5_name_differs f Heq)).
    exact Hside. }
  assert (Hfd : f ≠ dirname f) by (intros Heq; apply Hnd; rewrite Heq; exact Hdir).
  assert (Hnd3 : f ∉ dirs w3) by (rewrite Hdirs3, Hdirs2; exact Hnd).
  assert (Hdir3 : dirname f ∈ dirs w3) by (rewrite Hdirs3, Hdirs2; exact Hdir).
  assert (Hdf3 : files w3 !! dirname f = None).
  { rewrite Hfiles3, Hfiles2. destruct erasebad; [| exact Hdf].
    rewrite lookup_delete_ne by exact Hfd. exact Hdf. }
  destruct (download_writes_body E a f r w3 eq_refl eq_refl Hnd3 Hside3 Hdir3
              Hdf3 I eq_refl ltac:(discriminate) eq_refl Hhttp Hstatus
              (λ _, Hlen) Hfits Hparse) as (w4 & Hdl & Hfiles4 & Hdirs4).
  simpl in Hfiles4.
  (* the whole call *)
  assert (Hout : _test_file_ E f erasebad fromdl true write_hash w = (Ok false, w4)).
  { unfold _test_file_, _test_file_body. rewrite Hfits.
    unfold verify_unless_hashed, hash_for_file_exists.
    rewrite (bind_ok _ _ w w false); [| unfold gets; rewrite Hside; reflexivity].
    cbv beta iota. unfold try_except.
    rewrite (bind_raise _ _ w w1 _ Hread). cbv beta iota.
    change (is_FileNotFoundError (OSError "cannot read the FITS file")) with false.
    cbv iota.
    rewrite (bind_ok _ _ w1 w4 tt); [reflexivity |].
    unfold _fileissue_body.
    rewrite bind_unfold. rewrite bind_unfold in Hissue1.
    destruct ((if fromdl
               then logger_info ("Download failed " ++ f ++ " seems corrupted (cannot open)")
               else logger_info ("cannot open file " ++ f)) w1) as [[[]|e0] w1'];
      [| discriminate].
    rewrite bind_unfold. rewrite Hissue1.
    rewrite Hsrc. unfold _load_id_. rewrite Hcred.
    rewrite ret_bind. simpl fst. simpl snd.
    rewrite (bind_ok _ _ w2 w3 (Some jar) Hck).
    unfold redownload. fold a.
    rewrite (bind_ok _ _ w3 w4 ReturnsNone Hdl). reflexivity. }
  rewrite Hout. simpl. split; [reflexivity |].
  rewrite Hfiles4. split.
  - apply lookup_insert_eq.
  - rewrite lookup_insert_ne by (intros Heq; exact (md5_name_differs f (eq_sym Heq))).
    unfold os_path_exists, os_path_isfile in Hside3.
    apply orb_false_iff in Hside3 as [H1 _].
    apply bool_decide_eq_false in H1.
    destruct (files w3 !! (f ++ ".md5")) eqn:Hl; [| reflexivity].
    exfalso. apply H1. eauto.
Qed.

(** The truncated image of the demo cache, fetched again. *)
Lemma test_file_redownloads_bad_file_witness :
  files demo_world !! "/data/sci/bad.fits" = Some "SIMP"
  ∧ files (_test_file_ demo_env "/data/sci/bad.fits" true false true false
             demo_world).2 !! "/data/sci/bad.fits" = Some "SIMPLE image".
Proof.
  split; [reflexivity |].
  apply (test_file_redownloads_bad_file demo_env "/data/sci/bad.fits" "SIMP"
           "https://irsa.ipac.caltech.edu/ibe/data/ztf/data/sci/bad.fits"
           "irsa" ("user", "secret")
           (Response 200 "SIMPLE image" (Some 12%Z) ["irsa-cookie"])
           true false false demo_world);
    first [ reflexivity
          | vm_compute; reflexivity
          | vm_compute; congruence
          | vm_compute; set_solver
          | intros; reflexivity ].
Defined.


Lemma map_M_length {A B} (f : A → M B) (xs : list A) (ys : list B) (w w' : world) :
  map_M f xs w = (Ok ys, w') → length ys = length xs.
Proof.
  revert ys w w'. induction xs as [|x xs IH]; intros ys w w' H.
  - inversion H. reflexivity.
  - cbn [map_M] in H.
    apply bind_ok_inv in H as (y & w1 & _ & H).
    apply bind_ok_inv in H as (rest & w2 & Hrest & H).
    inversion H; subst. simpl. f_equal. eapply IH. exact Hrest.
Qed.

(** X19. With [exist] unset, [get_file] is a naming call: it returns the
    list of the local names, one per name and suffix, never squeezed to a
    single path, and the world is exactly as before (nothing is tested,
    nothing is fetched). *)
Theorem get_file_names_only (E : env) (B : buildurl)
    (py_float : string → option Q) (filename : list string)
    (suffix : list (option string)) (session : option nat)
    (downloadit check_suffix : bool) (dlfrom : string) (overwrite : bool)
    (maxnprocess : Z) (test_file squeeze show_progress : bool)
    (client : option dask_client) (wait : wait_arg) (fill_notexist : string)
    (w : world) :
  (get_file E B py_float filename suffix session downloadit check_suffix dlfrom
     overwrite maxnprocess false test_file squeeze show_progress client wait
     fill_notexist w).2 = w
  ∧ (get_file E B py_float filename suffix session downloadit check_suffix
       dlfrom overwrite maxnprocess false test_file squeeze show_progress client wait
       fill_notexist w).1
    = match (local_names B filename suffix check_suffix w).1 with
      | Ok names => Ok (Paths names)
      | Raise e => Raise e
      end
  ∧ ∀ names, (local_names B filename suffix check_suffix w).1 = Ok names →
             length names = (length filename * length suffix)%nat.
Proof.
  pose proof (local_names_pure B filename suffix check_suffix w) as Hpure.
  split; [| split].
  - unfold get_file. rewrite bind_unfold.
    destruct (local_names B filename suffix check_suffix w) as [[names|e] w0];
      simpl in *; exact Hpure.
  - unfold get_file. rewrite bind_unfold.
    destruct (local_names B filename suffix check_suffix w) as [[names|e] w0];
      reflexivity.
  - clear Hpure. induction filename as [|f rest IH]; intros names H.
    + inversion H. reflexivity.
    + cbn [local_names] in H.
      apply bind_fst_ok in H as (here & w1 & Hhere & H).
      apply bind_fst_ok in H as (more & w2 & Hmore & H).
      inversion H; subst names.
      pose proof (local_names_pure B rest suffix check_suffix w1) as Hp.
      pose proof (map_M_lift_pure
                    (λ suffix_, filename_to_url B f suffix_ "local" check_suffix)
                    suffix w) as Hp1.
      assert (Hw1 : w1 = w).
      { pose proof (f_equal snd Hhere) as Hsnd. simpl in Hsnd.
        rewrite <- Hsnd. exact Hp1. }
      subst w1.
      rewrite length_app. simpl.
      rewrite (IH more) by (rewrite Hmore; reflexivity).
      f_equal. eapply map_M_length. exact Hhere.
Qed.
